(** * Codacy coding-standard generator: a shallow embedding

    The program is a sequential script over an HTTP API
    ([src/api/codacy.py], [src/main.py]).  The embedding keeps the
    shape of the Python code:

    - values decoded from JSON are dynamically typed ([JSON]); the
      dictionary and string operations the script applies to them
      ([dict.get], [in], [str.lower], truthiness, ...) raise the Python
      exception they raise on a value of the wrong type;
    - the remote service is a function from the requests received so
      far and the current request to a reply ([Server]);
    - every effect (HTTP request, logging call, [time.sleep]) is an
      event appended to a trace which the functions thread through;
    - the [while] loop of [get_patterns] takes fuel.

    Strings are ASCII strings.  JSON numbers are integers. *)

From Stdlib Require Import String Ascii List ZArith Lia Bool Arith.
Import ListNotations.
Set Warnings "-register-all".
Open Scope string_scope.
Open Scope list_scope.

(** ** Strings, as Python uses them here *)

Module PyStr.

Definition lower_ascii (c : ascii) : ascii :=
  let n := nat_of_ascii c in
  if Nat.leb 65 n && Nat.leb n 90 then ascii_of_nat (n + 32) else c.

(** [str.lower()] *)
Fixpoint lower (s : string) : string :=
  match s with
  | EmptyString => EmptyString
  | String c s' => String (lower_ascii c) (lower s')
  end.

(** [s.lstrip('/')] *)
Fixpoint lstrip_slash (s : string) : string :=
  match s with
  | String "/" s' => lstrip_slash s'
  | _ => s
  end.

(** [s.rstrip('/')] *)
Fixpoint rstrip_slash (s : string) : string :=
  match s with
  | EmptyString => EmptyString
  | String c s' =>
      match c, rstrip_slash s' with
      | "/"%char, EmptyString => EmptyString
      | _, r => String c r
      end
  end.

(** [needle in s] for two strings *)
Fixpoint contains (needle s : string) : bool :=
  prefix needle s ||
  match s with
  | EmptyString => false
  | String _ s' => contains needle s'
  end.

(** [s.replace(old, new)] for a non-empty [old]: the occurrences are
    taken from the left and do not overlap; [skip] counts the
    characters of an occurrence still to be dropped. *)
Fixpoint replace_from (old new : string) (skip : nat) (s : string) : string :=
  match s with
  | EmptyString => EmptyString
  | String c s' =>
      match skip with
      | S k => replace_from old new k s'
      | O =>
          if prefix old s
          then new ++ replace_from old new (String.length old - 1) s'
          else String c (replace_from old new 0 s')
      end
  end.

Definition replace (old new s : string) : string := replace_from old new 0 s.

(** The characters of a string, as one-character strings (iteration
    over a [str]). *)
Fixpoint chars (s : string) : list string :=
  match s with
  | EmptyString => []
  | String c s' => String c EmptyString :: chars s'
  end.

End PyStr.

(** ** Values decoded from JSON *)

Inductive JSON : Type :=
| JNull
| JBool (b : bool)
| JInt (z : Z)
| JStr (s : string)
| JArr (items : list JSON)
| JObj (fields : list (string * JSON)).

(** ** Exceptions *)

Inductive Body : Type :=
| NoBody                  (* [response.text] is empty *)
| JsonBody (v : JSON)     (* [response.text] decodes to [v] *)
| BadBody (text : string) (* [response.text] is not empty and is not JSON *).

Record Response : Type := mkResponse {
  status_code : Z;
  body : Body
}.

Inductive Exn : Type :=
| ConnectionError (why : string)  (* [requests.request] raised: no response *)
| HTTPError (r : Response)        (* [raise_for_status] raised *)
| JSONDecodeError                 (* [response.json()] raised *)
| ValueError (msg : string)
| AttributeError
| TypeError
| KeyError (key : string)
| UnboundLocalError (var : string)
| SystemExit (code : Z).

(** [except Exception] catches everything but [SystemExit]. *)
Definition is_Exception (e : Exn) : bool :=
  match e with
  | SystemExit _ => false
  | _ => true
  end.

(** The exceptions of [requests.exceptions.RequestException].  Since
    requests 2.27 the error of [response.json()] is one of them. *)
Definition is_RequestException (e : Exn) : bool :=
  match e with
  | ConnectionError _ | HTTPError _ | JSONDecodeError => true
  | _ => false
  end.

Inductive Result (A : Type) : Type :=
| Ok (a : A)
| Err (e : Exn).
Arguments Ok {A} a.
Arguments Err {A} e.

(** ** The operations of Python on decoded values *)

Module Py.

Fixpoint lookup (k : string) (fields : list (string * JSON)) : option JSON :=
  match fields with
  | [] => None
  | (k', v) :: rest => if String.eqb k k' then Some v else lookup k rest
  end.

(** [d.get(k, default)]; only a dict has [get]. *)
Definition get (d : JSON) (k : string) (default : JSON) : Result JSON :=
  match d with
  | JObj fields =>
      match lookup k fields with
      | Some v => Ok v
      | None => Ok default
      end
  | _ => Err AttributeError
  end.

(** [d[k]] for a string [k] *)
Definition getitem (d : JSON) (k : string) : Result JSON :=
  match d with
  | JObj fields =>
      match lookup k fields with
      | Some v => Ok v
      | None => Err (KeyError k)
      end
  | _ => Err TypeError
  end.

Definition is_str (k : string) (v : JSON) : bool :=
  match v with
  | JStr s => String.eqb s k
  | _ => false
  end.

(** [k in d] for a string [k]: a key of a dict, an element of a list,
    a substring of a string. *)
Definition contains (k : string) (d : JSON) : Result bool :=
  match d with
  | JObj fields =>
      Ok (match lookup k fields with Some _ => true | None => false end)
  | JArr items => Ok (existsb (is_str k) items)
  | JStr s => Ok (PyStr.contains k s)
  | _ => Err TypeError
  end.

(** What iterating over a value yields. *)
Definition iter (v : JSON) : Result (list JSON) :=
  match v with
  | JArr items => Ok items
  | JObj fields => Ok (map (fun kv => JStr (fst kv)) fields)
  | JStr s => Ok (map JStr (PyStr.chars s))
  | _ => Err TypeError
  end.

(** [bool(v)] *)
Definition truthy (v : JSON) : bool :=
  match v with
  | JNull => false
  | JBool b => b
  | JInt z => negb (Z.eqb z 0)
  | JStr s => negb (String.eqb s "")
  | JArr items => match items with [] => false | _ => true end
  | JObj fields => match fields with [] => false | _ => true end
  end.

(** [s.lower()]; only a [str] has [lower]. *)
Definition lower (v : JSON) : Result string :=
  match v with
  | JStr s => Ok (PyStr.lower s)
  | _ => Err AttributeError
  end.

(** [range(start, stop, step)] for a positive [step]; at most [fuel]
    elements. *)
Fixpoint range_from (fuel start stop step : nat) : list nat :=
  match fuel with
  | O => []
  | S fuel' =>
      if Nat.ltb start stop
      then start :: range_from fuel' (start + step) stop step
      else []
  end.

Definition range (start stop step : nat) : list nat :=
  range_from stop start stop step.

(** [l[i:j]] for [0 <= i <= j] *)
Definition slice {A : Type} (l : list A) (i j : nat) : list A :=
  firstn (j - i) (skipn i l).

End Py.

(** ** The [requests] library, as far as the client uses it *)

Module Requests.

(** The keyword arguments of [requests.request]. *)
Record Request : Type := mkRequest {
  method : string;
  url : string;
  headers : list (string * string);
  json_arg : option JSON;
  data : option string;
  params : option (list (string * JSON))
}.

(** What [requests.request] does with a request: it raises for a
    transport failure, or returns the response of the server. *)
Inductive Reply : Type :=
| Unreachable (why : string)
| Responded (r : Response).

(** The client and server error statuses, 400 to 599. *)
Definition error_status (r : Response) : bool :=
  (400 <=? status_code r)%Z && (status_code r <? 600)%Z.

(** [Response.raise_for_status()] raises [HTTPError] for the client
    and server error statuses. *)
Definition raise_for_status (r : Response) : Result unit :=
  if error_status r then Err (HTTPError r) else Ok tt.

(** [bool(response.text)] *)
Definition has_text (r : Response) : bool :=
  match body r with
  | NoBody => false
  | _ => true
  end.

(** [Response.json()] *)
Definition json (r : Response) : Result JSON :=
  match body r with
  | JsonBody v => Ok v
  | _ => Err JSONDecodeError
  end.

(** [e.response] of a [RequestException] *)
Definition response (e : Exn) : option Response :=
  match e with
  | HTTPError r => Some r
  | _ => None
  end.

End Requests.

(** The remote service: the reply to a request, given the requests it
    received before. *)
Definition Server : Type :=
  list Requests.Request -> Requests.Request -> Requests.Reply.

(** ** Effects *)

Inductive Level : Type := DEBUG | INFO | WARNING | ERROR.

Inductive Event : Type :=
| EvRequest (r : Requests.Request)
| EvLog (level : Level) (msg : string)
| EvSleep (seconds : Z).

Definition Trace : Type := list Event.

Fixpoint requests_of (t : Trace) : list Requests.Request :=
  match t with
  | [] => []
  | EvRequest r :: t' => r :: requests_of t'
  | _ :: t' => requests_of t'
  end.

Fixpoint logs_of (t : Trace) : list (Level * string) :=
  match t with
  | [] => []
  | EvLog l m :: t' => (l, m) :: logs_of t'
  | _ :: t' => logs_of t'
  end.

Inductive Outcome (A : Type) : Type :=
| Ret (a : A)
| Raise (e : Exn)
| OutOfFuel.
Arguments Ret {A} a.
Arguments Raise {A} e.
Arguments OutOfFuel {A}.

(** A computation maps the trace so far to its outcome and the trace
    it leaves. *)
Definition M (A : Type) : Type := Trace -> Outcome A * Trace.

Definition ret {A : Type} (a : A) : M A := fun t => (Ret a, t).

Definition raise {A : Type} (e : Exn) : M A := fun t => (Raise e, t).

Definition out_of_fuel {A : Type} : M A := fun t => (OutOfFuel, t).

Definition bind {A B : Type} (m : M A) (k : A -> M B) : M B :=
  fun t =>
    match m t with
    | (Ret a, t') => k a t'
    | (Raise e, t') => (Raise e, t')
    | (OutOfFuel, t') => (OutOfFuel, t')
    end.

Definition lift {A : Type} (r : Result A) : M A :=
  match r with
  | Ok a => ret a
  | Err e => raise e
  end.

Definition emit (ev : Event) : M unit := fun t => (Ret tt, t ++ [ev]).

(** [try: m  except <catches> as e: handler e] *)
Definition try_except {A : Type} (catches : Exn -> bool) (m : M A)
    (handler : Exn -> M A) : M A :=
  fun t =>
    match m t with
    | (Raise e, t') => if catches e then handler e t' else (Raise e, t')
    | r => r
    end.

Declare Scope monad_scope.
Delimit Scope monad_scope with monad.
Notation "x <- m ;; k" := (bind m (fun x => k))
  (at level 61, m at next level, right associativity) : monad_scope.
Notation "m ;; k" := (bind m (fun _ => k))
  (at level 61, right associativity) : monad_scope.
Bind Scope monad_scope with M.
Open Scope monad_scope.

(** [logger.<level>(msg)] *)
Definition log (level : Level) (msg : string) : M unit := emit (EvLog level msg).

(** [time.sleep(seconds)] *)
Definition sleep (seconds : Z) : M unit := emit (EvSleep seconds).

(** ** Configuration ([src/config/settings.py]) *)

Module Settings.

Record t : Type := mk {
  api_token : string;
  org_name : string;
  provider : string;
  api_url : string;
  log_level : string
}.

(** The environment of the process, as [os.getenv] reads it. *)
Definition Environ : Type := string -> option string.

(** [Settings._get_required_env]: a value that is missing or empty
    raises. *)
Definition _get_required_env (environ : Environ) (key : string) : Result string :=
  match environ key with
  | Some value =>
      if String.eqb value ""
      then Err (ValueError ("Required environment variable '" ++ key
                            ++ "' is not set"))
      else Ok value
  | None =>
      Err (ValueError ("Required environment variable '" ++ key
                       ++ "' is not set"))
  end.

(** [Settings._get_optional_env]: [os.getenv(key, default)]. *)
Definition _get_optional_env (environ : Environ) (key default : string) : string :=
  match environ key with
  | Some value => value
  | None => default
  end.

(** [Settings.__init__] *)
Definition __init__ (environ : Environ) : Result t :=
  match _get_required_env environ "CODACY_API_TOKEN" with
  | Err e => Err e
  | Ok api_token =>
      match _get_required_env environ "CODACY_ORG_NAME" with
      | Err e => Err e
      | Ok org_name =>
          match _get_required_env environ "CODACY_PROVIDER" with
          | Err e => Err e
          | Ok provider =>
              Ok {| api_token := api_token;
                    org_name := org_name;
                    provider := provider;
                    api_url :=
                      _get_optional_env environ "CODACY_API_URL"
                        "https://app.codacy.com";
                    log_level := _get_optional_env environ "LOG_LEVEL" "INFO" |}
          end
      end
  end.

End Settings.

(** ** The API client ([src/api/codacy.py]) *)

Module CodacyAPI.

Record t : Type := mk {
  base_url : string;
  headers : list (string * string);
  provider : string;
  org_name : string
}.

(** [CodacyAPI.__init__] *)
Definition __init__ (settings : Settings.t) : t :=
  let base_url := PyStr.rstrip_slash (Settings.api_url settings) in
  let authority :=
    PyStr.replace "http://" "" (PyStr.replace "https://" "" base_url) in
  {| base_url := base_url;
     headers := [ ("authority", authority);
                  ("Content-Type", "application/json");
                  ("Accept", "application/json");
                  ("api-token", Settings.api_token settings);
                  ("x-requested-with", "XMLHttpRequest") ];
     provider := Settings.provider settings;
     org_name := Settings.org_name settings |}.

Definition languages : list string :=
  [ "CSharp"; "Java"; "Go"; "Kotlin"; "Ruby"; "Scala"; "Python"; "TypeScript";
    "Javascript"; "CoffeeScript"; "Swift"; "JSP"; "VisualBasic"; "PHP"; "PLSQL";
    "SQL"; "TSQL"; "Crystal"; "Haskell"; "Elixir"; "Groovy"; "Apex"; "VisualForce";
    "Velocity"; "CSS"; "HTML"; "LESS"; "SASS"; "Dockerfile"; "Terraform"; "Shell";
    "JSON"; "XML"; "Perl"; "Lua"; "Powershell"; "YAML"; "Cobol"; "Rust"; "Erlang";
    "ABAP"; "Objective C"; "Markdown"; "Julia"; "Scratch"; "FSharp"; "Lisp";
    "Prolog"; "R"; "Solidity"; "Elm"; "Fortran"; "Dart"; "OCaml"; "Clojure";
    "C"; "CPP" ].

Section Client.

(** The service the client talks to. *)
Variable srv : Server.

(** [str(v)] of a decoded value that is not a [str], and [str(e)] of an
    exception: the text Python prints for them. *)
Variable str_of : JSON -> string.
Variable str_exn : Exn -> string.

(** [f"{v}"] *)
Definition fmt (v : JSON) : string :=
  match v with
  | JStr s => s
  | _ => str_of v
  end.

(** [requests.request], called with keyword arguments *)
Definition request (req : Requests.Request) : M Response :=
  fun t =>
    match srv (requests_of t) req with
    | Requests.Unreachable why =>
        (Raise (ConnectionError why), t ++ [EvRequest req])
    | Requests.Responded r => (Ret r, t ++ [EvRequest req])
    end.

Variable self : t.

Definition _make_request (method endpoint : string) (json : option JSON)
    (params : option (list (string * JSON))) : M JSON :=
  let url := (base_url self ++ "/" ++ PyStr.lstrip_slash endpoint)%string in
  log DEBUG ("Making " ++ method ++ " request to " ++ url) ;;
  try_except is_RequestException
    (response <- request {| Requests.method := method;
                            Requests.url := url;
                            Requests.headers := headers self;
                            Requests.json_arg := json;
                            Requests.data := None;
                            Requests.params := params |} ;;
     lift (Requests.raise_for_status response) ;;
     if Requests.has_text response
     then lift (Requests.json response)
     else ret (JObj []))
    (fun e =>
       log ERROR ("API request failed: " ++ str_exn e) ;;
       match Requests.response e with
       | Some r =>
           (* [hasattr(e.response, 'json')] *)
           v <- lift (Requests.json r) ;;
           log ERROR ("Response: " ++ fmt v)
       | None => ret tt
       end ;;
       raise e).

Definition standards_endpoint : string :=
  "api/v3/organizations/" ++ provider self ++ "/" ++ org_name self
  ++ "/coding-standards".

Definition create_coding_standard (name : string) : M JSON :=
  let endpoint := standards_endpoint in
  let data :=
    JObj [ ("name", JStr name); ("languages", JArr (map JStr languages)) ] in
  _make_request "POST" endpoint (Some data) None.

Definition get_coding_standards : M JSON :=
  let endpoint := standards_endpoint in
  response <- _make_request "GET" endpoint None None ;;
  lift (Py.get response "data" (JArr [])).

Definition get_available_tools : M JSON :=
  let endpoint := "api/v3/tools" in
  response <- _make_request "GET" endpoint None None ;;
  lift (Py.get response "data" (JArr [])).

Definition tool_endpoint (coding_standard_id tool_uuid : JSON) : string :=
  standards_endpoint ++ "/" ++ fmt coding_standard_id
  ++ "/tools/" ++ fmt tool_uuid.

Definition enable_tool (coding_standard_id tool_uuid : JSON) : M JSON :=
  let endpoint := tool_endpoint coding_standard_id tool_uuid in
  let data := JObj [ ("enabled", JBool true); ("patterns", JArr []) ] in
  response <- _make_request "PATCH" endpoint (Some data) None ;;
  sleep 2 ;;
  ret response.

(** One turn of the [while has_next_page] loop of [get_patterns] per
    unit of fuel; [patterns] and [cursor] are the local variables. *)
Fixpoint get_patterns_loop (fuel : nat) (coding_standard_id tool_uuid : JSON)
    (limit : Z) (patterns : list JSON) (cursor : JSON) : M (list JSON) :=
  match fuel with
  | O => out_of_fuel
  | S fuel' =>
      let endpoint :=
        (tool_endpoint coding_standard_id tool_uuid ++ "/patterns")%string in
      let params :=
        [ ("limit", JInt limit) ]
        ++ (if Py.truthy cursor then [ ("cursor", cursor) ] else []) in
      response <- _make_request "GET" endpoint None (Some params) ;;
      page <- lift (Py.get response "data" (JArr [])) ;;
      items <- lift (Py.iter page) ;;
      let patterns := patterns ++ items in
      pagination <- lift (Py.get response "pagination" (JObj [])) ;;
      has_next_page <- lift (Py.contains "cursor" pagination) ;;
      if has_next_page
      then
        cursor <- lift (Py.getitem pagination "cursor") ;;
        get_patterns_loop fuel' coding_standard_id tool_uuid limit patterns cursor
      else ret patterns
  end.

Definition get_patterns (fuel : nat) (coding_standard_id tool_uuid : JSON)
    (limit : Z) : M (list JSON) :=
  get_patterns_loop fuel coding_standard_id tool_uuid limit [] (JStr "").

Definition update_patterns (coding_standard_id tool_uuid : JSON)
    (patterns : list JSON) : M JSON :=
  let endpoint := tool_endpoint coding_standard_id tool_uuid in
  let data := JObj [ ("enabled", JBool true); ("patterns", JArr patterns) ] in
  response <- _make_request "PATCH" endpoint (Some data) None ;;
  sleep 2 ;;
  ret response.

Definition promote_draft (coding_standard_id : JSON) : M JSON :=
  let endpoint :=
    (standards_endpoint ++ "/" ++ fmt coding_standard_id ++ "/promote")%string in
  _make_request "POST" endpoint None None.

Definition set_default (coding_standard_id : JSON) : M JSON :=
  let endpoint :=
    (standards_endpoint ++ "/" ++ fmt coding_standard_id ++ "/setDefault")%string in
  let data := JObj [ ("isDefault", JBool true) ] in
  _make_request "POST" endpoint (Some data) None.

End Client.

End CodacyAPI.

(** ** The orchestrator ([src/main.py]) *)

Module Main.

Section Orchestrator.

Variable srv : Server.
Variable str_of : JSON -> string.
Variable str_exn : Exn -> string.
Variable api : CodacyAPI.t.

Local Abbreviation fmt := (CodacyAPI.fmt str_of).

(** The entry [process_patterns] appends for a selected pattern. *)
Definition disabled (pattern_id : JSON) : JSON :=
  JObj [ ("id", pattern_id); ("enabled", JBool false) ].

(** [severity in ['info', 'minor']] *)
Definition is_minor (severity : string) : bool :=
  existsb (String.eqb severity) [ "info"; "minor" ].

(** The [for pattern in patterns] loop of [process_patterns];
    [patterns_to_update] is the list it appends to. *)
Fixpoint for_pattern_in (patterns : list JSON) (dry_run : bool)
    (patterns_to_update : list JSON) : M (list JSON) :=
  match patterns with
  | [] => ret patterns_to_update
  | pattern :: rest =>
      pattern_def <- lift (Py.get pattern "patternDefinition" (JObj [])) ;;
      pattern_id <- lift (Py.get pattern_def "id" JNull) ;;
      level <- lift (Py.get pattern_def "severityLevel" (JStr "")) ;;
      severity <- lift (Py.lower level) ;;
      if is_minor severity
      then
        (if dry_run
         then log INFO ("[DRY RUN] Would disable pattern: " ++ fmt pattern_id
                        ++ " (" ++ severity ++ ")")
         else ret tt) ;;
        for_pattern_in rest dry_run (patterns_to_update ++ [ disabled pattern_id ])
      else for_pattern_in rest dry_run patterns_to_update
  end.

(** The [for i in range(0, len(patterns_to_update), 500)] loop. *)
Fixpoint for_batch_in (standard_id tool_uuid : JSON)
    (patterns_to_update : list JSON) (starts : list nat) : M unit :=
  match starts with
  | [] => ret tt
  | i :: rest =>
      let batch := Py.slice patterns_to_update i (i + 500) in
      CodacyAPI.update_patterns srv str_of str_exn api standard_id tool_uuid batch ;;
      log INFO ("Disabled " ++ str_of (JInt (Z.of_nat (length batch)))
                ++ " minor patterns") ;;
      for_batch_in standard_id tool_uuid patterns_to_update rest
  end.

Definition process_patterns (fuel : nat) (standard_id tool_uuid : JSON)
    (dry_run : bool) : M unit :=
  patterns <- CodacyAPI.get_patterns srv str_of str_exn api fuel
                standard_id tool_uuid 100 ;;
  patterns_to_update <- for_pattern_in patterns dry_run [] ;;
  if match patterns_to_update with [] => false | _ => true end && negb dry_run
  then for_batch_in standard_id tool_uuid patterns_to_update
         (Py.range 0 (length patterns_to_update) 500)
  else ret tt.

(** The body of the [try] of the tool loop, from the test of
    [tool_uuid] and [tool_name] on. *)
Definition process_tool (fuel : nat) (standard_id : JSON) (dry_run : bool)
    (tool tool_uuid tool_name : JSON) : M unit :=
  if negb (Py.truthy tool_uuid) || negb (Py.truthy tool_name)
  then log WARNING ("Skipping tool with incomplete data: " ++ fmt tool)
  else
    log INFO ("Processing tool: " ++ fmt tool_name) ;;
    if negb dry_run
    then
      CodacyAPI.enable_tool srv str_of str_exn api standard_id tool_uuid ;;
      log INFO ("Enabled tool: " ++ fmt tool_name) ;;
      process_patterns fuel standard_id tool_uuid dry_run
    else
      log INFO ("[DRY RUN] Would enable tool: " ++ fmt tool_name) ;;
      process_patterns fuel standard_id tool_uuid dry_run.

(** The [except Exception as e] clause of the tool loop; [tool_name] is
    the local variable, unbound until a first tool has given its name. *)
Definition tool_failed (tool_name : option JSON) (e : Exn) : M unit :=
  match tool_name with
  | Some name =>
      log ERROR ("Error processing tool " ++ fmt name ++ ": " ++ str_exn e)
  | None => raise (UnboundLocalError "tool_name")
  end.

(** The [for tool in tools] loop.  [tool_name] keeps the value the
    previous turn gave it. *)
Fixpoint for_tool_in (fuel : nat) (standard_id : JSON) (dry_run : bool)
    (tools : list JSON) (tool_name : option JSON) : M unit :=
  match tools with
  | [] => ret tt
  | tool :: rest =>
      match Py.get tool "uuid" JNull, Py.get tool "name" JNull with
      | Ok tool_uuid, Ok name =>
          try_except is_Exception
            (process_tool fuel standard_id dry_run tool tool_uuid name)
            (tool_failed (Some name)) ;;
          for_tool_in fuel standard_id dry_run rest (Some name)
      | Err e, _ | _, Err e =>
          tool_failed tool_name e ;;
          for_tool_in fuel standard_id dry_run rest tool_name
      end
  end.

(** The first step of [create_standard]: the id of the new standard. *)
Definition new_standard_id (project_name : string) (dry_run : bool) : M JSON :=
  if dry_run
  then
    log INFO "[DRY RUN] Would create new coding standard" ;;
    ret (JStr "dry-run-id")
  else
    response <- CodacyAPI.create_coding_standard srv str_of str_exn api
                  project_name ;;
    data <- lift (Py.get response "data" (JObj [])) ;;
    standard_id <- lift (Py.get data "id" JNull) ;;
    if negb (Py.truthy standard_id)
    then raise (ValueError "Failed to get coding standard ID from response")
    else
      log INFO ("Created coding standard with ID: " ++ fmt standard_id) ;;
      ret standard_id.

(** The last steps of [create_standard]. *)
Definition publish (standard_id : JSON) (dry_run : bool) : M unit :=
  (if negb dry_run
   then
     log INFO "Promoting coding standard..." ;;
     CodacyAPI.promote_draft srv str_of str_exn api standard_id ;;
     log INFO "Setting as default coding standard..." ;;
     CodacyAPI.set_default srv str_of str_exn api standard_id ;;
     ret tt
   else ret tt) ;;
  log INFO "Successfully created and configured coding standard".

(** The body of the [try] of [create_standard]. *)
Definition workflow (fuel : nat) (project_name : string) (dry_run : bool)
    : M unit :=
  log INFO ("Creating new coding standard: " ++ project_name) ;;
  standard_id <- new_standard_id project_name dry_run ;;
  log INFO "Fetching available tools..." ;;
  tools <- CodacyAPI.get_available_tools srv str_of str_exn api ;;
  if negb (Py.truthy tools)
  then log WARNING "No tools found"
  else
    items <- lift (Py.iter tools) ;;
    for_tool_in fuel standard_id dry_run items None ;;
    publish standard_id dry_run.

(** [create_standard], once the logger and the client exist. *)
Definition create_standard (fuel : nat) (project_name : string)
    (dry_run : bool) : M unit :=
  try_except is_Exception (workflow fuel project_name dry_run)
    (fun e =>
       log ERROR ("Failed to create coding standard: " ++ str_exn e) ;;
       raise (SystemExit 1)).

(** The exit status of the process: [sys.exit(code)] gives [code], a
    run that returns gives 0, an exception nobody caught gives 1. *)
Definition exit_status (o : Outcome unit) : option Z :=
  match o with
  | Ret _ => Some 0%Z
  | Raise (SystemExit code) => Some code
  | Raise _ => Some 1%Z
  | OutOfFuel => None
  end.

Definition main (fuel : nat) (project_name : string) (dry_run : bool)
    : Trace -> option Z * Trace :=
  fun t =>
    let (o, t') := create_standard fuel project_name dry_run t in
    (exit_status o, t').

End Orchestrator.

End Main.


(** * Vocabulary of the statements *)

(** The request [_make_request] hands to [requests.request]. *)
Definition sent (api : CodacyAPI.t) (method endpoint : string)
    (json : option JSON) (params : option (list (string * JSON)))
    : Requests.Request :=
  {| Requests.method := method;
     Requests.url :=
       CodacyAPI.base_url api ++ "/" ++ PyStr.lstrip_slash endpoint;
     Requests.headers := CodacyAPI.headers api;
     Requests.json_arg := json;
     Requests.data := None;
     Requests.params := params |}.

(** What becomes of a call of [_make_request], by the reply to its
    request. *)
Definition outcome_of (reply : Requests.Reply) : Outcome JSON :=
  match reply with
  | Requests.Unreachable why => Raise (ConnectionError why)
  | Requests.Responded r =>
      match Requests.error_status r, body r with
      | true, JsonBody _ => Raise (HTTPError r)
      | true, _ => Raise JSONDecodeError
      | false, NoBody => Ret (JObj [])
      | false, JsonBody v => Ret v
      | false, BadBody _ => Raise JSONDecodeError
      end
  end.

(** The error lines [_make_request] logs, by the reply to its request. *)
Definition error_lines (str_of : JSON -> string) (str_exn : Exn -> string)
    (reply : Requests.Reply) : list Event :=
  match reply with
  | Requests.Unreachable why =>
      [ EvLog ERROR ("API request failed: " ++ str_exn (ConnectionError why)) ]
  | Requests.Responded r =>
      match Requests.error_status r, body r with
      | true, JsonBody v =>
          [ EvLog ERROR ("API request failed: " ++ str_exn (HTTPError r));
            EvLog ERROR ("Response: " ++ CodacyAPI.fmt str_of v) ]
      | true, _ =>
          [ EvLog ERROR ("API request failed: " ++ str_exn (HTTPError r)) ]
      | false, BadBody _ =>
          [ EvLog ERROR ("API request failed: " ++ str_exn JSONDecodeError) ]
      | false, _ => []
      end
  end.

(** The events of one call of [_make_request]. *)
Definition exchange (str_of : JSON -> string) (str_exn : Exn -> string)
    (req : Requests.Request) (reply : Requests.Reply) : list Event :=
  [ EvLog DEBUG ("Making " ++ Requests.method req ++ " request to "
                 ++ Requests.url req);
    EvRequest req ]
  ++ error_lines str_of str_exn reply.

(** ** Pages of patterns *)

(** A paginated response: a dict whose [data], when it has one, is a
    list and whose [pagination], when it has one, is a dict. *)
Definition is_page (v : JSON) : bool :=
  match v with
  | JObj fields =>
      match Py.lookup "data" fields with
      | None | Some (JArr _) => true
      | _ => false
      end
      && match Py.lookup "pagination" fields with
         | None | Some (JObj _) => true
         | _ => false
         end
  | _ => false
  end.

(** The [data] array of a page. *)
Definition page_data (v : JSON) : list JSON :=
  match v with
  | JObj fields =>
      match Py.lookup "data" fields with
      | Some (JArr items) => items
      | _ => []
      end
  | _ => []
  end.

(** The [cursor] of the pagination block of a page, when it has one. *)
Definition page_cursor (v : JSON) : option JSON :=
  match v with
  | JObj fields =>
      match Py.lookup "pagination" fields with
      | Some (JObj block) => Py.lookup "cursor" block
      | _ => None
      end
  | _ => None
  end.

Definition has_cursor (v : JSON) : bool :=
  match page_cursor v with
  | Some _ => true
  | None => false
  end.

(** The cursor [get_patterns] keeps after a page. *)
Definition next_cursor (v : JSON) : JSON :=
  match page_cursor v with
  | Some c => c
  | None => JNull
  end.

(** The request of [get_patterns] for the page after [cursor]. *)
Definition patterns_request (str_of : JSON -> string) (api : CodacyAPI.t)
    (coding_standard_id tool_uuid : JSON) (limit : Z) (cursor : JSON)
    : Requests.Request :=
  sent api "GET"
    (CodacyAPI.tool_endpoint str_of api coding_standard_id tool_uuid
     ++ "/patterns")
    None
    (Some (("limit", JInt limit)
           :: (if Py.truthy cursor then [ ("cursor", cursor) ] else []))).

(** The events of a request for the page after [cursor] that succeeds. *)
Definition page_events (str_of : JSON -> string) (api : CodacyAPI.t)
    (coding_standard_id tool_uuid : JSON) (limit : Z) (cursor : JSON)
    : list Event :=
  let req := patterns_request str_of api coding_standard_id tool_uuid limit cursor in
  [ EvLog DEBUG ("Making GET request to " ++ Requests.url req);
    EvRequest req ].

(** The server answers the requests that follow the [n] first ones with
    the given values, one after the other, whatever it is asked. *)
Definition answers_in_turn (srv : Server) (n : nat) (pages : list JSON) : Prop :=
  forall k p hist req,
    nth_error pages k = Some p ->
    length hist = n + k ->
    outcome_of (srv hist req) = Ret p.

(** The same for an endless sequence of values. *)
Definition answers_forever (srv : Server) (n : nat) (pages : nat -> JSON) : Prop :=
  forall k hist req,
    length hist = n + k ->
    outcome_of (srv hist req) = Ret (pages k).

(** The cursors [get_patterns] sends while it goes through [pages],
    starting with [cursor], and the cursor it holds afterwards. *)
Fixpoint cursors_before (cursor : JSON) (pages : list JSON) : list JSON :=
  match pages with
  | [] => []
  | p :: rest => cursor :: cursors_before (next_cursor p) rest
  end.

Fixpoint cursor_after (cursor : JSON) (pages : list JSON) : JSON :=
  match pages with
  | [] => cursor
  | p :: rest => cursor_after (next_cursor p) rest
  end.

(** The requests sent between the trace [t] and a later trace [t']. *)
Definition sent_between (t t' : Trace) : list Requests.Request :=
  skipn (length (requests_of t)) (requests_of t').

(** ** The severity filter *)

(** What one turn of the pattern loop makes of a pattern: an error, or
    the id and the lower-cased severity of a pattern it selects, or
    nothing. *)
Definition examine (pattern : JSON) : Result (option (JSON * string)) :=
  match Py.get pattern "patternDefinition" (JObj []) with
  | Err e => Err e
  | Ok pattern_def =>
      match Py.get pattern_def "id" JNull with
      | Err e => Err e
      | Ok pattern_id =>
          match Py.get pattern_def "severityLevel" (JStr "") with
          | Err e => Err e
          | Ok level =>
              match Py.lower level with
              | Err e => Err e
              | Ok severity =>
                  Ok (if Main.is_minor severity
                      then Some (pattern_id, severity)
                      else None)
              end
          end
      end
  end.

(** The [severityLevel] of the [patternDefinition] of a pattern, when
    the pattern has them and it is a string. *)
Definition severity_level (pattern : JSON) : option string :=
  match pattern with
  | JObj fields =>
      match Py.lookup "patternDefinition" fields with
      | Some (JObj pattern_def) =>
          match Py.lookup "severityLevel" pattern_def with
          | Some (JStr s) => Some s
          | _ => None
          end
      | _ => None
      end
  | _ => None
  end.

(** The filter as the specification words it: lower-casing the
    severity gives [info] or [minor]. *)
Definition selected (pattern : JSON) : bool :=
  match severity_level pattern with
  | Some s =>
      String.eqb (PyStr.lower s) "info" || String.eqb (PyStr.lower s) "minor"
  | None => false
  end.

(** The [id] of the [patternDefinition] of a pattern, [None] without. *)
Definition pattern_id_of (pattern : JSON) : JSON :=
  match pattern with
  | JObj fields =>
      match Py.lookup "patternDefinition" fields with
      | Some (JObj pattern_def) =>
          match Py.lookup "id" pattern_def with
          | Some v => v
          | None => JNull
          end
      | _ => JNull
      end
  | _ => JNull
  end.

(** The line the dry run logs for a selected pattern. *)
Definition would_disable (str_of : JSON -> string) (pattern_id : JSON)
    (severity : string) : Event :=
  EvLog INFO ("[DRY RUN] Would disable pattern: " ++ CodacyAPI.fmt str_of pattern_id
              ++ " (" ++ severity ++ ")").

(** ** Batches *)

(** The batches of the update loop of [process_patterns]:
    [patterns_to_update[i:i + 500]] for [i] in
    [range(0, len(patterns_to_update), 500)]. *)
Definition batches_of (patterns_to_update : list JSON) : list (list JSON) :=
  map (fun i => Py.slice patterns_to_update i (i + 500))
    (Py.range 0 (length patterns_to_update) 500).

(** The request of [update_patterns] for a batch. *)
Definition update_request (str_of : JSON -> string) (api : CodacyAPI.t)
    (standard_id tool_uuid : JSON) (batch : list JSON) : Requests.Request :=
  sent api "PATCH" (CodacyAPI.tool_endpoint str_of api standard_id tool_uuid)
    (Some (JObj [ ("enabled", JBool true); ("patterns", JArr batch) ]))
    None.

(** The server accepts a request, whenever it gets it. *)
Definition accepts (srv : Server) (req : Requests.Request) : Prop :=
  forall hist, exists v, outcome_of (srv hist req) = Ret v.

(** ** Requests of the workflow *)

(** The request of [create_coding_standard]. *)
Definition create_request (api : CodacyAPI.t) (name : string) : Requests.Request :=
  sent api "POST" (CodacyAPI.standards_endpoint api)
    (Some (JObj [ ("name", JStr name);
                  ("languages", JArr (map JStr CodacyAPI.languages)) ]))
    None.

(** The request of [get_available_tools]. *)
Definition tools_request (api : CodacyAPI.t) : Requests.Request :=
  sent api "GET" "api/v3/tools" None None.

(** The request of [enable_tool]. *)
Definition enable_request (str_of : JSON -> string) (api : CodacyAPI.t)
    (standard_id tool_uuid : JSON) : Requests.Request :=
  sent api "PATCH" (CodacyAPI.tool_endpoint str_of api standard_id tool_uuid)
    (Some (JObj [ ("enabled", JBool true); ("patterns", JArr []) ]))
    None.

(** The request of [promote_draft]. *)
Definition promote_request (str_of : JSON -> string) (api : CodacyAPI.t)
    (standard_id : JSON) : Requests.Request :=
  sent api "POST"
    (CodacyAPI.standards_endpoint api ++ "/" ++ CodacyAPI.fmt str_of standard_id
     ++ "/promote")
    None None.

(** The request of [set_default]. *)
Definition set_default_request (str_of : JSON -> string) (api : CodacyAPI.t)
    (standard_id : JSON) : Requests.Request :=
  sent api "POST"
    (CodacyAPI.standards_endpoint api ++ "/" ++ CodacyAPI.fmt str_of standard_id
     ++ "/setDefault")
    (Some (JObj [ ("isDefault", JBool true) ]))
    None.

(** [emits P Q m]: whatever the trace it starts from, [m] only appends
    events, the events it appends satisfy [P], and an exception it
    raises satisfies [Q]. *)
Definition emits (P : list Event -> Prop) (Q : Exn -> Prop) {A : Type}
    (m : M A) : Prop :=
  forall t o t',
    m t = (o, t') ->
    (exists evs, t' = t ++ evs /\ P evs) /\ (forall e, o = Raise e -> Q e).

(** A computation that only appends to the trace and raises nothing
    that [except Exception] lets through. *)
Definition tame {A : Type} (m : M A) : Prop :=
  emits (fun _ => True) (fun e => is_Exception e = true) m.

(** The error line of the handler of [create_standard]. *)
Definition failure_line (str_exn : Exn -> string) (e : Exn) : Event :=
  EvLog ERROR ("Failed to create coding standard: " ++ str_exn e).

(** The first line of [create_standard]. *)
Definition creating_line (project_name : string) : Event :=
  EvLog INFO ("Creating new coding standard: " ++ project_name).

(** A response of [create_coding_standard] without the id of the new
    standard: no [data], or a [data] dict without [id]. *)
Definition lacks_id (response : JSON) : Prop :=
  exists fields,
    response = JObj fields
    /\ (Py.lookup "data" fields = None
        \/ exists data,
             Py.lookup "data" fields = Some (JObj data)
             /\ Py.lookup "id" data = None).

(** ** The tool loop *)

Definition is_dict (v : JSON) : bool :=
  match v with
  | JObj _ => true
  | _ => false
  end.

(** The error line of the handler of the tool loop. *)
Definition tool_error_line (str_of : JSON -> string) (str_exn : Exn -> string)
    (tool_name : JSON) (e : Exn) : Event :=
  EvLog ERROR ("Error processing tool " ++ CodacyAPI.fmt str_of tool_name
               ++ ": " ++ str_exn e).

(** The lines logged at level [ERROR]. *)
Definition error_events (t : Trace) : list Event :=
  filter (fun ev => match ev with EvLog ERROR _ => true | _ => false end) t.

(** ** The dry run *)

(** A log line that starts with the given text. *)
Definition starts_with (text : string) (ev : Event) : bool :=
  match ev with
  | EvLog _ msg => prefix text msg
  | _ => false
  end.

Definition count_lines (text : string) (evs : list Event) : nat :=
  length (filter (starts_with text) evs).

(** The requests that are not reads. *)
Definition mutations (t : Trace) : list Requests.Request :=
  filter (fun r => negb (String.eqb (Requests.method r) "GET")) (requests_of t).

(** What the tool loop and the end of the workflow may leave in the
    trace of a dry run: requests for pages of patterns, and log lines
    of which those that start with [[DRY RUN]] announce the enabling of
    a tool or the disabling of a pattern.  No other request, no sleep. *)
Definition dry_event (str_of : JSON -> string) (api : CodacyAPI.t)
    (ev : Event) : Prop :=
  match ev with
  | EvRequest r =>
      exists sid tool cursor, r = patterns_request str_of api sid tool 100 cursor
  | EvLog _ msg =>
      prefix "[DRY RUN]" msg = true ->
      prefix "[DRY RUN] Would enable tool: " msg = true
      \/ prefix "[DRY RUN] Would disable pattern: " msg = true
  | EvSleep _ => False
  end.

(** As many lines [[DRY RUN] Would enable tool] as lines
    [Processing tool]. *)
Definition dry_events (str_of : JSON -> string) (api : CodacyAPI.t)
    (evs : list Event) : Prop :=
  Forall (dry_event str_of api) evs
  /\ count_lines "[DRY RUN] Would enable tool: " evs
     = count_lines "Processing tool: " evs.

(** The lower-cased severity of a pattern. *)
Definition lowered_severity (pattern : JSON) : string :=
  match severity_level pattern with
  | Some s => PyStr.lower s
  | None => ""
  end.

(** The two lines a dry run logs for a tool it processes. *)
Definition dry_tool_lines (str_of : JSON -> string) (tool_name : JSON)
    : list Event :=
  [ EvLog INFO ("Processing tool: " ++ CodacyAPI.fmt str_of tool_name);
    EvLog INFO ("[DRY RUN] Would enable tool: " ++ CodacyAPI.fmt str_of tool_name) ].

(** The trace [t'] goes on from the trace [t]. *)
Definition extends (t t' : Trace) : Prop := exists later, t' = t ++ later.

(** The claim that a dry run logs one line for each call of a real run
    that changes the state of the service. *)
Definition one_line_per_mutation (srv : Server) (str_of : JSON -> string)
    (str_exn : Exn -> string) (api : CodacyAPI.t) (fuel : nat)
    (project_name : string) : Prop :=
  count_lines "[DRY RUN]"
    (snd (Main.create_standard srv str_of str_exn api fuel project_name true []))
  = length
      (mutations
         (snd (Main.create_standard srv str_of str_exn api fuel project_name
                 false []))).

(** ** Requests of the client *)

(** The request of [get_coding_standards]. *)
Definition standards_request (api : CodacyAPI.t) : Requests.Request :=
  sent api "GET" (CodacyAPI.standards_endpoint api) None None.

(** The address of a request lies under the coding standards of the
    organization and provider of the client. *)
Definition under_organization (api : CodacyAPI.t) (r : Requests.Request) : Prop :=
  exists rest,
    Requests.url r
    = (CodacyAPI.base_url api ++ "/api/v3/organizations/" ++ CodacyAPI.provider api
       ++ "/" ++ CodacyAPI.org_name api ++ "/coding-standards" ++ rest)%string.

(** ** The claims that fail, as they are stated *)

(** The claim that the failure of a tool leaves exactly one error line
    in the log of the tool loop. *)
Definition one_error_per_failed_tool (srv : Server) (str_of : JSON -> string)
    (str_exn : Exn -> string) (api : CodacyAPI.t) (fuel : nat) (sid : JSON)
    (tools : list JSON) : Prop :=
  length
    (error_events
       (snd (Main.for_tool_in srv str_of str_exn api fuel sid false tools None [])))
  = 1.

(** The address of a request names the provider and the organization
    of the client. *)
Definition names_organization (api : CodacyAPI.t) (r : Requests.Request) : bool :=
  PyStr.contains (CodacyAPI.provider api) (Requests.url r)
  && PyStr.contains (CodacyAPI.org_name api) (Requests.url r).

(** The claim that every operation of the client addresses the
    organization and provider. *)
Definition every_operation_names_organization (srv : Server)
    (str_of : JSON -> string) (str_exn : Exn -> string) (api : CodacyAPI.t)
    : Prop :=
  forall r,
    In r (requests_of
            (snd (CodacyAPI.get_available_tools srv str_of str_exn api []))) ->
    names_organization api r = true.

(** * Concrete runs *)

Module Example.

Definition settings : Settings.t :=
  Settings.mk "token-123" "acme" "gh" "https://app.codacy.com/" "INFO".

Definition api : CodacyAPI.t := CodacyAPI.__init__ settings.

(** Stand-ins for [str]: the runs below never depend on the text. *)
Definition str_of (v : JSON) : string :=
  match v with
  | JNull => "None"
  | JBool true => "True"
  | JBool false => "False"
  | _ => "<value>"
  end.

Definition str_exn (e : Exn) : string :=
  match e with
  | ConnectionError why => why
  | ValueError msg => msg
  | _ => "<error>"
  end.

(** A 200 response with a JSON body. *)
Definition ok (v : JSON) : Requests.Reply :=
  Requests.Responded (mkResponse 200 (JsonBody v)).

(** A server that answers the requests with the given replies, one
    after the other, and with [default] afterwards. *)
Definition scripted (replies : list Requests.Reply) (default : Requests.Reply)
    : Server :=
  fun hist _ => nth (length hist) replies default.

Definition pattern (id severity : string) : JSON :=
  JObj [ ("patternDefinition",
          JObj [ ("id", JStr id); ("severityLevel", JStr severity) ]) ].

Definition tool (uuid name : string) : JSON :=
  JObj [ ("uuid", JStr uuid); ("name", JStr name) ].

Definition page (items : list JSON) (cursor : option string) : JSON :=
  JObj [ ("data", JArr items);
         ("pagination",
          JObj match cursor with
               | Some c => [ ("cursor", JStr c) ]
               | None => []
               end) ].

Definition created : JSON := JObj [ ("data", JObj [ ("id", JStr "std-1") ]) ].

Definition catalogue (tools : list JSON) : JSON := JObj [ ("data", JArr tools) ].

(** Two pages of patterns. *)
Definition page1 : JSON :=
  page [ pattern "p1" "Minor"; pattern "p2" "major" ] (Some "c1").
Definition page2 : JSON := page [ pattern "p3" "INFO" ] None.

Definition two_pages : Server := scripted [ ok page1; ok page2 ] (ok (JObj [])).

(** A server whose pages all carry the empty cursor. *)
Definition same_page : JSON := page [ pattern "p1" "minor" ] (Some "").
Definition looping : Server := fun _ _ => ok same_page.

(** A service that answers by the request: it creates the standard,
    lists one tool, serves one page of two patterns and accepts the
    rest. *)
Definition service : Server :=
  fun _ req =>
    if String.eqb (Requests.method req) "GET"
    then
      if PyStr.contains "/patterns" (Requests.url req)
      then ok (page [ pattern "p1" "Minor"; pattern "p2" "major" ] None)
      else if PyStr.contains "api/v3/tools" (Requests.url req)
           then ok (catalogue [ tool "u1" "ToolOne" ])
           else ok (JObj [])
    else
      if String.eqb (Requests.method req) "POST"
         && negb (PyStr.contains "/promote" (Requests.url req))
         && negb (PyStr.contains "/setDefault" (Requests.url req))
      then ok created
      else ok (JObj []).

(** Three tools; the service cannot be reached when the second one is
    enabled. *)
Definition three_tools : JSON :=
  catalogue [ tool "u1" "ToolOne"; tool "u2" "ToolTwo"; tool "u3" "ToolThree" ].

Definition flaky : Server :=
  fun _ req =>
    if String.eqb (Requests.method req) "GET"
    then
      if PyStr.contains "/patterns" (Requests.url req)
      then ok (page [] None)
      else ok three_tools
    else
      if String.eqb (Requests.method req) "PATCH"
         && PyStr.contains "/tools/u2" (Requests.url req)
      then Requests.Unreachable "connection reset"
      else ok created.

(** Runs of the whole workflow that stop at a given point. *)
Definition unreachable : Server := fun _ _ => Requests.Unreachable "no route".

Definition no_id : Server := scripted [ ok (JObj [ ("data", JObj []) ]) ] (ok (JObj [])).

Definition no_catalogue : Server :=
  scripted [ ok created ] (Requests.Unreachable "no route").

Definition empty_catalogue : Server :=
  scripted [ ok created; ok (catalogue []) ] (ok (JObj [])).

Definition no_promotion : Server :=
  scripted [ ok created; ok (catalogue [ tool "u1" "ToolOne" ]); ok (JObj []);
             ok (page [] None) ]
    (Requests.Unreachable "no route").

Definition no_default : Server :=
  scripted [ ok created; ok (catalogue [ tool "u1" "ToolOne" ]); ok (JObj []);
             ok (page [] None); ok (JObj []) ]
    (Requests.Unreachable "no route").

(** 1200 patterns of severity [minor], in pages of 400. *)
Definition many (n : nat) : list JSON := repeat (pattern "p" "minor") n.

Definition three_big_pages : Server :=
  scripted [ ok (page (many 400) (Some "a")); ok (page (many 400) (Some "b"));
             ok (page (many 400) None) ]
    (ok (JObj [])).

(** 1001 selected patterns in three runs, and a service that refuses
    the batch that starts with a pattern of the second run. *)
Definition three_runs : list JSON :=
  repeat (Main.disabled (JStr "first")) 500
  ++ repeat (Main.disabled (JStr "second")) 500
  ++ [ Main.disabled (JStr "third") ].

Definition refuses_second : Server :=
  fun _ req =>
    match Requests.json_arg req with
    | Some (JObj [ _; (_, JArr (JObj [ (_, JStr "second"); _ ] :: _)) ]) =>
        Requests.Unreachable "payload refused"
    | _ => ok (JObj [])
    end.

End Example.

(** * Vocabulary of the further properties *)

(** ** Configuration *)

(** A variable the configuration treats as not set: missing, or set to
    the empty string. *)
Definition not_set (environ : Settings.Environ) (key : string) : bool :=
  match environ key with
  | Some value => String.eqb value ""
  | None => true
  end.

Definition required_variables : list string :=
  [ "CODACY_API_TOKEN"; "CODACY_ORG_NAME"; "CODACY_PROVIDER" ].

(** The message of the error for a required variable. *)
Definition not_set_error (key : string) : Exn :=
  ValueError ("Required environment variable '" ++ key ++ "' is not set").

(** An environment given by its bindings. *)
Fixpoint environ_of (bindings : list (string * string)) : Settings.Environ :=
  fun key =>
    match bindings with
    | [] => None
    | (k, v) :: rest => if String.eqb key k then Some v else environ_of rest key
    end.

(** ** The client *)

(** The pause of [enable_tool] and [update_patterns]: after a call that
    succeeded, and only then. *)
Definition pause_after (o : Outcome JSON) : list Event :=
  match o with
  | Ret _ => [ EvSleep 2 ]
  | _ => []
  end.

(** The events of a call of [_make_request] that logs no error. *)
Definition quiet_exchange (req : Requests.Request) : list Event :=
  [ EvLog DEBUG ("Making " ++ Requests.method req ++ " request to "
                 ++ Requests.url req);
    EvRequest req ].

(** ** The requests of a run *)

(** The requests [create_standard] can send for a standard of the given
    name. *)
Inductive workflow_request (str_of : JSON -> string) (api : CodacyAPI.t)
    (name : string) : Requests.Request -> Prop :=
| sends_create :
    workflow_request str_of api name (create_request api name)
| sends_tools :
    workflow_request str_of api name (tools_request api)
| sends_enable (sid tool : JSON) :
    workflow_request str_of api name (enable_request str_of api sid tool)
| sends_patterns (sid tool cursor : JSON) :
    workflow_request str_of api name
      (patterns_request str_of api sid tool 100 cursor)
| sends_update (sid tool : JSON) (batch : list JSON) :
    0 < length batch <= 500 ->
    workflow_request str_of api name (update_request str_of api sid tool batch)
| sends_promote (sid : JSON) :
    workflow_request str_of api name (promote_request str_of api sid)
| sends_default (sid : JSON) :
    workflow_request str_of api name (set_default_request str_of api sid).

(** The requests of a dry run: the catalogue, and pages of patterns of
    the standard [dry-run-id]. *)
Definition dry_run_request (str_of : JSON -> string) (api : CodacyAPI.t)
    (r : Requests.Request) : Prop :=
  r = tools_request api
  \/ exists tool cursor,
       r = patterns_request str_of api (JStr "dry-run-id") tool 100 cursor.
(** * Properties *)

#[local] Arguments String.append : simpl never.

(** ** Traces and the monad *)

Ltac run_monad :=
  cbv beta iota delta
    [bind log sleep emit ret raise lift out_of_fuel try_except].

Lemma requests_of_app (t1 t2 : Trace) :
  requests_of (t1 ++ t2) = requests_of t1 ++ requests_of t2.
Proof.
  induction t1 as [|ev t1 IH]; simpl; [reflexivity|].
  destruct ev; simpl; rewrite IH; reflexivity.
Qed.

Lemma logs_of_app (t1 t2 : Trace) :
  logs_of (t1 ++ t2) = logs_of t1 ++ logs_of t2.
Proof.
  induction t1 as [|ev t1 IH]; simpl; [reflexivity|].
  destruct ev; simpl; rewrite IH; reflexivity.
Qed.

Lemma bind_Ret {A B : Type} (m : M A) (k : A -> M B) (t t' : Trace) (a : A) :
  m t = (Ret a, t') -> bind m k t = k a t'.
Proof. intros H; unfold bind; rewrite H; reflexivity. Qed.

Lemma bind_Raise {A B : Type} (m : M A) (k : A -> M B) (t t' : Trace) (e : Exn) :
  m t = (Raise e, t') -> bind m k t = (Raise e, t').
Proof. intros H; unfold bind; rewrite H; reflexivity. Qed.

Lemma bind_OutOfFuel {A B : Type} (m : M A) (k : A -> M B) (t t' : Trace) :
  m t = (OutOfFuel, t') -> bind m k t = (OutOfFuel, t').
Proof. intros H; unfold bind; rewrite H; reflexivity. Qed.

Lemma bind_log {B : Type} (level : Level) (msg : string) (k : unit -> M B)
    (t : Trace) :
  bind (log level msg) k t = k tt (t ++ [EvLog level msg]).
Proof. reflexivity. Qed.

Lemma bind_lift_Ok {A B : Type} (a : A) (k : A -> M B) (t : Trace) :
  bind (lift (Ok a)) k t = k a t.
Proof. reflexivity. Qed.

Lemma bind_lift_Err {A B : Type} (e : Exn) (k : A -> M B) (t : Trace) :
  bind (@lift A (Err e)) k t = (Raise e, t).
Proof. reflexivity. Qed.

(** ** What a computation leaves behind

    [emits P Q m]: whatever the trace it starts from, [m] only appends
    events, the events it appends satisfy [P], and an exception it
    raises satisfies [Q]. *)

Section Emits.

Variable P : list Event -> Prop.
Variable Q : Exn -> Prop.
Hypothesis P_nil : P [].
Hypothesis P_app : forall evs1 evs2, P evs1 -> P evs2 -> P (evs1 ++ evs2).

Lemma emits_ret {A : Type} (a : A) : emits P Q (ret a).
Proof.
  intros t o t' H; inversion H; subst; split.
  - exists []; rewrite app_nil_r; auto.
  - discriminate.
Qed.

Lemma emits_out_of_fuel {A : Type} : emits P Q (@out_of_fuel A).
Proof.
  intros t o t' H; inversion H; subst; split.
  - exists []; rewrite app_nil_r; auto.
  - discriminate.
Qed.

Lemma emits_raise {A : Type} (e : Exn) : Q e -> emits P Q (@raise A e).
Proof.
  intros HQ t o t' H; inversion H; subst; split.
  - exists []; rewrite app_nil_r; auto.
  - intros e' He'; inversion He'; subst; exact HQ.
Qed.

Lemma emits_lift {A : Type} (r : Result A) :
  (forall e, r = Err e -> Q e) -> emits P Q (lift r).
Proof.
  intros Hr; destruct r as [a|e]; simpl.
  - apply emits_ret.
  - apply emits_raise; auto.
Qed.

Lemma emits_emit (ev : Event) : P [ev] -> emits P Q (emit ev).
Proof.
  intros HP t o t' H; inversion H; subst; split.
  - exists [ev]; auto.
  - discriminate.
Qed.

Lemma emits_bind {A B : Type} (m : M A) (k : A -> M B) :
  emits P Q m -> (forall a, emits P Q (k a)) -> emits P Q (bind m k).
Proof.
  intros Hm Hk t o t' H; unfold bind in H.
  destruct (m t) as [[a|e|] t1] eqn:Em;
    destruct (Hm _ _ _ Em) as [[evs1 [-> HP1]] HQ1].
  - destruct (Hk a _ _ _ H) as [[evs2 [-> HP2]] HQ2]; split; [|exact HQ2].
    exists (evs1 ++ evs2); rewrite app_assoc; auto.
  - inversion H; subst; split; [exists evs1; auto|].
    intros e' He'; inversion He'; subst; auto.
  - inversion H; subst; split; [exists evs1; auto | discriminate].
Qed.

End Emits.

(** A handler turns the exceptions it catches into its own outcome. *)
Lemma emits_try_except (P : list Event -> Prop) (Q Q' : Exn -> Prop)
    {A : Type} (catches : Exn -> bool) (m : M A) (handler : Exn -> M A) :
  P [] -> (forall evs1 evs2, P evs1 -> P evs2 -> P (evs1 ++ evs2)) ->
  emits P Q m ->
  (forall e, Q e -> catches e = true -> emits P Q' (handler e)) ->
  (forall e, Q e -> catches e = false -> Q' e) ->
  emits P Q' (try_except catches m handler).
Proof.
  intros P_nil P_app Hm Hh Hpass t o t' H; unfold try_except in H.
  destruct (m t) as [[a|e|] t1] eqn:Em;
    destruct (Hm _ _ _ Em) as [[evs1 [-> HP1]] HQ1].
  - inversion H; subst; split; [exists evs1; auto | discriminate].
  - specialize (HQ1 e eq_refl).
    destruct (catches e) eqn:Ec.
    + destruct (Hh e HQ1 Ec _ _ _ H) as [[evs2 [-> HP2]] HQ2]; split; [|exact HQ2].
      exists (evs1 ++ evs2); rewrite app_assoc; auto.
    + inversion H; subst; split; [exists evs1; auto|].
      intros e' He'; inversion He'; subst; auto.
  - inversion H; subst; split; [exists evs1; auto | discriminate].
Qed.

(** ** The request primitive *)

Section MakeRequest.

Variable srv : Server.
Variable str_of : JSON -> string.
Variable str_exn : Exn -> string.
Variable api : CodacyAPI.t.

(** One call of [_make_request] sends one request; the reply decides
    the outcome and the lines logged. *)
Lemma make_request_run (method endpoint : string) (json : option JSON)
    (params : option (list (string * JSON))) (t : Trace) :
  let req := sent api method endpoint json params in
  let reply := srv (requests_of t) req in
  CodacyAPI._make_request srv str_of str_exn api method endpoint json params t
  = (outcome_of reply, t ++ exchange str_of str_exn req reply).
Proof.
  cbv zeta.
  unfold CodacyAPI._make_request, exchange, sent.
  rewrite bind_log. unfold try_except, bind at 1, bind at 1, CodacyAPI.request.
  rewrite requests_of_app; simpl requests_of; rewrite app_nil_r.
  destruct (srv (requests_of t) _) as [why|r].
  - run_monad; simpl; rewrite <- ?app_assoc; reflexivity.
  - unfold Requests.raise_for_status, Requests.has_text, Requests.json,
      outcome_of, error_lines.
    destruct (Requests.error_status r); destruct r as [status [|v|text]];
      run_monad; simpl; rewrite <- ?app_assoc; reflexivity.
Qed.

End MakeRequest.

(** What [_make_request] leaves behind. *)
Lemma emits_make_request (P : list Event -> Prop) (Q : Exn -> Prop)
    (srv : Server) (str_of : JSON -> string) (str_exn : Exn -> string)
    (api : CodacyAPI.t) (method endpoint : string) (json : option JSON)
    (params : option (list (string * JSON))) :
  (forall reply,
      P (exchange str_of str_exn (sent api method endpoint json params) reply)) ->
  (forall reply e, outcome_of reply = Raise e -> Q e) ->
  emits P Q
    (CodacyAPI._make_request srv str_of str_exn api method endpoint json params).
Proof.
  intros HP HQ t o t' H. rewrite make_request_run in H. cbv zeta in H.
  inversion H; subst; split.
  - eexists; split; [reflexivity | apply HP].
  - intros e He. eapply HQ; exact He.
Qed.

(** ** Pagination ([get_patterns]) *)

Lemma error_lines_Ret (str_of : JSON -> string) (str_exn : Exn -> string)
    (reply : Requests.Reply) (v : JSON) :
  outcome_of reply = Ret v -> error_lines str_of str_exn reply = [].
Proof.
  destruct reply as [why|r]; simpl; [discriminate|].
  destruct (Requests.error_status r); destruct (body r);
    try discriminate; reflexivity.
Qed.

Lemma exchange_requests (str_of : JSON -> string) (str_exn : Exn -> string)
    (req : Requests.Request) (reply : Requests.Reply) :
  requests_of (exchange str_of str_exn req reply) = [req].
Proof.
  unfold exchange; simpl. f_equal.
  destruct reply as [why|r]; simpl; [reflexivity|].
  destruct (Requests.error_status r); destruct (body r); reflexivity.
Qed.

Section Pagination.

Variable srv : Server.
Variable str_of : JSON -> string.
Variable str_exn : Exn -> string.
Variable api : CodacyAPI.t.
Variables sid tool : JSON.
Variable limit : Z.

Local Abbreviation loop := (CodacyAPI.get_patterns_loop srv str_of str_exn api).
Local Abbreviation req_for := (patterns_request str_of api sid tool limit).

Local Abbreviation page_events := (page_events str_of api sid tool limit).

Lemma page_events_requests (cursor : JSON) :
  requests_of (page_events cursor) = [req_for cursor].
Proof. reflexivity. Qed.

(** One turn of the loop on a page. *)
Lemma loop_turn (fuel : nat) (acc : list JSON) (cursor p : JSON) (t : Trace) :
  outcome_of (srv (requests_of t) (req_for cursor)) = Ret p ->
  is_page p = true ->
  loop (S fuel) sid tool limit acc cursor t
  = match page_cursor p with
    | Some c =>
        loop fuel sid tool limit (acc ++ page_data p) c (t ++ page_events cursor)
    | None => (Ret (acc ++ page_data p), t ++ page_events cursor)
    end.
Proof.
  intros Hreply Hpage. simpl CodacyAPI.get_patterns_loop.
  unfold bind at 1. rewrite make_request_run. cbv zeta.
  change (sent api "GET" _ None _) with (req_for cursor).
  rewrite Hreply.
  unfold exchange. rewrite (error_lines_Ret _ _ _ _ Hreply).
  change ([EvLog DEBUG _; EvRequest (req_for cursor)] ++ [])
    with (page_events cursor ++ []).
  rewrite app_nil_r.
  destruct p as [| | | |items|fields]; try discriminate.
  unfold is_page in Hpage. apply andb_prop in Hpage as [Hdata Hblock].
  unfold page_cursor, page_data, Py.get.
  destruct (Py.lookup "data" fields) as [[| | | |items|]|];
    try discriminate;
    destruct (Py.lookup "pagination" fields) as [[| | | | |block]|];
    try discriminate; run_monad; simpl; rewrite ?app_nil_r;
    try reflexivity;
    destruct (Py.lookup "cursor" block); reflexivity.
Qed.

(** The loop over a finite run of pages of which the last one, and no
    other, lacks a cursor. *)
Lemma loop_pages (pages : list JSON) (last : JSON) :
  forall (acc : list JSON) (cursor : JSON) (t : Trace) (fuel : nat),
    Forall (fun p => is_page p = true) (pages ++ [last]) ->
    Forall (fun p => has_cursor p = true) pages ->
    has_cursor last = false ->
    answers_in_turn srv (length (requests_of t)) (pages ++ [last]) ->
    (length pages < fuel ->
     loop fuel sid tool limit acc cursor t
     = (Ret (acc ++ concat (map page_data (pages ++ [last]))),
        t ++ concat (map page_events (cursor :: map next_cursor pages))))
    /\ (fuel <= length pages ->
        fst (loop fuel sid tool limit acc cursor t) = OutOfFuel).
Proof.
  induction pages as [|p pages IH]; intros acc cursor t fuel Hpages Hcur Hlast Hsrv.
  - simpl in *. inversion Hpages as [|? ? Hp _]; subst.
    assert (Hreply : outcome_of (srv (requests_of t) (req_for cursor)) = Ret last).
    { apply (Hsrv 0 last); [reflexivity | lia]. }
    split; intros Hfuel.
    + destruct fuel as [|fuel]; [lia|].
      rewrite (loop_turn fuel acc cursor last t Hreply Hp).
      unfold has_cursor in Hlast.
      destruct (page_cursor last); [discriminate|].
      rewrite !app_nil_r; reflexivity.
    + destruct fuel; [reflexivity | lia].
  - simpl in Hpages. inversion Hpages as [|? ? Hp Hrest]; subst.
    inversion Hcur as [|? ? Hpc Hcur']; subst.
    assert (Hreply : outcome_of (srv (requests_of t) (req_for cursor)) = Ret p).
    { apply (Hsrv 0 p); [reflexivity | lia]. }
    assert (Hsrv' : answers_in_turn srv
                      (length (requests_of (t ++ page_events cursor)))
                      (pages ++ [last])).
    { intros k q hist req Hk Hlen. apply (Hsrv (S k) q); [exact Hk|].
      rewrite Hlen, requests_of_app, length_app; simpl; lia. }
    destruct fuel as [|fuel].
    + split; intros Hfuel; [simpl in Hfuel; lia | reflexivity].
    + rewrite (loop_turn fuel acc cursor p t Hreply Hp).
      unfold has_cursor in Hpc. unfold next_cursor at 1.
      destruct (page_cursor p) as [c|] eqn:Ec; [|discriminate].
      destruct (IH (acc ++ page_data p) c (t ++ page_events cursor) fuel
                  Hrest Hcur' Hlast Hsrv') as [IH1 IH2].
      split; intros Hfuel; simpl in Hfuel.
      * rewrite IH1 by lia. simpl. rewrite Ec. rewrite <- !app_assoc. reflexivity.
      * apply IH2; lia.
Qed.

(** The loop through pages that all have a cursor. *)
Lemma loop_through (pages : list JSON) :
  forall (acc : list JSON) (cursor : JSON) (t : Trace) (fuel : nat),
    Forall (fun p => is_page p = true) pages ->
    Forall (fun p => has_cursor p = true) pages ->
    answers_in_turn srv (length (requests_of t)) pages ->
    loop (length pages + fuel) sid tool limit acc cursor t
    = loop fuel sid tool limit (acc ++ concat (map page_data pages))
        (cursor_after cursor pages)
        (t ++ concat (map page_events (cursors_before cursor pages))).
Proof.
  induction pages as [|p pages IH]; intros acc cursor t fuel Hpages Hcur Hsrv.
  - simpl. rewrite !app_nil_r. reflexivity.
  - inversion Hpages as [|? ? Hp Hrest]; subst.
    inversion Hcur as [|? ? Hpc Hcur']; subst.
    assert (Hreply : outcome_of (srv (requests_of t) (req_for cursor)) = Ret p).
    { apply (Hsrv 0 p); [reflexivity | lia]. }
    simpl length. rewrite Nat.add_succ_l.
    rewrite (loop_turn _ acc cursor p t Hreply Hp).
    unfold has_cursor in Hpc.
    destruct (page_cursor p) as [c|] eqn:Ec; [|discriminate].
    assert (Hn : next_cursor p = c) by (unfold next_cursor; rewrite Ec; reflexivity).
    simpl cursor_after. simpl cursors_before. rewrite Hn.
    rewrite IH; [|exact Hrest|exact Hcur'|].
    + simpl. rewrite <- !app_assoc. reflexivity.
    + intros k q hist req Hk Hlen. apply (Hsrv (S k) q); [exact Hk|].
      rewrite Hlen, requests_of_app, length_app; simpl; lia.
Qed.

(** The loop only appends to the trace. *)
Lemma loop_grows (fuel : nat) :
  forall (acc : list JSON) (cursor : JSON) (t : Trace),
    exists evs, snd (loop fuel sid tool limit acc cursor t) = t ++ evs.
Proof.
  assert (H : forall acc cursor,
             emits (fun _ => True) (fun _ => True)
               (loop fuel sid tool limit acc cursor)).
  { induction fuel as [|fuel IH]; intros acc cursor.
    - apply emits_out_of_fuel; auto.
    - simpl CodacyAPI.get_patterns_loop.
      apply emits_bind;
        [auto | apply emits_make_request; auto | intros response].
      apply emits_bind; [auto | apply emits_lift; auto | intros page].
      apply emits_bind; [auto | apply emits_lift; auto | intros items].
      apply emits_bind; [auto | apply emits_lift; auto | intros pagination].
      apply emits_bind; [auto | apply emits_lift; auto | intros [|]].
      + apply emits_bind; [auto | apply emits_lift; auto | intros c; apply IH].
      + apply emits_ret; auto. }
  intros acc cursor t.
  destruct (loop fuel sid tool limit acc cursor t) as [o t'] eqn:E.
  destruct (H acc cursor t o t' E) as [[evs [-> _]] _]. exists evs; reflexivity.
Qed.

End Pagination.

(** C1.  Whatever the pages the server returns one after the other, if
    every page but the last has a [cursor] in its pagination block and
    the last one has none, [get_patterns] sends exactly one request per
    page, the first without a cursor and each next one with the cursor
    of the page before, does not stop before the last page, stops after
    it, and returns the [data] arrays of the pages one after the other:
    as many patterns as the pages hold together. *)
Theorem get_patterns_concatenates_pages :
  forall (srv : Server) (str_of : JSON -> string) (str_exn : Exn -> string)
         (api : CodacyAPI.t) (sid tool : JSON) (limit : Z)
         (pages : list JSON) (last : JSON) (t : Trace),
    Forall (fun p => is_page p = true) (pages ++ [last]) ->
    Forall (fun p => has_cursor p = true) pages ->
    has_cursor last = false ->
    answers_in_turn srv (length (requests_of t)) (pages ++ [last]) ->
    (forall fuel, length pages < fuel ->
       exists t',
         CodacyAPI.get_patterns srv str_of str_exn api fuel sid tool limit t
         = (Ret (concat (map page_data (pages ++ [last]))), t')
         /\ requests_of t'
            = requests_of t
              ++ map (patterns_request str_of api sid tool limit)
                   (JStr "" :: map next_cursor pages)
         /\ length (requests_of t')
            = length (requests_of t) + length (pages ++ [last]))
    /\ (forall fuel, fuel <= length pages ->
          fst (CodacyAPI.get_patterns srv str_of str_exn api fuel sid tool limit t)
          = OutOfFuel)
    /\ length (concat (map page_data (pages ++ [last])))
       = list_sum (map (fun p => length (page_data p)) (pages ++ [last])).
Proof.
  intros srv str_of str_exn api sid tool limit pages last t Hpages Hcur Hlast Hsrv.
  assert (Hreq : forall cs,
            requests_of
              (concat (map (page_events str_of api sid tool limit) cs))
            = map (patterns_request str_of api sid tool limit) cs).
  { induction cs as [|c cs IHcs]; [reflexivity|].
    change (concat (map (page_events str_of api sid tool limit) (c :: cs)))
      with (page_events str_of api sid tool limit c
            ++ concat (map (page_events str_of api sid tool limit) cs)).
    rewrite requests_of_app, IHcs. reflexivity. }
  repeat split.
  - intros fuel Hfuel.
    destruct (loop_pages srv str_of str_exn api sid tool limit pages last
                [] (JStr "") t fuel Hpages Hcur Hlast Hsrv) as [Hrun _].
    eexists; split; [exact (Hrun Hfuel)|].
    rewrite requests_of_app, Hreq. split; [reflexivity|].
    rewrite !length_app, length_map. simpl. rewrite length_map. lia.
  - intros fuel Hfuel.
    apply (loop_pages srv str_of str_exn api sid tool limit pages last
             [] (JStr "") t fuel Hpages Hcur Hlast Hsrv); exact Hfuel.
  - rewrite length_concat, map_map. reflexivity.
Qed.

Lemma nth_error_map_seq {A : Type} (f : nat -> A) (m k : nat) (a : A) :
  nth_error (map f (seq 0 m)) k = Some a -> a = f k /\ k < m.
Proof.
  intros H.
  assert (Hk : k < m).
  { assert (Hlt : k < length (map f (seq 0 m)))
      by (apply nth_error_Some; rewrite H; discriminate).
    rewrite length_map, length_seq in Hlt; exact Hlt. }
  split; [|exact Hk].
  rewrite nth_error_map in H.
  destruct (nth_error (seq 0 m) k) as [j|] eqn:E; [|discriminate].
  apply (nth_error_nth _ _ 0) in E. rewrite seq_nth in E by exact Hk.
  simpl in E; subst j. inversion H; reflexivity.
Qed.

Lemma answers_prefix (srv : Server) (n m : nat) (pages : nat -> JSON) :
  answers_forever srv n pages -> answers_in_turn srv n (map pages (seq 0 m)).
Proof.
  intros H k p hist req Hk Hlen.
  apply nth_error_map_seq in Hk as [-> _]. apply H; exact Hlen.
Qed.

Lemma Forall_map_seq {A : Type} (P : A -> Prop) (f : nat -> A) (m : nat) :
  (forall k, k < m -> P (f k)) -> Forall P (map f (seq 0 m)).
Proof.
  intros H. apply Forall_forall. intros a Ha.
  apply in_map_iff in Ha as [k [<- Hk]]. apply in_seq in Hk. apply H; lia.
Qed.

Lemma cursor_after_last (pages : list JSON) (p : JSON) :
  forall cursor, cursor_after cursor (pages ++ [p]) = next_cursor p.
Proof. induction pages as [|q pages IH]; intros cursor; simpl; auto. Qed.

Lemma length_cursors_before (pages : list JSON) :
  forall cursor, length (cursors_before cursor pages) = length pages.
Proof. induction pages as [|q pages IH]; intros cursor; simpl; auto. Qed.

Lemma cursors_before_constant (pages : list JSON) (cursor : JSON) :
  Forall (fun p => next_cursor p = cursor) pages ->
  cursors_before cursor pages = repeat cursor (length pages).
Proof.
  induction 1 as [|p pages Hp _ IH]; simpl; [reflexivity|].
  rewrite Hp, IH; reflexivity.
Qed.

Lemma sent_between_app (t evs : Trace) :
  sent_between t (t ++ evs) = requests_of evs.
Proof.
  unfold sent_between. rewrite requests_of_app.
  rewrite skipn_app, skipn_all, Nat.sub_diag. reflexivity.
Qed.

Section Termination.

Variable srv : Server.
Variable str_of : JSON -> string.
Variable str_exn : Exn -> string.
Variable api : CodacyAPI.t.
Variables sid tool : JSON.
Variable limit : Z.

Local Abbreviation loop := (CodacyAPI.get_patterns_loop srv str_of str_exn api).
Local Abbreviation req_for := (patterns_request str_of api sid tool limit).
Local Abbreviation page_events := (page_events str_of api sid tool limit).

Lemma requests_of_pages (cursors : list JSON) :
  requests_of (concat (map page_events cursors)) = map req_for cursors.
Proof.
  induction cursors as [|c cs IH]; [reflexivity|].
  change (concat (map page_events (c :: cs)))
    with (page_events c ++ concat (map page_events cs)).
  rewrite requests_of_app, IH. reflexivity.
Qed.

Lemma answers_tail (pages : nat -> JSON) (t : Trace) (evs : Trace)
    (r : Requests.Request) :
  requests_of evs = [r] ->
  answers_forever srv (length (requests_of t)) pages ->
  answers_forever srv (length (requests_of (t ++ evs))) (fun k => pages (S k)).
Proof.
  intros Hr H k hist req Hlen. apply H.
  rewrite Hlen, requests_of_app, length_app, Hr. simpl. lia.
Qed.

(** A page without a cursor stops the loop. *)
Lemma loop_stops (n : nat) :
  forall (pages : nat -> JSON) (acc : list JSON) (cursor : JSON) (t : Trace),
    (forall k, is_page (pages k) = true) ->
    answers_forever srv (length (requests_of t)) pages ->
    has_cursor (pages n) = false ->
    exists fuel patterns t',
      loop fuel sid tool limit acc cursor t = (Ret patterns, t').
Proof.
  induction n as [|n IH]; intros pages acc cursor t Hpages Hsrv Hn.
  - exists 1, (acc ++ page_data (pages 0)), (t ++ page_events cursor).
    rewrite (loop_turn srv str_of str_exn api sid tool limit 0 acc cursor (pages 0) t).
    + unfold has_cursor in Hn. destruct (page_cursor (pages 0)); [discriminate|reflexivity].
    + apply Hsrv; lia.
    + apply Hpages.
  - destruct (page_cursor (pages 0)) as [c|] eqn:Ec.
    + destruct (IH (fun k => pages (S k)) (acc ++ page_data (pages 0)) c
                  (t ++ page_events cursor)) as [fuel [ps [t' Hrun]]].
      * intros k; apply Hpages.
      * apply (answers_tail pages t _ (req_for cursor)); [reflexivity | exact Hsrv].
      * exact Hn.
      * exists (S fuel), ps, t'.
        rewrite (loop_turn srv str_of str_exn api sid tool limit fuel acc cursor
                   (pages 0) t); [rewrite Ec; exact Hrun | apply Hsrv; lia | apply Hpages].
    + exists 1, (acc ++ page_data (pages 0)), (t ++ page_events cursor).
      rewrite (loop_turn srv str_of str_exn api sid tool limit 0 acc cursor
                 (pages 0) t); [rewrite Ec; reflexivity | apply Hsrv; lia | apply Hpages].
Qed.

(** A loop that stops has met a page without a cursor. *)
Lemma loop_stopped (fuel : nat) :
  forall (pages : nat -> JSON) (acc : list JSON) (cursor : JSON) (t : Trace),
    (forall k, is_page (pages k) = true) ->
    answers_forever srv (length (requests_of t)) pages ->
    fst (loop fuel sid tool limit acc cursor t) <> OutOfFuel ->
    exists n, n < fuel /\ has_cursor (pages n) = false.
Proof.
  induction fuel as [|fuel IH]; intros pages acc cursor t Hpages Hsrv Hrun.
  - exfalso; apply Hrun; reflexivity.
  - rewrite (loop_turn srv str_of str_exn api sid tool limit fuel acc cursor
               (pages 0) t) in Hrun; [| apply Hsrv; lia | apply Hpages].
    destruct (page_cursor (pages 0)) as [c|] eqn:Ec.
    + destruct (IH (fun k => pages (S k)) _ _ _ (fun k => Hpages (S k))
                  (answers_tail pages t (page_events cursor) (req_for cursor)
                     eq_refl Hsrv) Hrun)
        as [n [Hlt Hn]].
      exists (S n); split; [lia | exact Hn].
    + exists 0; split; [lia|]. unfold has_cursor; rewrite Ec; reflexivity.
Qed.

End Termination.

(** C9.  Against a server that answers every request with a page,
    [get_patterns] stops exactly if one of the pages has no [cursor] in
    its pagination block.  A page whose cursor is the empty string does
    not stop the loop, and the request after it carries no cursor
    parameter, like the first request; a server all of whose pages carry
    the empty cursor is asked for the first page again and again and
    [get_patterns] never returns. *)
Theorem get_patterns_stops_iff_cursor_free_page :
  forall (srv : Server) (str_of : JSON -> string) (str_exn : Exn -> string)
         (api : CodacyAPI.t) (sid tool : JSON) (limit : Z)
         (pages : nat -> JSON) (t : Trace),
    (forall k, is_page (pages k) = true) ->
    answers_forever srv (length (requests_of t)) pages ->
    let run fuel :=
      CodacyAPI.get_patterns srv str_of str_exn api fuel sid tool limit t in
    let first_page := patterns_request str_of api sid tool limit (JStr "") in
    ((exists fuel, fst (run fuel) <> OutOfFuel)
     <-> (exists n, has_cursor (pages n) = false))
    /\ (forall k fuel,
          (forall j, j < k -> has_cursor (pages j) = true) ->
          page_cursor (pages k) = Some (JStr "") ->
          k + 1 < fuel ->
          nth_error (sent_between t (snd (run fuel))) (k + 1) = Some first_page)
    /\ Requests.params first_page = Some [ ("limit", JInt limit) ]
    /\ ((forall k, page_cursor (pages k) = Some (JStr "")) ->
        forall fuel,
          fst (run fuel) = OutOfFuel
          /\ sent_between t (snd (run fuel)) = repeat first_page fuel).
Proof.
  intros srv str_of str_exn api sid tool limit pages t Hpages Hsrv run first_page.
  subst run. unfold CodacyAPI.get_patterns.
  split; [split|split; [|split]].
  - intros [fuel Hrun].
    destruct (loop_stopped srv str_of str_exn api sid tool limit fuel pages
                [] (JStr "") t Hpages Hsrv Hrun) as [n [_ Hn]].
    exists n; exact Hn.
  - intros [n Hn].
    destruct (loop_stops srv str_of str_exn api sid tool limit n pages
                [] (JStr "") t Hpages Hsrv Hn) as [fuel [ps [t' Hrun]]].
    exists fuel. rewrite Hrun. discriminate.
  - intros k fuel Hbefore Hk Hfuel.
    set (ps := map pages (seq 0 (k + 1))).
    assert (Hlen : length ps = k + 1)
      by (unfold ps; rewrite length_map, length_seq; reflexivity).
    assert (Hcur : Forall (fun p => has_cursor p = true) ps).
    { apply Forall_map_seq. intros j Hj.
      destruct (Nat.eq_dec j k) as [->|Hne].
      - unfold has_cursor; rewrite Hk; reflexivity.
      - apply Hbefore; lia. }
    assert (Hafter : cursor_after (JStr "") ps = JStr "").
    { unfold ps. rewrite Nat.add_1_r, seq_S, map_app. simpl.
      rewrite cursor_after_last. unfold next_cursor. rewrite Hk. reflexivity. }
    destruct fuel as [|fuel]; [lia|].
    replace (S fuel) with (length ps + S (fuel - (k + 1))) by lia.
    rewrite (loop_through srv str_of str_exn api sid tool limit ps [] (JStr "") t);
      [| apply Forall_map_seq; intros; apply Hpages | exact Hcur
       | apply answers_prefix; exact Hsrv ].
    rewrite Hafter.
    set (t1 := t ++ concat (map (page_events str_of api sid tool limit)
                              (cursors_before (JStr "") ps))).
    assert (Hreq1 : requests_of t1
                    = requests_of t
                      ++ map (patterns_request str_of api sid tool limit)
                           (cursors_before (JStr "") ps)).
    { unfold t1. rewrite requests_of_app, requests_of_pages. reflexivity. }
    rewrite (loop_turn srv str_of str_exn api sid tool limit _ _ (JStr "")
               (pages (k + 1)) t1);
      [| apply Hsrv; rewrite Hreq1, length_app, length_map,
           length_cursors_before, Hlen; reflexivity
       | apply Hpages ].
    assert (Hgrow : exists evs,
               snd (match page_cursor (pages (k + 1)) with
                    | Some c =>
                        CodacyAPI.get_patterns_loop srv str_of str_exn api
                          (fuel - (k + 1)) sid tool limit
                          (([] ++ concat (map page_data ps))
                           ++ page_data (pages (k + 1))) c
                          (t1 ++ page_events str_of api sid tool limit (JStr ""))
                    | None =>
                        (Ret (([] ++ concat (map page_data ps))
                              ++ page_data (pages (k + 1))),
                         t1 ++ page_events str_of api sid tool limit (JStr ""))
                    end)
               = (t1 ++ page_events str_of api sid tool limit (JStr "")) ++ evs).
    { destruct (page_cursor (pages (k + 1))) as [c|].
      - apply loop_grows.
      - exists []. rewrite app_nil_r. reflexivity. }
    destruct Hgrow as [evs ->].
    unfold t1. rewrite <- !app_assoc. rewrite sent_between_app.
    rewrite !requests_of_app, requests_of_pages.
    rewrite nth_error_app2; rewrite length_map, length_cursors_before, Hlen;
      [|lia].
    rewrite Nat.sub_diag. reflexivity.
  - reflexivity.
  - intros Hall fuel.
    set (ps := map pages (seq 0 fuel)).
    assert (Hlen : length ps = fuel)
      by (unfold ps; rewrite length_map, length_seq; reflexivity).
    replace fuel with (length ps + 0) at 1 2 by lia.
    rewrite (loop_through srv str_of str_exn api sid tool limit ps [] (JStr "") t);
      [| apply Forall_map_seq; intros; apply Hpages
       | apply Forall_map_seq; intros; unfold has_cursor; rewrite Hall; reflexivity
       | apply answers_prefix; exact Hsrv ].
    simpl. split; [reflexivity|].
    rewrite sent_between_app, requests_of_pages.
    rewrite cursors_before_constant.
    + rewrite Hlen, map_repeat. reflexivity.
    + apply Forall_map_seq; intros; unfold next_cursor; rewrite Hall; reflexivity.
Qed.

(** ** The severity filter ([process_patterns]) *)

Section Filter.

Variable str_of : JSON -> string.

Local Abbreviation for_pattern_in := (Main.for_pattern_in str_of).

(** One turn of the pattern loop. *)
Lemma pattern_turn (pattern : JSON) (rest : list JSON) (dry_run : bool)
    (acc : list JSON) (t : Trace) :
  for_pattern_in (pattern :: rest) dry_run acc t
  = match examine pattern with
    | Err e => (Raise e, t)
    | Ok (Some (pattern_id, severity)) =>
        for_pattern_in rest dry_run (acc ++ [Main.disabled pattern_id])
          (if dry_run
           then t ++ [would_disable str_of pattern_id severity]
           else t)
    | Ok None => for_pattern_in rest dry_run acc t
    end.
Proof.
  simpl Main.for_pattern_in. unfold examine.
  destruct (Py.get pattern "patternDefinition" (JObj [])) as [pattern_def|e];
    [|reflexivity].
  rewrite bind_lift_Ok.
  destruct (Py.get pattern_def "id" JNull) as [pattern_id|e]; [|reflexivity].
  rewrite bind_lift_Ok.
  destruct (Py.get pattern_def "severityLevel" (JStr "")) as [level|e];
    [|reflexivity].
  rewrite bind_lift_Ok.
  destruct (Py.lower level) as [severity|e]; [|reflexivity].
  rewrite bind_lift_Ok.
  destruct (Main.is_minor severity); [|reflexivity].
  destruct dry_run; reflexivity.
Qed.

Lemma is_minor_spec (s : string) :
  Main.is_minor s = String.eqb s "info" || String.eqb s "minor".
Proof. unfold Main.is_minor; simpl. rewrite orb_false_r. reflexivity. Qed.

(** The loop selects what the specification selects. *)
Lemma examine_selected (pattern : JSON) :
  match examine pattern with
  | Ok (Some (pattern_id, severity)) =>
      selected pattern = true
      /\ pattern_id = pattern_id_of pattern
      /\ severity = lowered_severity pattern
  | _ => selected pattern = false
  end.
Proof.
  unfold examine, selected, lowered_severity, severity_level, pattern_id_of, Py.get.
  destruct pattern as [| | | | |fields]; try reflexivity.
  destruct (Py.lookup "patternDefinition" fields) as [[| | | | |pattern_def]|];
    try reflexivity.
  destruct (Py.lookup "id" pattern_def) as [pattern_id|];
    destruct (Py.lookup "severityLevel" pattern_def) as [[| | |s| |]|];
    simpl; try reflexivity;
    rewrite is_minor_spec;
    destruct (String.eqb (PyStr.lower s) "info" || String.eqb (PyStr.lower s) "minor");
    auto.
Qed.

(** What the loop returns when no pattern makes it raise. *)
Lemma for_pattern_in_filter (patterns : list JSON) :
  forall (dry_run : bool) (acc out : list JSON) (t t' : Trace),
    for_pattern_in patterns dry_run acc t = (Ret out, t') ->
    out = acc ++ map (fun p => Main.disabled (pattern_id_of p))
                   (filter selected patterns).
Proof.
  induction patterns as [|p patterns IH]; intros dry_run acc out t t' H.
  - inversion H; subst. simpl. rewrite app_nil_r. reflexivity.
  - rewrite pattern_turn in H. pose proof (examine_selected p) as Hp.
    simpl filter.
    destruct (examine p) as [[[pattern_id severity]|]|e]; [| |discriminate].
    + destruct Hp as [-> [-> _]]. apply IH in H. rewrite H.
      simpl. rewrite <- app_assoc. reflexivity.
    + rewrite Hp. eapply IH; exact H.
Qed.

(** Running the loop on the patterns it selected changes nothing. *)
Lemma for_pattern_in_selected (patterns : list JSON) :
  forall (dry_run : bool) (acc out : list JSON) (t t' : Trace),
    for_pattern_in patterns dry_run acc t = (Ret out, t') ->
    for_pattern_in (filter selected patterns) dry_run acc t = (Ret out, t').
Proof.
  induction patterns as [|p patterns IH]; intros dry_run acc out t t' H.
  - exact H.
  - rewrite pattern_turn in H. pose proof (examine_selected p) as Hp.
    simpl filter.
    destruct (examine p) as [[[pattern_id severity]|]|e] eqn:Ep; [| |discriminate].
    + destruct Hp as [Hsel _]. rewrite Hsel.
      rewrite pattern_turn, Ep. apply IH; exact H.
    + rewrite Hp. apply IH; exact H.
Qed.

End Filter.

Lemma filter_idempotent {A : Type} (f : A -> bool) (l : list A) :
  filter f (filter f l) = filter f l.
Proof.
  induction l as [|a l IH]; simpl; [reflexivity|].
  destruct (f a) eqn:E; simpl; rewrite ?E, IH; reflexivity.
Qed.

Lemma examine_severity (pattern : JSON) (s : string) :
  severity_level pattern = Some s ->
  examine pattern
  = Ok (if String.eqb (PyStr.lower s) "info" || String.eqb (PyStr.lower s) "minor"
        then Some (pattern_id_of pattern, PyStr.lower s)
        else None).
Proof.
  unfold severity_level, examine, pattern_id_of, Py.get.
  destruct pattern as [| | | | |fields]; try discriminate.
  destruct (Py.lookup "patternDefinition" fields) as [[| | | | |pattern_def]|];
    try discriminate.
  destruct (Py.lookup "severityLevel" pattern_def) as [[| | |s'| |]|];
    try discriminate.
  intros H; inversion H; subst s'. simpl. rewrite is_minor_spec.
  destruct (Py.lookup "id" pattern_def); reflexivity.
Qed.

(** C3.  A pattern whose severity is a string is selected for disabling
    exactly if the lower-cased severity is [info] or [minor]: [Minor],
    [minor] and [MINOR] are selected, [major] and [critical] are not,
    and two severities with the same lower-case form are treated alike.
    The loop returns the entries of the patterns the filter selects, in
    order, and on the patterns it selected it returns the same entries
    again: the filter is idempotent. *)
Theorem severity_filter_case_insensitive_idempotent :
  forall (str_of : JSON -> string),
    (forall pattern s rest dry_run acc t,
        severity_level pattern = Some s ->
        Main.for_pattern_in str_of (pattern :: rest) dry_run acc t
        = if String.eqb (PyStr.lower s) "info" || String.eqb (PyStr.lower s) "minor"
          then Main.for_pattern_in str_of rest dry_run
                 (acc ++ [Main.disabled (pattern_id_of pattern)])
                 (if dry_run
                  then t ++ [would_disable str_of (pattern_id_of pattern)
                               (PyStr.lower s)]
                  else t)
          else Main.for_pattern_in str_of rest dry_run acc t)
    /\ (forall pattern s,
          severity_level pattern = Some s ->
          In s ["Minor"; "minor"; "MINOR"] ->
          selected pattern = true)
    /\ (forall pattern s,
          severity_level pattern = Some s ->
          In s ["major"; "critical"] ->
          selected pattern = false)
    /\ (forall p q s s',
          severity_level p = Some s ->
          severity_level q = Some s' ->
          PyStr.lower s = PyStr.lower s' ->
          selected p = selected q)
    /\ (forall patterns dry_run acc out t t',
          Main.for_pattern_in str_of patterns dry_run acc t = (Ret out, t') ->
          out = acc ++ map (fun p => Main.disabled (pattern_id_of p))
                         (filter selected patterns)
          /\ Main.for_pattern_in str_of (filter selected patterns) dry_run acc t
             = (Ret out, t')
          /\ filter selected (filter selected patterns) = filter selected patterns).
Proof.
  intros str_of. repeat split.
  - intros pattern s rest dry_run acc t Hs.
    rewrite pattern_turn, (examine_severity pattern s Hs).
    destruct (String.eqb (PyStr.lower s) "info" || String.eqb (PyStr.lower s) "minor");
      reflexivity.
  - intros pattern s Hs Hin. unfold selected. rewrite Hs.
    simpl in Hin. destruct Hin as [<-|[<-|[<-|[]]]]; reflexivity.
  - intros pattern s Hs Hin. unfold selected. rewrite Hs.
    simpl in Hin. destruct Hin as [<-|[<-|[]]]; reflexivity.
  - intros p q s s' Hp Hq Hlow. unfold selected. rewrite Hp, Hq, Hlow. reflexivity.
  - eapply for_pattern_in_filter; eassumption.
  - apply for_pattern_in_selected; assumption.
  - apply filter_idempotent.
Qed.

(** C10.  A pattern without [patternDefinition], or whose
    [patternDefinition] has no [severityLevel], is treated like a pattern
    of severity [''] : the loop goes on to the next pattern, raises
    nothing, logs nothing and selects nothing.  A selected pattern whose
    [patternDefinition] has no [id] adds the entry with [id] [None] and
    [enabled] [False] to the batch. *)
Theorem missing_pattern_fields_tolerated :
  forall (str_of : JSON -> string) (fields : list (string * JSON))
         (rest : list JSON) (dry_run : bool) (acc : list JSON) (t : Trace),
    let run pattern := Main.for_pattern_in str_of (pattern :: rest) dry_run acc t in
    let blank :=
      JObj [ ("patternDefinition", JObj [ ("severityLevel", JStr "") ]) ] in
    (Py.lookup "patternDefinition" fields = None ->
     run (JObj fields) = Main.for_pattern_in str_of rest dry_run acc t
     /\ run (JObj fields) = run blank)
    /\ (forall pattern_def,
          Py.lookup "patternDefinition" fields = Some (JObj pattern_def) ->
          Py.lookup "severityLevel" pattern_def = None ->
          run (JObj fields) = Main.for_pattern_in str_of rest dry_run acc t
          /\ run (JObj fields) = run blank)
    /\ (forall pattern_def s,
          Py.lookup "patternDefinition" fields = Some (JObj pattern_def) ->
          Py.lookup "severityLevel" pattern_def = Some (JStr s) ->
          Main.is_minor (PyStr.lower s) = true ->
          Py.lookup "id" pattern_def = None ->
          run (JObj fields)
          = Main.for_pattern_in str_of rest dry_run
              (acc ++ [ JObj [ ("id", JNull); ("enabled", JBool false) ] ])
              (if dry_run
               then t ++ [would_disable str_of JNull (PyStr.lower s)]
               else t)).
Proof.
  intros str_of fields rest dry_run acc t run blank. subst run blank.
  split; [|split].
  - intros Hdef. split.
    + rewrite pattern_turn. unfold examine, Py.get. rewrite Hdef. reflexivity.
    + rewrite !pattern_turn. unfold examine, Py.get. rewrite Hdef. reflexivity.
  - intros pattern_def Hdef Hsev. split.
    + rewrite pattern_turn. unfold examine, Py.get. rewrite Hdef, Hsev.
      destruct (Py.lookup "id" pattern_def); reflexivity.
    + rewrite !pattern_turn. unfold examine, Py.get. rewrite Hdef, Hsev.
      destruct (Py.lookup "id" pattern_def); reflexivity.
  - intros pattern_def s Hdef Hsev Hminor Hid.
    rewrite pattern_turn. unfold examine, Py.get. rewrite Hdef, Hid, Hsev.
    simpl Py.lower. cbv iota. rewrite Hminor. reflexivity.
Qed.

(** ** Batches ([process_patterns]) *)

Lemma range_from_length (step : nat) :
  0 < step ->
  forall fuel start stop,
    stop - start <= fuel ->
    length (Py.range_from fuel start stop step)
    = (stop - start + (step - 1)) / step.
Proof.
  intros Hstep. induction fuel as [|fuel IH]; intros start stop Hfuel.
  - simpl. replace (stop - start) with 0 by lia. simpl.
    symmetry. apply Nat.div_small. lia.
  - simpl. destruct (Nat.ltb start stop) eqn:E.
    + apply Nat.ltb_lt in E. simpl. rewrite IH by lia.
      replace (stop - start + (step - 1))
        with ((stop - start - 1) + 1 * step) by lia.
      rewrite Nat.div_add by lia.
      destruct (Nat.le_gt_cases step (stop - start)) as [Hle|Hgt].
      * replace (stop - (start + step) + (step - 1)) with (stop - start - 1) by lia.
        lia.
      * replace (stop - (start + step) + (step - 1)) with (step - 1) by lia.
        rewrite !Nat.div_small by lia. reflexivity.
    + apply Nat.ltb_ge in E. simpl.
      replace (stop - start) with 0 by lia. simpl.
      symmetry. apply Nat.div_small. lia.
Qed.

Lemma range_from_nth (step : nat) :
  forall fuel start stop k i,
    nth_error (Py.range_from fuel start stop step) k = Some i ->
    i = start + k * step.
Proof.
  induction fuel as [|fuel IH]; intros start stop k i H.
  - destruct k; discriminate.
  - simpl in H. destruct (Nat.ltb start stop); [|destruct k; discriminate].
    destruct k as [|k]; simpl in H.
    + inversion H; lia.
    + apply IH in H. lia.
Qed.

Lemma slices_concat {A : Type} (l : list A) (step : nat) :
  0 < step ->
  forall fuel start,
    length l - start <= fuel ->
    concat (map (fun i => Py.slice l i (i + step))
              (Py.range_from fuel start (length l) step))
    = skipn start l.
Proof.
  intros Hstep. induction fuel as [|fuel IH]; intros start Hfuel.
  - simpl. symmetry. apply skipn_all2. lia.
  - simpl. destruct (Nat.ltb start (length l)) eqn:E.
    + simpl. rewrite IH by lia. unfold Py.slice.
      replace (start + step - start) with step by lia.
      rewrite Nat.add_comm, <- skipn_skipn. apply firstn_skipn.
    + apply Nat.ltb_ge in E. simpl. symmetry. apply skipn_all2. exact E.
Qed.

Section Batches.

Variable patterns_to_update : list JSON.

Local Abbreviation N := (length patterns_to_update).
Local Abbreviation batches := (batches_of patterns_to_update).

Lemma batches_count : length batches = (N + 499) / 500.
Proof.
  unfold batches_of, Py.range. rewrite length_map.
  rewrite (range_from_length 500) by lia.
  rewrite Nat.sub_0_r. reflexivity.
Qed.

Lemma batches_bounded : Forall (fun b => length b <= 500) batches.
Proof.
  unfold batches_of. apply Forall_forall. intros b Hb.
  apply in_map_iff in Hb as [i [<- _]]. unfold Py.slice.
  rewrite length_firstn. lia.
Qed.

Lemma batches_concat : concat batches = patterns_to_update.
Proof.
  unfold batches_of, Py.range.
  rewrite (slices_concat patterns_to_update 500) by lia. reflexivity.
Qed.

Lemma batches_sizes : list_sum (map (@length JSON) batches) = N.
Proof. rewrite <- length_concat, batches_concat. reflexivity. Qed.

Lemma batches_consecutive (k : nat) :
  k < length batches ->
  nth k batches [] = firstn 500 (skipn (500 * k) patterns_to_update).
Proof.
  intros Hk.
  destruct (nth_error batches k) as [b|] eqn:E;
    [|apply nth_error_None in E; lia].
  rewrite (nth_error_nth _ _ _ E).
  unfold batches_of in E. rewrite nth_error_map in E.
  destruct (nth_error (Py.range 0 N 500) k) as [i|] eqn:Ei; [|discriminate].
  apply range_from_nth in Ei. simpl in E. inversion E; subst.
  unfold Py.slice. f_equal; [lia | f_equal; lia].
Qed.

Lemma batches_1200 : N = 1200 -> map (@length JSON) batches = [500; 500; 200].
Proof.
  intros HN. unfold batches_of. rewrite HN.
  replace (Py.range 0 1200 500) with [0; 500; 1000] by (vm_compute; reflexivity).
  unfold Py.slice. cbn [map].
  rewrite !length_firstn, !length_skipn, HN.
  repeat f_equal; lia.
Qed.

End Batches.

Section Updates.

Variable srv : Server.
Variable str_of : JSON -> string.
Variable str_exn : Exn -> string.
Variable api : CodacyAPI.t.
Variables sid tool : JSON.

Local Abbreviation update_req := (update_request str_of api sid tool).

(** A call of [update_patterns] the server accepts. *)
Lemma update_patterns_run (batch : list JSON) (v : JSON) (t : Trace) :
  outcome_of (srv (requests_of t) (update_req batch)) = Ret v ->
  CodacyAPI.update_patterns srv str_of str_exn api sid tool batch t
  = (Ret v,
     t ++ [ EvLog DEBUG ("Making PATCH request to "
                         ++ Requests.url (update_req batch));
            EvRequest (update_req batch);
            EvSleep 2 ]).
Proof.
  intros Hreply. unfold CodacyAPI.update_patterns.
  unfold bind at 1. rewrite make_request_run. cbv zeta.
  change (sent api "PATCH" _ _ None) with (update_req batch).
  rewrite Hreply. unfold exchange.
  rewrite (error_lines_Ret _ _ _ _ Hreply).
  run_monad. simpl. rewrite <- app_assoc. reflexivity.
Qed.

(** The update loop against a server that accepts every batch. *)
Lemma for_batch_in_run (patterns_to_update : list JSON) (starts : list nat) :
  (forall batch, accepts srv (update_req batch)) ->
  forall t,
    exists evs,
      Main.for_batch_in srv str_of str_exn api sid tool patterns_to_update starts t
      = (Ret tt, t ++ evs)
      /\ requests_of evs
         = map (fun i => update_req (Py.slice patterns_to_update i (i + 500)))
             starts.
Proof.
  intros Hsrv. induction starts as [|i starts IH]; intros t.
  - exists []. rewrite app_nil_r. split; reflexivity.
  - simpl Main.for_batch_in.
    destruct (Hsrv (Py.slice patterns_to_update i (i + 500)) (requests_of t))
      as [v Hv].
    rewrite (bind_Ret _ _ _ _ _ (update_patterns_run _ v t Hv)).
    rewrite bind_log.
    match goal with
    | |- context [Main.for_batch_in _ _ _ _ _ _ _ _ ?t1] =>
        destruct (IH t1) as [evs [Hrun Hsent]]
    end.
    rewrite Hrun. rewrite <- !app_assoc.
    eexists; split; [reflexivity|].
    rewrite !requests_of_app, Hsent. reflexivity.
Qed.

End Updates.

(** C2.  When [process_patterns], not in a dry run, has selected a
    non-empty list of [N] patterns and the server accepts the updates,
    it calls [update_patterns] once per batch and for nothing else: the
    batches are the consecutive slices of 500 of the selected list, in
    order; there are [ceil(N / 500)] of them, none longer than 500, and
    their sizes add up to [N].  For 1200 selected patterns the sizes are
    500, 500 and 200. *)
Theorem updates_in_batches_of_500 :
  forall (srv : Server) (str_of : JSON -> string) (str_exn : Exn -> string)
         (api : CodacyAPI.t) (fuel : nat) (sid tool : JSON)
         (t t1 t1' : Trace) (patterns patterns_to_update : list JSON),
    CodacyAPI.get_patterns srv str_of str_exn api fuel sid tool 100 t
    = (Ret patterns, t1) ->
    Main.for_pattern_in str_of patterns false [] t1
    = (Ret patterns_to_update, t1') ->
    patterns_to_update <> [] ->
    (forall batch, accepts srv (update_request str_of api sid tool batch)) ->
    let N := length patterns_to_update in
    let batches := batches_of patterns_to_update in
    (exists evs,
        Main.process_patterns srv str_of str_exn api fuel sid tool false t
        = (Ret tt, t1' ++ evs)
        /\ requests_of evs = map (update_request str_of api sid tool) batches)
    /\ length batches = (N + 499) / 500
    /\ Forall (fun b => length b <= 500) batches
    /\ list_sum (map (@length JSON) batches) = N
    /\ concat batches = patterns_to_update
    /\ (forall k, k < length batches ->
          nth k batches [] = firstn 500 (skipn (500 * k) patterns_to_update))
    /\ (N = 1200 -> map (@length JSON) batches = [500; 500; 200]).
Proof.
  intros srv str_of str_exn api fuel sid tool t t1 t1' patterns ptu
         Hget Hsel Hne Hsrv N batches.
  split; [|split; [|split; [|split; [|split; [|split]]]]].
  - unfold Main.process_patterns.
    rewrite (bind_Ret _ _ _ _ _ Hget), (bind_Ret _ _ _ _ _ Hsel).
    destruct ptu as [|p ptu]; [contradiction|]. cbv beta iota. simpl andb.
    destruct (for_batch_in_run srv str_of str_exn api sid tool (p :: ptu)
                (Py.range 0 (length (p :: ptu)) 500) Hsrv t1')
      as [evs [Hrun Hreq]].
    exists evs. split; [exact Hrun|].
    rewrite Hreq. unfold batches, batches_of. rewrite map_map. reflexivity.
  - apply batches_count.
  - apply batches_bounded.
  - apply batches_sizes.
  - apply batches_concat.
  - apply batches_consecutive.
  - apply batches_1200.
Qed.

(** ** No part of the workflow exits by itself *)

Ltac py_error :=
  let e := fresh "e" in
  let He := fresh "He" in
  intros e He;
  repeat match type of He with
         | context [match ?x with _ => _ end] => destruct x
         end;
  inversion He; reflexivity.

Ltac tame_bind x :=
  apply emits_bind; [auto | | intros x].

Ltac tame_lift :=
  apply emits_lift;
  [ exact I
  | unfold Py.get, Py.getitem, Py.contains, Py.iter, Py.lower; py_error ].

Lemma outcome_of_RequestException (reply : Requests.Reply) (e : Exn) :
  outcome_of reply = Raise e -> is_RequestException e = true.
Proof.
  destruct reply as [why|r]; simpl.
  - intros H; inversion H; reflexivity.
  - destruct (Requests.error_status r); destruct (body r);
      intros H; inversion H; reflexivity.
Qed.

Lemma RequestException_Exception (e : Exn) :
  is_RequestException e = true -> is_Exception e = true.
Proof. destruct e; simpl; auto. Qed.

Section Tame.

Variable srv : Server.
Variable str_of : JSON -> string.
Variable str_exn : Exn -> string.
Variable api : CodacyAPI.t.

Lemma tame_make_request (method endpoint : string) (json : option JSON)
    (params : option (list (string * JSON))) :
  tame (CodacyAPI._make_request srv str_of str_exn api method endpoint json params).
Proof.
  apply emits_make_request; [auto|].
  intros reply e He.
  apply RequestException_Exception, (outcome_of_RequestException reply); exact He.
Qed.

Lemma tame_log (level : Level) (msg : string) : tame (log level msg).
Proof. apply emits_emit; auto. Qed.

Lemma tame_get_available_tools :
  tame (CodacyAPI.get_available_tools srv str_of str_exn api).
Proof.
  unfold CodacyAPI.get_available_tools.
  tame_bind response; [apply tame_make_request | tame_lift].
Qed.

Lemma tame_enable_tool (sid uuid : JSON) :
  tame (CodacyAPI.enable_tool srv str_of str_exn api sid uuid).
Proof.
  unfold CodacyAPI.enable_tool.
  tame_bind response; [apply tame_make_request|].
  tame_bind u; [apply emits_emit; auto | apply emits_ret; auto].
Qed.

Lemma tame_update_patterns (sid uuid : JSON) (batch : list JSON) :
  tame (CodacyAPI.update_patterns srv str_of str_exn api sid uuid batch).
Proof.
  unfold CodacyAPI.update_patterns.
  tame_bind response; [apply tame_make_request|].
  tame_bind u; [apply emits_emit; auto | apply emits_ret; auto].
Qed.

Lemma tame_get_patterns_loop (fuel : nat) (sid uuid : JSON) (limit : Z) :
  forall acc cursor,
    tame (CodacyAPI.get_patterns_loop srv str_of str_exn api fuel sid uuid limit
            acc cursor).
Proof.
  induction fuel as [|fuel IH]; intros acc cursor.
  - apply emits_out_of_fuel; auto.
  - simpl CodacyAPI.get_patterns_loop.
    tame_bind response; [apply tame_make_request|].
    tame_bind page; [tame_lift|].
    tame_bind items; [tame_lift|].
    tame_bind pagination; [tame_lift|].
    tame_bind has_next_page; [tame_lift|].
    destruct has_next_page; [|apply emits_ret; auto].
    tame_bind c; [tame_lift | apply IH].
Qed.

Lemma tame_for_pattern_in (patterns : list JSON) (dry_run : bool) :
  forall acc, tame (Main.for_pattern_in str_of patterns dry_run acc).
Proof.
  induction patterns as [|p patterns IH]; intros acc.
  - apply emits_ret; auto.
  - simpl Main.for_pattern_in.
    tame_bind pattern_def; [tame_lift|].
    tame_bind pattern_id; [tame_lift|].
    tame_bind level; [tame_lift|].
    tame_bind severity; [tame_lift|].
    destruct (Main.is_minor severity); [|apply IH].
    tame_bind u; [|apply IH].
    destruct dry_run; [apply tame_log | apply emits_ret; auto].
Qed.

Lemma tame_for_batch_in (sid uuid : JSON) (ptu : list JSON) (starts : list nat) :
  tame (Main.for_batch_in srv str_of str_exn api sid uuid ptu starts).
Proof.
  induction starts as [|i starts IH]; simpl.
  - apply emits_ret; auto.
  - tame_bind r; [apply tame_update_patterns|].
    tame_bind u; [apply tame_log | exact IH].
Qed.

Lemma tame_process_patterns (fuel : nat) (sid uuid : JSON) (dry_run : bool) :
  tame (Main.process_patterns srv str_of str_exn api fuel sid uuid dry_run).
Proof.
  unfold Main.process_patterns.
  tame_bind patterns; [apply tame_get_patterns_loop|].
  tame_bind ptu; [apply tame_for_pattern_in|].
  destruct (_ && _); [apply tame_for_batch_in | apply emits_ret; auto].
Qed.

Lemma tame_process_tool (fuel : nat) (sid : JSON) (dry_run : bool)
    (tool uuid name : JSON) :
  tame (Main.process_tool srv str_of str_exn api fuel sid dry_run tool uuid name).
Proof.
  unfold Main.process_tool.
  destruct (_ || _); [apply tame_log|].
  tame_bind u; [apply tame_log|].
  destruct (negb dry_run).
  - tame_bind r; [apply tame_enable_tool|].
    tame_bind u'; [apply tame_log | apply tame_process_patterns].
  - tame_bind u'; [apply tame_log | apply tame_process_patterns].
Qed.

Lemma tame_tool_failed (tool_name : option JSON) (e : Exn) :
  tame (Main.tool_failed str_of str_exn tool_name e).
Proof.
  destruct tool_name as [name|]; simpl.
  - apply tame_log.
  - apply emits_raise; reflexivity.
Qed.

Lemma tame_for_tool_in (fuel : nat) (sid : JSON) (dry_run : bool)
    (tools : list JSON) :
  forall tool_name,
    tame (Main.for_tool_in srv str_of str_exn api fuel sid dry_run tools tool_name).
Proof.
  induction tools as [|tool tools IH]; intros tool_name.
  - apply emits_ret; auto.
  - simpl Main.for_tool_in.
    destruct (Py.get tool "uuid" JNull) as [uuid|e];
      [destruct (Py.get tool "name" JNull) as [name|e]|].
    + tame_bind u; [|apply IH].
      apply (emits_try_except _ (fun e => is_Exception e = true)); auto.
      * apply tame_process_tool.
      * intros e _ _. apply tame_tool_failed.
    + tame_bind u; [apply tame_tool_failed | apply IH].
    + tame_bind u; [apply tame_tool_failed | apply IH].
Qed.

Lemma tame_new_standard_id (name : string) (dry_run : bool) :
  tame (Main.new_standard_id srv str_of str_exn api name dry_run).
Proof.
  unfold Main.new_standard_id. destruct dry_run.
  - tame_bind u; [apply tame_log | apply emits_ret; auto].
  - tame_bind response; [apply tame_make_request|].
    tame_bind data; [tame_lift|].
    tame_bind standard_id; [tame_lift|].
    destruct (negb (Py.truthy standard_id)); [apply emits_raise; reflexivity|].
    tame_bind u; [apply tame_log | apply emits_ret; auto].
Qed.

Lemma tame_publish (sid : JSON) (dry_run : bool) :
  tame (Main.publish srv str_of str_exn api sid dry_run).
Proof.
  unfold Main.publish.
  tame_bind u; [|apply tame_log].
  destruct (negb dry_run); [|apply emits_ret; auto].
  tame_bind u1; [apply tame_log|].
  tame_bind r1; [apply tame_make_request|].
  tame_bind u2; [apply tame_log|].
  tame_bind r2; [apply tame_make_request|].
  apply emits_ret; auto.
Qed.

Lemma tame_workflow (fuel : nat) (name : string) (dry_run : bool) :
  tame (Main.workflow srv str_of str_exn api fuel name dry_run).
Proof.
  unfold Main.workflow.
  tame_bind u; [apply tame_log|].
  tame_bind sid; [apply tame_new_standard_id|].
  tame_bind u1; [apply tame_log|].
  tame_bind tools; [apply tame_get_available_tools|].
  destruct (negb (Py.truthy tools)); [apply tame_log|].
  tame_bind items; [tame_lift|].
  tame_bind u2; [apply tame_for_tool_in | apply tame_publish].
Qed.

End Tame.

(** ** The exit status ([create_standard]) *)

Section ExitStatus.

Variable srv : Server.
Variable str_of : JSON -> string.
Variable str_exn : Exn -> string.
Variable api : CodacyAPI.t.

Local Abbreviation workflow := (Main.workflow srv str_of str_exn api).
Local Abbreviation main := (Main.main srv str_of str_exn api).

Lemma main_of_workflow (fuel : nat) (name : string) (dry_run : bool)
    (t t' : Trace) (o : Outcome unit) :
  workflow fuel name dry_run t = (o, t') ->
  main fuel name dry_run t
  = match o with
    | Ret _ => (Some 0%Z, t')
    | Raise e => (Some 1%Z, t' ++ [failure_line str_exn e])
    | OutOfFuel => (None, t')
    end.
Proof.
  intros H. unfold Main.main, Main.create_standard, try_except. rewrite H.
  destruct o as [u|e|]; try reflexivity.
  destruct (tame_workflow srv str_of str_exn api fuel name dry_run _ _ _ H)
    as [_ HQ].
  rewrite (HQ e eq_refl). reflexivity.
Qed.

Lemma workflow_creation_fails (fuel : nat) (name : string) (t t1 : Trace) (e : Exn) :
  CodacyAPI.create_coding_standard srv str_of str_exn api name
    (t ++ [creating_line name]) = (Raise e, t1) ->
  workflow fuel name false t = (Raise e, t1).
Proof.
  intros H. unfold Main.workflow. rewrite bind_log.
  apply bind_Raise. unfold Main.new_standard_id. apply bind_Raise. exact H.
Qed.

Lemma workflow_id_missing (fuel : nat) (name : string) (t t1 : Trace)
    (response : JSON) :
  CodacyAPI.create_coding_standard srv str_of str_exn api name
    (t ++ [creating_line name]) = (Ret response, t1) ->
  lacks_id response ->
  workflow fuel name false t
  = (Raise (ValueError "Failed to get coding standard ID from response"), t1).
Proof.
  intros H [fields [-> Hid]]. unfold Main.workflow. rewrite bind_log.
  apply bind_Raise. unfold Main.new_standard_id.
  rewrite (bind_Ret _ _ _ _ _ H). unfold Py.get.
  destruct Hid as [Hdata|[data [Hdata Hid]]]; rewrite Hdata.
  - reflexivity.
  - run_monad. cbv beta iota. rewrite Hid. reflexivity.
Qed.

Lemma workflow_tools_fail (fuel : nat) (name : string) (dry_run : bool)
    (t t1 t2 : Trace) (sid : JSON) (e : Exn) :
  Main.new_standard_id srv str_of str_exn api name dry_run
    (t ++ [creating_line name]) = (Ret sid, t1) ->
  CodacyAPI.get_available_tools srv str_of str_exn api
    (t1 ++ [EvLog INFO "Fetching available tools..."]) = (Raise e, t2) ->
  workflow fuel name dry_run t = (Raise e, t2).
Proof.
  intros Hid Htools. unfold Main.workflow. rewrite bind_log.
  rewrite (bind_Ret _ _ _ _ _ Hid), bind_log.
  apply bind_Raise. exact Htools.
Qed.

(** The workflow up to the end of the tool loop. *)
Lemma workflow_after_tools (fuel : nat) (name : string) (dry_run : bool)
    (t t1 t2 t3 : Trace) (sid tools : JSON) (items : list JSON) :
  Main.new_standard_id srv str_of str_exn api name dry_run
    (t ++ [creating_line name]) = (Ret sid, t1) ->
  CodacyAPI.get_available_tools srv str_of str_exn api
    (t1 ++ [EvLog INFO "Fetching available tools..."]) = (Ret tools, t2) ->
  Py.truthy tools = true ->
  Py.iter tools = Ok items ->
  Main.for_tool_in srv str_of str_exn api fuel sid dry_run items None t2
  = (Ret tt, t3) ->
  workflow fuel name dry_run t
  = Main.publish srv str_of str_exn api sid dry_run t3.
Proof.
  intros Hid Htools Htruthy Hiter Hloop. unfold Main.workflow. rewrite bind_log.
  rewrite (bind_Ret _ _ _ _ _ Hid), bind_log.
  rewrite (bind_Ret _ _ _ _ _ Htools). rewrite Htruthy. cbv beta iota delta [negb].
  rewrite Hiter, bind_lift_Ok.
  rewrite (bind_Ret _ _ _ _ _ Hloop). reflexivity.
Qed.

End ExitStatus.

(** C8.  Whenever the workflow of [create_standard] raises, the handler
    logs the failure and the process exits with status 1; whenever it
    returns, the process exits with status 0.  The workflow raises when
    the creation of the standard fails, when the response of the creation
    lacks the id, when the enumeration of the tools fails, when the
    promotion fails and when setting the default fails. *)
Theorem failures_exit_with_status_1 :
  forall (srv : Server) (str_of : JSON -> string) (str_exn : Exn -> string)
         (api : CodacyAPI.t) (fuel : nat) (name : string) (dry_run : bool)
         (t : Trace),
    let main := Main.main srv str_of str_exn api fuel name in
    let failed e t' := (Some 1%Z, t' ++ [failure_line str_exn e]) in
    let t0 := t ++ [creating_line name] in
    (forall e t',
        Main.workflow srv str_of str_exn api fuel name dry_run t = (Raise e, t') ->
        main dry_run t = failed e t')
    /\ (forall t',
          Main.workflow srv str_of str_exn api fuel name dry_run t = (Ret tt, t') ->
          main dry_run t = (Some 0%Z, t'))
    /\ (forall e t1,
          CodacyAPI.create_coding_standard srv str_of str_exn api name t0
          = (Raise e, t1) ->
          main false t = failed e t1)
    /\ (forall response t1,
          CodacyAPI.create_coding_standard srv str_of str_exn api name t0
          = (Ret response, t1) ->
          lacks_id response ->
          main false t
          = failed (ValueError "Failed to get coding standard ID from response") t1)
    /\ (forall sid e t1 t2,
          Main.new_standard_id srv str_of str_exn api name dry_run t0 = (Ret sid, t1) ->
          CodacyAPI.get_available_tools srv str_of str_exn api
            (t1 ++ [EvLog INFO "Fetching available tools..."]) = (Raise e, t2) ->
          main dry_run t = failed e t2)
    /\ (forall sid tools items e t1 t2 t3 t4,
          Main.new_standard_id srv str_of str_exn api name false t0 = (Ret sid, t1) ->
          CodacyAPI.get_available_tools srv str_of str_exn api
            (t1 ++ [EvLog INFO "Fetching available tools..."]) = (Ret tools, t2) ->
          Py.truthy tools = true ->
          Py.iter tools = Ok items ->
          Main.for_tool_in srv str_of str_exn api fuel sid false items None t2
          = (Ret tt, t3) ->
          CodacyAPI.promote_draft srv str_of str_exn api sid
            (t3 ++ [EvLog INFO "Promoting coding standard..."]) = (Raise e, t4) ->
          main false t = failed e t4)
    /\ (forall sid tools items promoted e t1 t2 t3 t4 t5,
          Main.new_standard_id srv str_of str_exn api name false t0 = (Ret sid, t1) ->
          CodacyAPI.get_available_tools srv str_of str_exn api
            (t1 ++ [EvLog INFO "Fetching available tools..."]) = (Ret tools, t2) ->
          Py.truthy tools = true ->
          Py.iter tools = Ok items ->
          Main.for_tool_in srv str_of str_exn api fuel sid false items None t2
          = (Ret tt, t3) ->
          CodacyAPI.promote_draft srv str_of str_exn api sid
            (t3 ++ [EvLog INFO "Promoting coding standard..."]) = (Ret promoted, t4) ->
          CodacyAPI.set_default srv str_of str_exn api sid
            (t4 ++ [EvLog INFO "Setting as default coding standard..."])
          = (Raise e, t5) ->
          main false t = failed e t5).
Proof.
  intros srv str_of str_exn api fuel name dry_run t main failed t0.
  subst main failed t0.
  split; [|split; [|split; [|split; [|split; [|split]]]]].
  - intros e t' H. rewrite (main_of_workflow _ _ _ _ _ _ _ _ _ _ H). reflexivity.
  - intros t' H. rewrite (main_of_workflow _ _ _ _ _ _ _ _ _ _ H). reflexivity.
  - intros e t1 H.
    rewrite (main_of_workflow _ _ _ _ _ _ _ _ _ _
               (workflow_creation_fails _ _ _ _ _ _ _ _ _ H)).
    reflexivity.
  - intros response t1 H Hid.
    rewrite (main_of_workflow _ _ _ _ _ _ _ _ _ _
               (workflow_id_missing _ _ _ _ _ _ _ _ _ H Hid)).
    reflexivity.
  - intros sid e t1 t2 Hsid Htools.
    rewrite (main_of_workflow _ _ _ _ _ _ _ _ _ _
               (workflow_tools_fail _ _ _ _ _ _ _ _ _ _ _ _ Hsid Htools)).
    reflexivity.
  - intros sid tools items e t1 t2 t3 t4 Hsid Htools Htruthy Hiter Hloop Hpromote.
    assert (Hw : Main.workflow srv str_of str_exn api fuel name false t
                 = (Raise e, t4)).
    { rewrite (workflow_after_tools _ _ _ _ _ _ _ _ _ _ _ _ _ _
                 Hsid Htools Htruthy Hiter Hloop).
      unfold Main.publish. cbv beta iota delta [negb].
      apply bind_Raise. rewrite bind_log. apply bind_Raise. exact Hpromote. }
    rewrite (main_of_workflow _ _ _ _ _ _ _ _ _ _ Hw). reflexivity.
  - intros sid tools items promoted e t1 t2 t3 t4 t5
           Hsid Htools Htruthy Hiter Hloop Hpromote Hdefault.
    assert (Hw : Main.workflow srv str_of str_exn api fuel name false t
                 = (Raise e, t5)).
    { rewrite (workflow_after_tools _ _ _ _ _ _ _ _ _ _ _ _ _ _
                 Hsid Htools Htruthy Hiter Hloop).
      unfold Main.publish. cbv beta iota delta [negb].
      apply bind_Raise. rewrite bind_log.
      rewrite (bind_Ret _ _ _ _ _ Hpromote), bind_log.
      apply bind_Raise. exact Hdefault. }
    rewrite (main_of_workflow _ _ _ _ _ _ _ _ _ _ Hw). reflexivity.
Qed.

(** ** The empty catalogue *)

Section Catalogue.

Variable srv : Server.
Variable str_of : JSON -> string.
Variable str_exn : Exn -> string.
Variable api : CodacyAPI.t.

(** [new_standard_id] sends the creation request, and only in a real
    run. *)
Lemma new_standard_id_requests (name : string) (dry_run : bool)
    (t t1 : Trace) (o : Outcome JSON) :
  Main.new_standard_id srv str_of str_exn api name dry_run t = (o, t1) ->
  exists evs,
    t1 = t ++ evs
    /\ requests_of evs = if dry_run then [] else [create_request api name].
Proof.
  unfold Main.new_standard_id. destruct dry_run.
  - intros H. inversion H; subst. eexists; split; reflexivity.
  - unfold CodacyAPI.create_coding_standard. unfold bind at 1.
    rewrite make_request_run. cbv zeta.
    change (sent api "POST" _ _ None) with (create_request api name).
    set (reply := srv (requests_of t) (create_request api name)).
    destruct (outcome_of reply) as [response|e|].
    + destruct (Py.get response "data" (JObj [])) as [data|e];
        [rewrite bind_lift_Ok | rewrite bind_lift_Err].
      * destruct (Py.get data "id" JNull) as [standard_id|e];
          [rewrite bind_lift_Ok | rewrite bind_lift_Err].
        -- destruct (negb (Py.truthy standard_id)).
           ++ intros H; inversion H; subst. eexists; split; [reflexivity|].
              apply exchange_requests.
           ++ intros H; inversion H; subst. rewrite <- app_assoc.
              eexists; split; [reflexivity|].
              rewrite requests_of_app, exchange_requests. reflexivity.
        -- intros H; inversion H; subst. eexists; split; [reflexivity|].
           apply exchange_requests.
      * intros H; inversion H; subst. eexists; split; [reflexivity|].
        apply exchange_requests.
    + intros H; inversion H; subst. eexists; split; [reflexivity|].
      apply exchange_requests.
    + intros H; inversion H; subst. eexists; split; [reflexivity|].
      apply exchange_requests.
Qed.

(** [get_available_tools] sends the catalogue request. *)
Lemma get_available_tools_requests (t t1 : Trace) (o : Outcome JSON) :
  CodacyAPI.get_available_tools srv str_of str_exn api t = (o, t1) ->
  exists evs, t1 = t ++ evs /\ requests_of evs = [tools_request api].
Proof.
  unfold CodacyAPI.get_available_tools. unfold bind at 1.
  rewrite make_request_run. cbv zeta.
  change (sent api "GET" "api/v3/tools" None None) with (tools_request api).
  set (reply := srv (requests_of t) (tools_request api)).
  destruct (outcome_of reply) as [response|e|].
  - destruct (Py.get response "data" (JArr [])) as [data|e];
      intros H; inversion H; subst; eexists; split;
      try reflexivity; apply exchange_requests.
  - intros H; inversion H; subst. eexists; split; [reflexivity|].
    apply exchange_requests.
  - intros H; inversion H; subst. eexists; split; [reflexivity|].
    apply exchange_requests.
Qed.

End Catalogue.

(** C6.  When [get_available_tools] returns an empty catalogue, the
    workflow logs the warning and returns: the run has sent the
    creation request (in a real run) and the catalogue request and no
    other, and the process exits with status 0. *)
Theorem empty_catalogue_returns :
  forall (srv : Server) (str_of : JSON -> string) (str_exn : Exn -> string)
         (api : CodacyAPI.t) (fuel : nat) (name : string) (dry_run : bool)
         (t t1 t2 : Trace) (sid tools : JSON),
    Main.new_standard_id srv str_of str_exn api name dry_run
      (t ++ [creating_line name]) = (Ret sid, t1) ->
    CodacyAPI.get_available_tools srv str_of str_exn api
      (t1 ++ [EvLog INFO "Fetching available tools..."]) = (Ret tools, t2) ->
    Py.truthy tools = false ->
    let t' := t2 ++ [EvLog WARNING "No tools found"] in
    Main.create_standard srv str_of str_exn api fuel name dry_run t = (Ret tt, t')
    /\ Main.main srv str_of str_exn api fuel name dry_run t = (Some 0%Z, t')
    /\ sent_between t t'
       = (if dry_run then [] else [create_request api name]) ++ [tools_request api].
Proof.
  intros srv str_of str_exn api fuel name dry_run t t1 t2 sid tools
         Hsid Htools Hempty t'.
  assert (Hw : Main.workflow srv str_of str_exn api fuel name dry_run t
               = (Ret tt, t')).
  { unfold Main.workflow. rewrite bind_log.
    rewrite (bind_Ret _ _ _ _ _ Hsid), bind_log.
    rewrite (bind_Ret _ _ _ _ _ Htools), Hempty. reflexivity. }
  split; [|split].
  - unfold Main.create_standard, try_except. rewrite Hw. reflexivity.
  - rewrite (main_of_workflow _ _ _ _ _ _ _ _ _ _ Hw). reflexivity.
  - destruct (new_standard_id_requests _ _ _ _ _ _ _ _ _ Hsid) as [evs1 [-> Hr1]].
    destruct (get_available_tools_requests _ _ _ _ _ _ _ Htools) as [evs2 [-> Hr2]].
    subst t'. rewrite <- !app_assoc. rewrite sent_between_app.
    rewrite !requests_of_app, Hr1, Hr2. simpl. rewrite ?app_nil_r. reflexivity.
Qed.

(** ** The tool loop ([create_standard]) *)

Section ToolLoop.

Variable srv : Server.
Variable str_of : JSON -> string.
Variable str_exn : Exn -> string.
Variable api : CodacyAPI.t.
Variable fuel : nat.
Variable sid : JSON.
Variable dry_run : bool.

Local Abbreviation for_tool_in :=
  (Main.for_tool_in srv str_of str_exn api fuel sid dry_run).
Local Abbreviation process_tool :=
  (Main.process_tool srv str_of str_exn api fuel sid dry_run).

(** One turn of the loop on a tool that is a dict. *)
Lemma tool_turn (tool uuid name : JSON) (rest : list JSON)
    (prev : option JSON) (t : Trace) :
  Py.get tool "uuid" JNull = Ok uuid ->
  Py.get tool "name" JNull = Ok name ->
  for_tool_in (tool :: rest) prev t
  = match process_tool tool uuid name t with
    | (Ret _, t1) => for_tool_in rest (Some name) t1
    | (Raise e, t1) =>
        for_tool_in rest (Some name) (t1 ++ [tool_error_line str_of str_exn name e])
    | (OutOfFuel, t1) => (OutOfFuel, t1)
    end.
Proof.
  intros Huuid Hname. simpl Main.for_tool_in. rewrite Huuid, Hname.
  unfold bind at 1, try_except.
  destruct (process_tool tool uuid name t) as [[u|e|] t1] eqn:E;
    try reflexivity.
  destruct (tame_process_tool srv str_of str_exn api fuel sid dry_run
              tool uuid name _ _ _ E) as [_ HQ].
  rewrite (HQ e eq_refl). reflexivity.
Qed.

Lemma dict_get (tool : JSON) (k : string) (default : JSON) :
  is_dict tool = true -> exists v, Py.get tool k default = Ok v.
Proof.
  destruct tool; try discriminate. intros _. unfold Py.get.
  destruct (Py.lookup k fields); eexists; reflexivity.
Qed.

(** Over tools that are dicts the loop never raises. *)
Lemma for_tool_in_never_raises (tools : list JSON) :
  Forall (fun tool => is_dict tool = true) tools ->
  forall prev,
    emits (fun _ => True) (fun _ => False) (for_tool_in tools prev).
Proof.
  induction 1 as [|tool tools Htool _ IH]; intros prev.
  - apply emits_ret; auto.
  - simpl Main.for_tool_in.
    destruct (dict_get tool "uuid" JNull Htool) as [uuid ->].
    destruct (dict_get tool "name" JNull Htool) as [name ->].
    apply emits_bind; [auto | | intros u; apply IH].
    apply (emits_try_except _ (fun e => is_Exception e = true)); auto.
    + apply tame_process_tool.
    + intros e _ _. apply emits_emit; auto.
    + intros e H1 H2. rewrite H1 in H2. discriminate.
Qed.

(** The loop over a list is the loop over its beginning, then the loop
    over its end. *)
Lemma for_tool_in_app (before after : list JSON) :
  forall prev t t1,
    for_tool_in before prev t = (Ret tt, t1) ->
    exists prev', for_tool_in (before ++ after) prev t = for_tool_in after prev' t1.
Proof.
  induction before as [|tool before IH]; intros prev t t1 H.
  - inversion H; subst. exists prev. reflexivity.
  - simpl app. simpl Main.for_tool_in in *.
    destruct (Py.get tool "uuid" JNull) as [uuid|e];
      [destruct (Py.get tool "name" JNull) as [name|e]|].
    + unfold bind at 1 in H. unfold bind at 1.
      destruct (try_except _ _ _ t) as [[u|e|] t2]; try discriminate.
      apply IH; exact H.
    + unfold bind at 1 in H. unfold bind at 1.
      destruct (Main.tool_failed _ _ _ _ t) as [[u|e'|] t2]; try discriminate.
      apply IH; exact H.
    + unfold bind at 1 in H. unfold bind at 1.
      destruct (Main.tool_failed _ _ _ _ t) as [[u|e'|] t2]; try discriminate.
      apply IH; exact H.
Qed.

End ToolLoop.

(** C5 as amended.  Over a catalogue of tools that are dicts the tool
    loop never raises.  When the processing of a tool raises, whatever
    the tools before and after it, the loop appends exactly one line
    [Error processing tool] for it to what the failed call itself logged
    and goes on with the tools that follow; so it does in particular
    when the [enable_tool] call of the tool raises. *)
Theorem tool_failure_is_isolated :
  forall (srv : Server) (str_of : JSON -> string) (str_exn : Exn -> string)
         (api : CodacyAPI.t) (fuel : nat) (sid : JSON) (dry_run : bool),
    let for_tool_in := Main.for_tool_in srv str_of str_exn api fuel sid dry_run in
    (forall tools prev t e,
        Forall (fun tool => is_dict tool = true) tools ->
        fst (for_tool_in tools prev t) <> Raise e)
    /\ (forall before tool after uuid name prev t t1 t2 e,
          for_tool_in before prev t = (Ret tt, t1) ->
          Py.get tool "uuid" JNull = Ok uuid ->
          Py.get tool "name" JNull = Ok name ->
          Main.process_tool srv str_of str_exn api fuel sid dry_run tool uuid name t1
          = (Raise e, t2) ->
          for_tool_in (before ++ tool :: after) prev t
          = for_tool_in after (Some name)
              (t2 ++ [tool_error_line str_of str_exn name e]))
    /\ (forall before tool after uuid name prev t t1 t2 e,
          dry_run = false ->
          for_tool_in before prev t = (Ret tt, t1) ->
          Py.get tool "uuid" JNull = Ok uuid ->
          Py.get tool "name" JNull = Ok name ->
          Py.truthy uuid = true ->
          Py.truthy name = true ->
          CodacyAPI.enable_tool srv str_of str_exn api sid uuid
            (t1 ++ [EvLog INFO ("Processing tool: " ++ CodacyAPI.fmt str_of name)])
          = (Raise e, t2) ->
          for_tool_in (before ++ tool :: after) prev t
          = for_tool_in after (Some name)
              (t2 ++ [tool_error_line str_of str_exn name e])).
Proof.
  intros srv str_of str_exn api fuel sid dry_run for_tool_in. subst for_tool_in.
  assert (Hturn : forall before tool after uuid name prev t t1 t2 e,
             Main.for_tool_in srv str_of str_exn api fuel sid dry_run before prev t
             = (Ret tt, t1) ->
             Py.get tool "uuid" JNull = Ok uuid ->
             Py.get tool "name" JNull = Ok name ->
             Main.process_tool srv str_of str_exn api fuel sid dry_run
               tool uuid name t1 = (Raise e, t2) ->
             Main.for_tool_in srv str_of str_exn api fuel sid dry_run
               (before ++ tool :: after) prev t
             = Main.for_tool_in srv str_of str_exn api fuel sid dry_run after
                 (Some name) (t2 ++ [tool_error_line str_of str_exn name e])).
  { intros before tool after uuid name prev t t1 t2 e Hbefore Huuid Hname Hraise.
    destruct (for_tool_in_app srv str_of str_exn api fuel sid dry_run
                before (tool :: after) prev t t1 Hbefore) as [prev' ->].
    rewrite (tool_turn _ _ _ _ _ _ _ _ uuid name _ _ _ Huuid Hname).
    rewrite Hraise. reflexivity. }
  split; [|split].
  - intros tools prev t e Hdicts Hraise.
    destruct (Main.for_tool_in srv str_of str_exn api fuel sid dry_run tools prev t)
      as [o t'] eqn:E.
    destruct (for_tool_in_never_raises srv str_of str_exn api fuel sid dry_run
                tools Hdicts prev _ _ _ E) as [_ HQ].
    simpl in Hraise. exact (HQ e Hraise).
  - exact Hturn.
  - intros before tool after uuid name prev t t1 t2 e
           -> Hbefore Huuid Hname Htu Htn Henable.
    apply (Hturn before tool after uuid name prev t t1 t2 e Hbefore Huuid Hname).
    unfold Main.process_tool. rewrite Htu, Htn. cbv beta iota delta [negb orb].
    rewrite bind_log. apply bind_Raise. exact Henable.
Qed.

(** ** The dry run *)

Lemma count_lines_app (text : string) (evs1 evs2 : list Event) :
  count_lines text (evs1 ++ evs2) = count_lines text evs1 + count_lines text evs2.
Proof. unfold count_lines. rewrite filter_app, length_app. reflexivity. Qed.

Lemma dry_events_nil (str_of : JSON -> string) (api : CodacyAPI.t) :
  dry_events str_of api [].
Proof. split; [constructor | reflexivity]. Qed.

Lemma dry_events_app (str_of : JSON -> string) (api : CodacyAPI.t)
    (evs1 evs2 : list Event) :
  dry_events str_of api evs1 -> dry_events str_of api evs2 ->
  dry_events str_of api (evs1 ++ evs2).
Proof.
  intros [F1 C1] [F2 C2]. split.
  - apply Forall_app; auto.
  - rewrite !count_lines_app, C1, C2. reflexivity.
Qed.

Lemma prefix_app_l (p q s : string) :
  prefix (p ++ q) s = true -> prefix p s = true.
Proof.
  revert s. induction p as [|a p IH]; intros s H; [destruct s; reflexivity|].
  change (String a p ++ q)%string with (String a (p ++ q)) in H.
  destruct s as [|b s]; simpl in *; [discriminate|].
  destruct (ascii_dec a b); [apply IH; exact H | discriminate].
Qed.

Lemma prefix_app (p s : string) : prefix p (p ++ s) = true.
Proof.
  induction p as [|a p IH]; [destruct s; reflexivity|].
  change (String a p ++ s)%string with (String a (p ++ s)). simpl.
  destruct (ascii_dec a a); [exact IH | contradiction].
Qed.

(** A log line that starts with none of the three texts. *)
Lemma dry_events_plain (str_of : JSON -> string) (api : CodacyAPI.t)
    (level : Level) (msg : string) :
  prefix "[DRY RUN]" msg = false ->
  prefix "Processing tool: " msg = false ->
  dry_events str_of api [EvLog level msg].
Proof.
  intros H1 H2. split.
  - constructor; [|constructor]. simpl. rewrite H1. discriminate.
  - unfold count_lines. simpl. rewrite H2.
    destruct (prefix "[DRY RUN] Would enable tool: " msg) eqn:E; [|reflexivity].
    apply (prefix_app_l "[DRY RUN]" " Would enable tool: ") in E.
    rewrite H1 in E. discriminate.
Qed.

Section DryRun.

Variable srv : Server.
Variable str_of : JSON -> string.
Variable str_exn : Exn -> string.
Variable api : CodacyAPI.t.

Local Abbreviation dry := (emits (dry_events str_of api) (fun _ => True)).

Ltac dry_bind x :=
  apply emits_bind; [apply dry_events_app | | intros x].
Ltac dry_plain :=
  apply emits_emit; apply dry_events_plain; reflexivity.
Ltac dry_lift := apply emits_lift; [apply dry_events_nil | auto].
Ltac dry_ret := apply emits_ret; apply dry_events_nil.

Lemma dry_events_cons (ev : Event) (evs : list Event) :
  dry_events str_of api [ev] -> dry_events str_of api evs ->
  dry_events str_of api (ev :: evs).
Proof. intros H1 H2. apply (dry_events_app _ _ [ev] evs); assumption. Qed.

Lemma dry_error_lines (reply : Requests.Reply) :
  dry_events str_of api (error_lines str_of str_exn reply).
Proof.
  destruct reply as [why|r]; simpl.
  - apply dry_events_plain; reflexivity.
  - destruct (Requests.error_status r); destruct (body r);
      repeat first
        [ apply dry_events_nil
        | apply dry_events_cons; [apply dry_events_plain; reflexivity|] ].
Qed.

Lemma dry_patterns_page (sid tool cursor : JSON) :
  dry (CodacyAPI._make_request srv str_of str_exn api "GET"
         (CodacyAPI.tool_endpoint str_of api sid tool ++ "/patterns") None
         (Some ([ ("limit", JInt 100) ]
                ++ (if Py.truthy cursor then [ ("cursor", cursor) ] else [])))).
Proof.
  apply emits_make_request; [|auto].
  intros reply. unfold exchange.
  apply dry_events_cons; [apply dry_events_plain; reflexivity|].
  apply dry_events_cons; [|apply dry_error_lines].
  split; [|reflexivity].
  constructor; [|constructor]. exists sid, tool, cursor. reflexivity.
Qed.

Lemma dry_get_patterns_loop (fuel : nat) (sid tool : JSON) :
  forall acc cursor,
    dry (CodacyAPI.get_patterns_loop srv str_of str_exn api fuel sid tool 100
           acc cursor).
Proof.
  induction fuel as [|fuel IH]; intros acc cursor.
  - apply emits_out_of_fuel. apply dry_events_nil.
  - simpl CodacyAPI.get_patterns_loop.
    dry_bind response; [apply dry_patterns_page|].
    dry_bind page; [dry_lift|].
    dry_bind items; [dry_lift|].
    dry_bind pagination; [dry_lift|].
    dry_bind has_next_page; [dry_lift|].
    destruct has_next_page; [|dry_ret].
    dry_bind c; [dry_lift | apply IH].
Qed.

Lemma dry_for_pattern_in (patterns : list JSON) :
  forall acc, dry (Main.for_pattern_in str_of patterns true acc).
Proof.
  induction patterns as [|p patterns IH]; intros acc.
  - dry_ret.
  - simpl Main.for_pattern_in.
    dry_bind pattern_def; [dry_lift|].
    dry_bind pattern_id; [dry_lift|].
    dry_bind level; [dry_lift|].
    dry_bind severity; [dry_lift|].
    destruct (Main.is_minor severity); [|apply IH].
    dry_bind u; [|apply IH].
    apply emits_emit. split; [|reflexivity].
    constructor; [|constructor]. simpl. intros _. right.
    apply (prefix_app "[DRY RUN] Would disable pattern: ").
Qed.

Lemma dry_process_patterns (fuel : nat) (sid tool : JSON) :
  dry (Main.process_patterns srv str_of str_exn api fuel sid tool true).
Proof.
  unfold Main.process_patterns.
  dry_bind patterns; [apply dry_get_patterns_loop|].
  dry_bind ptu; [apply dry_for_pattern_in|].
  rewrite andb_false_r. dry_ret.
Qed.

Lemma dry_process_tool (fuel : nat) (sid tool uuid name : JSON) :
  dry (Main.process_tool srv str_of str_exn api fuel sid true tool uuid name).
Proof.
  unfold Main.process_tool.
  destruct (_ || _); [dry_plain|].
  cbv beta iota delta [negb].
  intros t o t' H. rewrite !bind_log in H.
  destruct (dry_process_patterns fuel sid uuid _ _ _ H) as [[evs [-> Hevs]] _].
  split; [|auto].
  rewrite <- !app_assoc. eexists; split; [reflexivity|].
  apply (dry_events_app _ _ [_; _] evs); [|exact Hevs].
  split.
  - constructor; [|constructor; [|constructor]]; simpl.
    + discriminate.
    + intros _. left. apply (prefix_app "[DRY RUN] Would enable tool: ").
  - unfold count_lines. cbn [filter starts_with].
    rewrite (prefix_app "[DRY RUN] Would enable tool: ").
    rewrite (prefix_app "Processing tool: ").
    replace (prefix "[DRY RUN] Would enable tool: "
               ("Processing tool: " ++ CodacyAPI.fmt str_of name))
      with false by reflexivity.
    replace (prefix "Processing tool: "
               ("[DRY RUN] Would enable tool: " ++ CodacyAPI.fmt str_of name))
      with false by reflexivity.
    reflexivity.
Qed.

Lemma dry_tool_failed (tool_name : option JSON) (e : Exn) :
  dry (Main.tool_failed str_of str_exn tool_name e).
Proof.
  destruct tool_name as [name|]; simpl.
  - dry_plain.
  - apply emits_raise; [apply dry_events_nil | exact I].
Qed.

Lemma dry_for_tool_in (fuel : nat) (sid : JSON) (tools : list JSON) :
  forall tool_name,
    dry (Main.for_tool_in srv str_of str_exn api fuel sid true tools tool_name).
Proof.
  induction tools as [|tool tools IH]; intros tool_name.
  - dry_ret.
  - simpl Main.for_tool_in.
    destruct (Py.get tool "uuid" JNull) as [uuid|e];
      [destruct (Py.get tool "name" JNull) as [name|e]|].
    + dry_bind u; [|apply IH].
      apply (emits_try_except _ (fun _ => True));
        [apply dry_events_nil | apply dry_events_app | apply dry_process_tool
        | intros e _ _; apply dry_tool_failed | auto].
    + dry_bind u; [apply dry_tool_failed | apply IH].
    + dry_bind u; [apply dry_tool_failed | apply IH].
Qed.

(** The workflow of a dry run after the catalogue has been fetched. *)
Lemma dry_after_catalogue (fuel : nat) (sid tools : JSON) :
  dry (if negb (Py.truthy tools)
       then log WARNING "No tools found"
       else
         items <- lift (Py.iter tools) ;;
         Main.for_tool_in srv str_of str_exn api fuel sid true items None ;;
         Main.publish srv str_of str_exn api sid true).
Proof.
  destruct (negb (Py.truthy tools)); [dry_plain|].
  dry_bind items; [dry_lift|].
  dry_bind u; [apply dry_for_tool_in|].
  unfold Main.publish. cbv beta iota delta [negb].
  dry_bind u'; [dry_ret | dry_plain].
Qed.

End DryRun.

(** In a dry run the pattern loop logs one line per pattern it
    selects, in order. *)
Lemma for_pattern_in_dry_lines (str_of : JSON -> string) (patterns : list JSON) :
  forall (acc out : list JSON) (t t' : Trace),
    Main.for_pattern_in str_of patterns true acc t = (Ret out, t') ->
    t' = t ++ map (fun p => would_disable str_of (pattern_id_of p)
                              (lowered_severity p))
               (filter selected patterns).
Proof.
  induction patterns as [|p patterns IH]; intros acc out t t' H.
  - inversion H; subst. simpl. rewrite app_nil_r. reflexivity.
  - rewrite pattern_turn in H. pose proof (examine_selected p) as Hp.
    simpl filter.
    destruct (examine p) as [[[pattern_id severity]|]|e]; [| |discriminate].
    + destruct Hp as [-> [-> ->]]. apply IH in H. rewrite H.
      simpl. rewrite <- app_assoc. reflexivity.
    + rewrite Hp. eapply IH; exact H.
Qed.

Lemma get_available_tools_trace (srv : Server) (str_of : JSON -> string)
    (str_exn : Exn -> string) (api : CodacyAPI.t) (t : Trace) :
  snd (CodacyAPI.get_available_tools srv str_of str_exn api t)
  = t ++ exchange str_of str_exn (tools_request api)
           (srv (requests_of t) (tools_request api)).
Proof.
  unfold CodacyAPI.get_available_tools. unfold bind at 1.
  rewrite make_request_run. cbv zeta.
  change (sent api "GET" "api/v3/tools" None None) with (tools_request api).
  destruct (outcome_of _) as [response|e|]; try reflexivity.
  destruct (Py.get response "data" (JArr [])); reflexivity.
Qed.

Lemma mutations_app (t1 t2 : Trace) :
  mutations (t1 ++ t2) = mutations t1 ++ mutations t2.
Proof. unfold mutations. rewrite requests_of_app, filter_app. reflexivity. Qed.

Lemma dry_events_read_only (str_of : JSON -> string) (api : CodacyAPI.t)
    (evs : list Event) :
  Forall (dry_event str_of api) evs ->
  mutations evs = [] /\ (forall s, ~ In (EvSleep s) evs).
Proof.
  induction 1 as [|ev evs Hev _ [IH1 IH2]]; [split; auto|].
  split.
  - change (ev :: evs) with ([ev] ++ evs). rewrite mutations_app, IH1, app_nil_r.
    destruct ev as [r|level msg|s]; try reflexivity.
    destruct Hev as [sid [tool [cursor ->]]]. reflexivity.
  - intros s [Heq|Hin]; [subst ev; exact Hev | exact (IH2 s Hin)].
Qed.

(** *** What a dry run does for each tool *)

Lemma extends_refl (t : Trace) : extends t t.
Proof. exists []. rewrite app_nil_r. reflexivity. Qed.

Lemma extends_app (t evs : Trace) : extends t (t ++ evs).
Proof. exists evs. reflexivity. Qed.

Lemma extends_trans (t1 t2 t3 : Trace) :
  extends t1 t2 -> extends t2 t3 -> extends t1 t3.
Proof.
  intros [l1 ->] [l2 ->]. exists (l1 ++ l2). rewrite app_assoc. reflexivity.
Qed.

Lemma tame_extends {A : Type} (m : M A) (t : Trace) :
  tame m -> extends t (snd (m t)).
Proof.
  intros Hm. destruct (m t) as [o t'] eqn:E.
  destruct (Hm _ _ _ E) as [[evs [-> _]] _]. apply extends_app.
Qed.

Section DryTools.

Variable srv : Server.
Variable str_of : JSON -> string.
Variable str_exn : Exn -> string.
Variable api : CodacyAPI.t.
Variable fuel : nat.

(** With fuel left, [get_patterns] starts with the request for the
    first page. *)
Lemma get_patterns_starts (sid tool : JSON) (limit : Z) (t : Trace) :
  extends (t ++ page_events str_of api sid tool limit (JStr ""))
    (snd (CodacyAPI.get_patterns srv str_of str_exn api (S fuel) sid tool limit t)).
Proof.
  unfold CodacyAPI.get_patterns. simpl CodacyAPI.get_patterns_loop.
  unfold bind at 1. rewrite make_request_run. cbv zeta.
  set (reply := srv (requests_of t) _).
  assert (Hex : extends (t ++ page_events str_of api sid tool limit (JStr ""))
                  (t ++ exchange str_of str_exn
                          (patterns_request str_of api sid tool limit (JStr ""))
                          reply)).
  { exists (error_lines str_of str_exn reply).
    unfold exchange. rewrite <- !app_assoc. reflexivity. }
  destruct (outcome_of reply) as [response|e|]; [|exact Hex|exact Hex].
  eapply extends_trans; [exact Hex|].
  apply tame_extends.
  tame_bind page; [tame_lift|].
  tame_bind items; [tame_lift|].
  tame_bind pagination; [tame_lift|].
  tame_bind has_next_page; [tame_lift|].
  destruct has_next_page; [|apply emits_ret; auto].
  tame_bind c; [tame_lift | apply tame_get_patterns_loop].
Qed.

(** [process_patterns] goes on from where [get_patterns] stops. *)
Lemma process_patterns_extends (sid uuid : JSON) (dry_run : bool) (t : Trace) :
  extends
    (snd (CodacyAPI.get_patterns srv str_of str_exn api fuel sid uuid 100 t))
    (snd (Main.process_patterns srv str_of str_exn api fuel sid uuid dry_run t)).
Proof.
  unfold Main.process_patterns. unfold bind at 1.
  destruct (CodacyAPI.get_patterns srv str_of str_exn api fuel sid uuid 100 t)
    as [[patterns|e|] t1]; simpl snd; try apply extends_refl.
  apply tame_extends.
  tame_bind ptu; [apply tame_for_pattern_in|].
  destruct (_ && _); [apply tame_for_batch_in | apply emits_ret; auto].
Qed.

(** In a dry run, a tool with a uuid and a name gets its two lines and
    then its patterns are processed. *)
Lemma dry_process_tool_run (sid tool uuid name : JSON) (t : Trace) :
  Py.truthy uuid = true ->
  Py.truthy name = true ->
  Main.process_tool srv str_of str_exn api fuel sid true tool uuid name t
  = Main.process_patterns srv str_of str_exn api fuel sid uuid true
      (t ++ dry_tool_lines str_of name).
Proof.
  intros Hu Hn. unfold Main.process_tool. rewrite Hu, Hn.
  cbv beta iota delta [negb orb]. rewrite !bind_log, <- app_assoc. reflexivity.
Qed.

(** The loop goes on from where the processing of its first tool stops,
    after the error line when the processing failed. *)
Lemma tool_turn_extends (sid : JSON) (dry_run : bool) (tool uuid name : JSON)
    (rest : list JSON) (prev : option JSON) (t : Trace) :
  Py.get tool "uuid" JNull = Ok uuid ->
  Py.get tool "name" JNull = Ok name ->
  let processed :=
    Main.process_tool srv str_of str_exn api fuel sid dry_run tool uuid name t in
  extends
    (snd processed
     ++ match fst processed with
        | Raise e => [ tool_error_line str_of str_exn name e ]
        | _ => []
        end)
    (snd (Main.for_tool_in srv str_of str_exn api fuel sid dry_run
            (tool :: rest) prev t)).
Proof.
  intros Huuid Hname processed. subst processed.
  rewrite (tool_turn _ _ _ _ _ _ _ _ uuid name _ _ _ Huuid Hname).
  destruct (Main.process_tool srv str_of str_exn api fuel sid dry_run tool uuid
              name t) as [[u|e|] t1]; cbn [fst snd].
  - rewrite app_nil_r. apply tame_extends, tame_for_tool_in.
  - apply tame_extends, tame_for_tool_in.
  - rewrite app_nil_r. apply extends_refl.
Qed.

(** A dry run goes on from where its tool loop stops. *)
Lemma dry_run_extends_tool_loop (name : string) (t t2 : Trace) (tools : JSON)
    (items : list JSON) :
  CodacyAPI.get_available_tools srv str_of str_exn api
    (t ++ [ creating_line name;
            EvLog INFO "[DRY RUN] Would create new coding standard";
            EvLog INFO "Fetching available tools..." ]) = (Ret tools, t2) ->
  Py.truthy tools = true ->
  Py.iter tools = Ok items ->
  extends
    (snd (Main.for_tool_in srv str_of str_exn api fuel (JStr "dry-run-id") true
            items None t2))
    (snd (Main.create_standard srv str_of str_exn api fuel name true t)).
Proof.
  intros Htools Htruthy Hiter.
  assert (Hw : Main.workflow srv str_of str_exn api fuel name true t
               = bind (Main.for_tool_in srv str_of str_exn api fuel
                         (JStr "dry-run-id") true items None)
                   (fun _ => Main.publish srv str_of str_exn api
                               (JStr "dry-run-id") true) t2).
  { unfold Main.workflow. rewrite bind_log.
    rewrite (bind_Ret _ _ _
               ((t ++ [creating_line name])
                ++ [EvLog INFO "[DRY RUN] Would create new coding standard"])
               (JStr "dry-run-id")) by reflexivity.
    rewrite bind_log.
    replace (((t ++ [creating_line name])
              ++ [EvLog INFO "[DRY RUN] Would create new coding standard"])
             ++ [EvLog INFO "Fetching available tools..."])
      with (t ++ [ creating_line name;
                   EvLog INFO "[DRY RUN] Would create new coding standard";
                   EvLog INFO "Fetching available tools..." ])
      by (rewrite <- !app_assoc; reflexivity).
    rewrite (bind_Ret _ _ _ _ _ Htools). rewrite Htruthy.
    cbv beta iota delta [negb]. rewrite Hiter, bind_lift_Ok. reflexivity. }
  unfold Main.create_standard, try_except. rewrite Hw. unfold bind at 1.
  destruct (Main.for_tool_in srv str_of str_exn api fuel (JStr "dry-run-id") true
              items None t2) as [[u|e|] t3]; cbn [snd].
  - apply extends_app.
  - destruct (is_Exception e); [apply extends_app | apply extends_refl].
  - apply extends_refl.
Qed.

End DryTools.


(** ** The operations of the client *)

Lemma string_app_assoc (a b c : string) :
  ((a ++ b) ++ c = a ++ (b ++ c))%string.
Proof.
  induction a as [|x a IH]; [reflexivity|].
  change (String x a ++ b)%string with (String x (a ++ b)).
  change (String x (a ++ b) ++ c)%string with (String x ((a ++ b) ++ c)).
  rewrite IH. reflexivity.
Qed.

Section Operations.

Variable srv : Server.
Variable str_of : JSON -> string.
Variable str_exn : Exn -> string.
Variable api : CodacyAPI.t.

(** An operation that calls [_make_request] once and sends nothing
    else has sent the request of that call. *)
Lemma one_request {A : Type} (method endpoint : string) (json : option JSON)
    (params : option (list (string * JSON))) (k : JSON -> M A) (t : Trace) :
  (forall v t1, exists evs, snd (k v t1) = t1 ++ evs /\ requests_of evs = []) ->
  sent_between t
    (snd (bind (CodacyAPI._make_request srv str_of str_exn api method endpoint
                  json params) k t))
  = [sent api method endpoint json params].
Proof.
  intros Hk. unfold bind. rewrite make_request_run. cbv zeta.
  set (req := sent api method endpoint json params).
  set (reply := srv (requests_of t) req).
  destruct (outcome_of reply) as [v|e|].
  - destruct (Hk v (t ++ exchange str_of str_exn req reply)) as [evs [-> Hevs]].
    rewrite <- app_assoc, sent_between_app, requests_of_app, Hevs,
      exchange_requests.
    reflexivity.
  - simpl snd. rewrite sent_between_app. apply exchange_requests.
  - simpl snd. rewrite sent_between_app. apply exchange_requests.
Qed.

Lemma make_request_sends (method endpoint : string) (json : option JSON)
    (params : option (list (string * JSON))) (t : Trace) :
  sent_between t
    (snd (CodacyAPI._make_request srv str_of str_exn api method endpoint
            json params t))
  = [sent api method endpoint json params].
Proof.
  rewrite make_request_run. cbv zeta. simpl snd.
  rewrite sent_between_app. apply exchange_requests.
Qed.

Lemma lift_leaves_trace {A : Type} (r : Result A) (t : Trace) :
  exists evs, snd (lift r t) = t ++ evs /\ requests_of evs = [].
Proof. exists []. destruct r; simpl; rewrite app_nil_r; auto. Qed.

Lemma sleep_leaves_requests (v : JSON) (t : Trace) :
  exists evs,
    snd ((sleep 2 ;; ret v) t) = t ++ evs /\ requests_of evs = [].
Proof. exists [EvSleep 2]. split; reflexivity. Qed.

Lemma get_patterns_sends (fuel : nat) (sid tool : JSON) (limit : Z) :
  forall acc cursor,
    emits (fun evs =>
             Forall (fun r => exists c, r = patterns_request str_of api sid tool limit c)
               (requests_of evs))
      (fun _ => True)
      (CodacyAPI.get_patterns_loop srv str_of str_exn api fuel sid tool limit
         acc cursor).
Proof.
  assert (Happ : forall evs1 evs2,
             Forall (fun r => exists c, r = patterns_request str_of api sid tool limit c)
               (requests_of evs1) ->
             Forall (fun r => exists c, r = patterns_request str_of api sid tool limit c)
               (requests_of evs2) ->
             Forall (fun r => exists c, r = patterns_request str_of api sid tool limit c)
               (requests_of (evs1 ++ evs2))).
  { intros evs1 evs2 H1 H2. rewrite requests_of_app. apply Forall_app; auto. }
  induction fuel as [|fuel IH]; intros acc cursor.
  - apply emits_out_of_fuel. constructor.
  - simpl CodacyAPI.get_patterns_loop.
    apply emits_bind; [exact Happ | | intros response].
    { apply emits_make_request; [|auto].
      intros reply. rewrite exchange_requests.
      constructor; [|constructor]. exists cursor. reflexivity. }
    apply emits_bind; [exact Happ | apply emits_lift; [constructor|auto] | intros page].
    apply emits_bind; [exact Happ | apply emits_lift; [constructor|auto] | intros items].
    apply emits_bind;
      [exact Happ | apply emits_lift; [constructor|auto] | intros pagination].
    apply emits_bind; [exact Happ | apply emits_lift; [constructor|auto] | intros [|]].
    + apply emits_bind;
        [exact Happ | apply emits_lift; [constructor|auto] | intros c; apply IH].
    + apply emits_ret. constructor.
Qed.

Lemma standards_under_organization (rest : string) :
  (CodacyAPI.base_url api ++ "/"
   ++ PyStr.lstrip_slash (CodacyAPI.standards_endpoint api ++ rest)
   = CodacyAPI.base_url api ++ "/api/v3/organizations/" ++ CodacyAPI.provider api
     ++ "/" ++ CodacyAPI.org_name api ++ "/coding-standards" ++ rest)%string.
Proof.
  unfold CodacyAPI.standards_endpoint.
  rewrite !string_app_assoc. reflexivity.
Qed.

End Operations.

(** C7 as amended.  Every operation of the client sends its requests
    through [_make_request], which puts the base address before the
    endpoint, attaches the headers of the client, among them the API
    token, and hands the structured body over as it is.  The
    organization and provider are not attached by the primitive: each
    operation on coding standards names them in its endpoint, and
    [get_available_tools] asks the global catalogue [api/v3/tools]
    without them.  A transport failure raises the transport error; an
    error status (400 to 599) whose body decodes raises the HTTP error
    that carries the response, status and body, after both were logged;
    another status returns the decoded body, or an empty dict for an
    empty body. *)
Theorem operations_share_request_primitive :
  forall (srv : Server) (str_of : JSON -> string) (str_exn : Exn -> string)
         (settings : Settings.t),
    let api := CodacyAPI.__init__ settings in
    (forall method endpoint json params t,
        let req := sent api method endpoint json params in
        let reply := srv (requests_of t) req in
        CodacyAPI._make_request srv str_of str_exn api method endpoint json params t
        = (outcome_of reply, t ++ exchange str_of str_exn req reply)
        /\ Requests.url req
           = (PyStr.rstrip_slash (Settings.api_url settings) ++ "/"
              ++ PyStr.lstrip_slash endpoint)%string
        /\ In ("api-token", Settings.api_token settings) (Requests.headers req)
        /\ Requests.json_arg req = json)
    /\ (forall why,
          outcome_of (Requests.Unreachable why) = Raise (ConnectionError why))
    /\ (forall r v,
          Requests.error_status r = true ->
          body r = JsonBody v ->
          outcome_of (Requests.Responded r) = Raise (HTTPError r)
          /\ error_lines str_of str_exn (Requests.Responded r)
             = [ EvLog ERROR ("API request failed: " ++ str_exn (HTTPError r));
                 EvLog ERROR ("Response: " ++ CodacyAPI.fmt str_of v) ])
    /\ (forall r v,
          Requests.error_status r = false ->
          body r = JsonBody v ->
          outcome_of (Requests.Responded r) = Ret v)
    /\ (forall r,
          Requests.error_status r = false ->
          body r = NoBody ->
          outcome_of (Requests.Responded r) = Ret (JObj []))
    /\ (forall name sid tool batch limit fuel t,
          sent_between t
            (snd (CodacyAPI.create_coding_standard srv str_of str_exn api name t))
          = [create_request api name]
          /\ sent_between t
               (snd (CodacyAPI.get_coding_standards srv str_of str_exn api t))
             = [standards_request api]
          /\ sent_between t
               (snd (CodacyAPI.get_available_tools srv str_of str_exn api t))
             = [tools_request api]
          /\ sent_between t
               (snd (CodacyAPI.enable_tool srv str_of str_exn api sid tool t))
             = [enable_request str_of api sid tool]
          /\ sent_between t
               (snd (CodacyAPI.update_patterns srv str_of str_exn api sid tool
                       batch t))
             = [update_request str_of api sid tool batch]
          /\ sent_between t
               (snd (CodacyAPI.promote_draft srv str_of str_exn api sid t))
             = [promote_request str_of api sid]
          /\ sent_between t
               (snd (CodacyAPI.set_default srv str_of str_exn api sid t))
             = [set_default_request str_of api sid]
          /\ Forall (fun r => exists cursor,
                       r = patterns_request str_of api sid tool limit cursor)
               (sent_between t
                  (snd (CodacyAPI.get_patterns srv str_of str_exn api fuel
                          sid tool limit t))))
    /\ (forall name sid tool batch limit cursor,
          under_organization api (create_request api name)
          /\ under_organization api (standards_request api)
          /\ under_organization api (enable_request str_of api sid tool)
          /\ under_organization api (update_request str_of api sid tool batch)
          /\ under_organization api (promote_request str_of api sid)
          /\ under_organization api (set_default_request str_of api sid)
          /\ under_organization api
               (patterns_request str_of api sid tool limit cursor)
          /\ Requests.url (tools_request api)
             = (CodacyAPI.base_url api ++ "/api/v3/tools")%string).
Proof.
  intros srv str_of str_exn settings api.
  split; [|split; [|split; [|split; [|split; [|split]]]]].
  - intros method endpoint json params t req reply.
    split; [apply make_request_run|].
    split; [reflexivity|]. split; [|reflexivity].
    simpl. auto.
  - reflexivity.
  - intros r v Hs Hb. simpl. rewrite Hs, Hb. split; reflexivity.
  - intros r v Hs Hb. simpl. rewrite Hs, Hb. reflexivity.
  - intros r Hs Hb. simpl. rewrite Hs, Hb. reflexivity.
  - intros name sid tool batch limit fuel t.
    split; [apply make_request_sends|].
    split; [apply one_request; intros; apply lift_leaves_trace|].
    split; [apply one_request; intros; apply lift_leaves_trace|].
    split; [apply one_request; intros; apply sleep_leaves_requests|].
    split; [apply one_request; intros; apply sleep_leaves_requests|].
    split; [apply make_request_sends|].
    split; [apply make_request_sends|].
    unfold CodacyAPI.get_patterns.
    destruct (CodacyAPI.get_patterns_loop srv str_of str_exn api fuel sid tool
                limit [] (JStr "") t) as [o t'] eqn:E.
    destruct (get_patterns_sends srv str_of str_exn api fuel sid tool limit
                [] (JStr "") _ _ _ E) as [[evs [-> Hevs]] _].
    simpl snd. rewrite sent_between_app. exact Hevs.
  - intros name sid tool batch limit cursor.
    assert (Htool : forall rest r,
               Requests.url r
               = (CodacyAPI.base_url api ++ "/"
                  ++ PyStr.lstrip_slash
                       (CodacyAPI.standards_endpoint api ++ rest))%string ->
               under_organization api r).
    { intros rest r Hr. exists rest. rewrite Hr.
      apply standards_under_organization. }
    split; [exists ""%string; reflexivity|].
    split; [exists ""%string; reflexivity|].
    split.
    { apply (Htool ("/" ++ CodacyAPI.fmt str_of sid ++ "/tools/"
                    ++ CodacyAPI.fmt str_of tool)%string). reflexivity. }
    split.
    { apply (Htool ("/" ++ CodacyAPI.fmt str_of sid ++ "/tools/"
                    ++ CodacyAPI.fmt str_of tool)%string). reflexivity. }
    split.
    { apply (Htool ("/" ++ CodacyAPI.fmt str_of sid ++ "/promote")%string).
      reflexivity. }
    split.
    { apply (Htool ("/" ++ CodacyAPI.fmt str_of sid ++ "/setDefault")%string).
      reflexivity. }
    split; [|reflexivity].
    apply (Htool ("/" ++ CodacyAPI.fmt str_of sid ++ "/tools/"
                  ++ CodacyAPI.fmt str_of tool ++ "/patterns")%string).
    unfold patterns_request, sent, CodacyAPI.tool_endpoint.
    cbv beta iota delta [Requests.url].
    rewrite !string_app_assoc. reflexivity.
Qed.

(** * The theorems at work on concrete runs *)

Lemma scripted_answers (replies : list Requests.Reply) (default : Requests.Reply)
    (pages : list JSON) :
  replies = map Example.ok pages ->
  answers_in_turn (Example.scripted replies default) 0 pages.
Proof.
  intros -> k p hist req Hk Hlen. unfold Example.scripted.
  simpl in Hlen. rewrite Hlen.
  rewrite (nth_error_nth (map Example.ok pages) k default
             (x := Example.ok p)); [reflexivity|].
  rewrite nth_error_map, Hk. reflexivity.
Qed.

Lemma get_patterns_concatenates_pages_witness :
  exists t',
    CodacyAPI.get_patterns Example.two_pages Example.str_of Example.str_exn
      Example.api 2 (JStr "std-1") (JStr "u1") 100 []
    = (Ret [ Example.pattern "p1" "Minor"; Example.pattern "p2" "major";
             Example.pattern "p3" "INFO" ], t')
    /\ length (requests_of t') = 2.
Proof.
  destruct (get_patterns_concatenates_pages Example.two_pages Example.str_of
              Example.str_exn Example.api (JStr "std-1") (JStr "u1") 100
              [Example.page1] Example.page2 []) as [Hrun _].
  - repeat constructor.
  - repeat constructor.
  - reflexivity.
  - apply scripted_answers. reflexivity.
  - destruct (Hrun 2) as [t' [Hr [_ Hl]]]; [simpl; lia|].
    exists t'. split; [exact Hr | exact Hl].
Defined.

Lemma get_patterns_stops_iff_cursor_free_page_witness :
  let run fuel :=
    CodacyAPI.get_patterns Example.looping Example.str_of Example.str_exn
      Example.api fuel (JStr "std-1") (JStr "u1") 100 [] in
  let first_page :=
    patterns_request Example.str_of Example.api (JStr "std-1") (JStr "u1") 100
      (JStr "") in
  fst (run 3) = OutOfFuel
  /\ sent_between [] (snd (run 3)) = [first_page; first_page; first_page]
  /\ nth_error (sent_between [] (snd (run 3))) 1 = Some first_page
  /\ ~ (exists fuel, fst (run fuel) <> OutOfFuel).
Proof.
  destruct (get_patterns_stops_iff_cursor_free_page Example.looping Example.str_of
              Example.str_exn Example.api (JStr "std-1") (JStr "u1") 100
              (fun _ => Example.same_page) [])
    as [Hiff [Hnext [_ Hloop]]].
  - intros k. reflexivity.
  - intros k hist req Hlen. reflexivity.
  - destruct (Hloop (fun _ => eq_refl) 3) as [Hout Hsent].
    split; [exact Hout|]. split; [exact Hsent|]. split.
    + apply (Hnext 0 3).
      * intros j Hj. inversion Hj.
      * reflexivity.
      * simpl; lia.
    + intros Hstop. apply Hiff in Hstop. destruct Hstop as [n Hn]. discriminate Hn.
Defined.

Lemma severity_filter_case_insensitive_idempotent_witness :
  selected (Example.pattern "p1" "MINOR") = true
  /\ selected (Example.pattern "p2" "critical") = false
  /\ selected (Example.pattern "p1" "Info") = selected (Example.pattern "p3" "INFO")
  /\ Main.for_pattern_in Example.str_of
       [ Example.pattern "p1" "MINOR"; Example.pattern "p2" "critical" ]
       false [] []
     = Main.for_pattern_in Example.str_of [ Example.pattern "p2" "critical" ]
         false [ Main.disabled (JStr "p1") ] []
  /\ Main.for_pattern_in Example.str_of
       (filter selected
          [ Example.pattern "p1" "MINOR"; Example.pattern "p2" "critical" ])
       false [] []
     = (Ret [ Main.disabled (JStr "p1") ], []).
Proof.
  destruct (severity_filter_case_insensitive_idempotent Example.str_of)
    as [Hturn [Hlow [Hhigh [Hcase Hidem]]]].
  split; [|split; [|split; [|split]]].
  - apply (Hlow _ "MINOR"); [reflexivity | simpl; auto].
  - apply (Hhigh _ "critical"); [reflexivity | simpl; auto].
  - apply (Hcase _ _ "Info" "INFO"); reflexivity.
  - apply (Hturn (Example.pattern "p1" "MINOR") "MINOR"). reflexivity.
  - apply (Hidem [ Example.pattern "p1" "MINOR"; Example.pattern "p2" "critical" ]
             false [] [ Main.disabled (JStr "p1") ] [] []).
    reflexivity.
Defined.

Lemma missing_pattern_fields_tolerated_witness :
  Main.for_pattern_in Example.str_of [ JObj [ ("id", JStr "lonely") ] ] false [] []
  = (Ret [], [])
  /\ Main.for_pattern_in Example.str_of
       [ JObj [ ("patternDefinition", JObj [ ("id", JStr "p1") ]) ] ] false [] []
     = (Ret [], [])
  /\ Main.for_pattern_in Example.str_of
       [ JObj [ ("patternDefinition", JObj [ ("severityLevel", JStr "Info") ]) ] ]
       false [] []
     = (Ret [ JObj [ ("id", JNull); ("enabled", JBool false) ] ], []).
Proof.
  split; [|split].
  - destruct (missing_pattern_fields_tolerated Example.str_of
                [ ("id", JStr "lonely") ] [] false [] []) as [H _].
    destruct (H eq_refl) as [Hrun _]. exact Hrun.
  - destruct (missing_pattern_fields_tolerated Example.str_of
                [ ("patternDefinition", JObj [ ("id", JStr "p1") ]) ]
                [] false [] []) as [_ [H _]].
    destruct (H [ ("id", JStr "p1") ] eq_refl eq_refl) as [Hrun _]. exact Hrun.
  - destruct (missing_pattern_fields_tolerated Example.str_of
                [ ("patternDefinition", JObj [ ("severityLevel", JStr "Info") ]) ]
                [] false [] []) as [_ [_ H]].
    exact (H [ ("severityLevel", JStr "Info") ] "Info" eq_refl eq_refl eq_refl
             eq_refl).
Defined.

Lemma updates_in_batches_of_500_witness :
  let sid := JStr "std-1" in
  let tool := JStr "u1" in
  let selection := repeat (Main.disabled (JStr "p")) 1200 in
  let t1 :=
    snd (CodacyAPI.get_patterns Example.three_big_pages Example.str_of
           Example.str_exn Example.api 5 sid tool 100 []) in
  (exists evs,
      Main.process_patterns Example.three_big_pages Example.str_of Example.str_exn
        Example.api 5 sid tool false []
      = (Ret tt, t1 ++ evs)
      /\ length (requests_of evs) = 3)
  /\ map (@length JSON) (batches_of selection) = [500; 500; 200]
  /\ concat (batches_of selection) = selection.
Proof.
  intros sid tool selection t1.
  destruct (updates_in_batches_of_500 Example.three_big_pages Example.str_of
              Example.str_exn Example.api 5 sid tool [] t1 t1
              (Example.many 1200) selection)
    as [[evs [Hrun Hreq]] [Hcount [_ [_ [Hconcat [_ Hsizes]]]]]].
  - vm_compute. reflexivity.
  - vm_compute. reflexivity.
  - discriminate.
  - intros batch hist. unfold Example.three_big_pages, Example.scripted.
    destruct hist as [|r1 [|r2 [|r3 hist]]]; simpl;
      try destruct (length hist); eexists; reflexivity.
  - split; [|split].
    + exists evs. split; [exact Hrun|].
      rewrite Hreq, length_map, Hcount. vm_compute. reflexivity.
    + apply Hsizes. vm_compute. reflexivity.
    + exact Hconcat.
Defined.



Lemma tool_failure_is_isolated_witness :
  let for_tool_in :=
    Main.for_tool_in Example.flaky Example.str_of Example.str_exn Example.api 5
      (JStr "std-1") false in
  let t1 := snd (for_tool_in [ Example.tool "u1" "ToolOne" ] None []) in
  let t2 :=
    snd (CodacyAPI.enable_tool Example.flaky Example.str_of Example.str_exn
           Example.api (JStr "std-1") (JStr "u2")
           (t1 ++ [ EvLog INFO "Processing tool: ToolTwo" ])) in
  for_tool_in
    [ Example.tool "u1" "ToolOne"; Example.tool "u2" "ToolTwo";
      Example.tool "u3" "ToolThree" ] None []
  = for_tool_in [ Example.tool "u3" "ToolThree" ] (Some (JStr "ToolTwo"))
      (t2 ++ [ tool_error_line Example.str_of Example.str_exn (JStr "ToolTwo")
                 (ConnectionError "connection reset") ])
  /\ fst (for_tool_in
            [ Example.tool "u1" "ToolOne"; Example.tool "u2" "ToolTwo";
              Example.tool "u3" "ToolThree" ] None [])
     <> Raise (ConnectionError "connection reset").
Proof.
  intros for_tool_in t1 t2.
  destruct (tool_failure_is_isolated Example.flaky Example.str_of Example.str_exn
              Example.api 5 (JStr "std-1") false) as [Hnever [_ Henable]].
  split.
  - apply (Henable [ Example.tool "u1" "ToolOne" ] (Example.tool "u2" "ToolTwo")
             [ Example.tool "u3" "ToolThree" ] (JStr "u2") (JStr "ToolTwo")
             None [] t1 t2 (ConnectionError "connection reset")).
    + reflexivity.
    + vm_compute. reflexivity.
    + reflexivity.
    + reflexivity.
    + reflexivity.
    + reflexivity.
    + vm_compute. reflexivity.
  - apply Hnever. repeat constructor.
Defined.

(** C5, as it is stated, fails: of three tools the second cannot be
    enabled; the first and the third are processed, and the log holds
    two error lines for the second, the one of the request that failed
    and the one of the tool loop. *)
Lemma one_error_per_failed_tool_counterexample :
  error_events
    (snd (Main.for_tool_in Example.flaky Example.str_of Example.str_exn
            Example.api 5 (JStr "std-1") false
            [ Example.tool "u1" "ToolOne"; Example.tool "u2" "ToolTwo";
              Example.tool "u3" "ToolThree" ] None []))
  = [ EvLog ERROR "API request failed: connection reset";
      EvLog ERROR "Error processing tool ToolTwo: connection reset" ]
  /\ ~ one_error_per_failed_tool Example.flaky Example.str_of Example.str_exn
         Example.api 5 (JStr "std-1")
         [ Example.tool "u1" "ToolOne"; Example.tool "u2" "ToolTwo";
           Example.tool "u3" "ToolThree" ].
Proof.
  split.
  - vm_compute. reflexivity.
  - unfold one_error_per_failed_tool. vm_compute. discriminate.
Qed.

Lemma empty_catalogue_returns_witness :
  let t2 :=
    [ creating_line "demo" ]
    ++ exchange Example.str_of Example.str_exn
         (create_request Example.api "demo") (Example.ok Example.created)
    ++ [ EvLog INFO "Created coding standard with ID: std-1";
         EvLog INFO "Fetching available tools..." ]
    ++ exchange Example.str_of Example.str_exn (tools_request Example.api)
         (Example.ok (Example.catalogue [])) in
  Main.main Example.empty_catalogue Example.str_of Example.str_exn Example.api 5
    "demo" false []
  = (Some 0%Z, t2 ++ [ EvLog WARNING "No tools found" ])
  /\ sent_between [] (t2 ++ [ EvLog WARNING "No tools found" ])
     = [ create_request Example.api "demo"; tools_request Example.api ].
Proof.
  intros t2.
  destruct (empty_catalogue_returns Example.empty_catalogue Example.str_of
              Example.str_exn Example.api 5 "demo" false []
              ([ creating_line "demo" ]
               ++ exchange Example.str_of Example.str_exn
                    (create_request Example.api "demo")
                    (Example.ok Example.created)
               ++ [ EvLog INFO "Created coding standard with ID: std-1" ])
              t2 (JStr "std-1") (JArr []))
    as [_ [Hmain Hsent]].
  - vm_compute. reflexivity.
  - vm_compute. reflexivity.
  - reflexivity.
  - split; [exact Hmain | exact Hsent].
Defined.

Lemma operations_share_request_primitive_witness :
  let not_found :=
    mkResponse 404 (JsonBody (JObj [ ("error", JStr "not found") ])) in
  outcome_of (Requests.Responded not_found) = Raise (HTTPError not_found)
  /\ outcome_of (Requests.Responded (mkResponse 200 (JsonBody (JInt 7))))
     = Ret (JInt 7)
  /\ outcome_of (Requests.Responded (mkResponse 204 NoBody)) = Ret (JObj [])
  /\ In ("api-token", "token-123")
       (Requests.headers (create_request Example.api "demo"))
  /\ Requests.url (tools_request Example.api)
     = "https://app.codacy.com/api/v3/tools".
Proof.
  intros not_found.
  destruct (operations_share_request_primitive Example.service Example.str_of
              Example.str_exn Example.settings)
    as [Hprim [_ [Herror [Hbody [Hempty [_ Hurl]]]]]].
  split; [|split; [|split; [|split]]].
  - destruct (Herror not_found (JObj [ ("error", JStr "not found") ])
                eq_refl eq_refl) as [Hraise _].
    exact Hraise.
  - exact (Hbody (mkResponse 200 (JsonBody (JInt 7))) (JInt 7) eq_refl eq_refl).
  - exact (Hempty (mkResponse 204 NoBody) eq_refl eq_refl).
  - destruct (Hprim "POST" (CodacyAPI.standards_endpoint Example.api)
                (Some (JObj [ ("name", JStr "demo");
                              ("languages", JArr (map JStr CodacyAPI.languages)) ]))
                None []) as [_ [_ [Htoken _]]].
    exact Htoken.
  - destruct (Hurl "demo" JNull JNull [] 100%Z JNull)
      as [_ [_ [_ [_ [_ [_ [_ Htools]]]]]]].
    exact Htools.
Defined.

(** C7, as it is stated, fails: the request of [get_available_tools]
    goes to [api/v3/tools]; its address names neither the provider nor
    the organization. *)
Lemma every_operation_names_organization_counterexample :
  requests_of
    (snd (CodacyAPI.get_available_tools Example.service Example.str_of
            Example.str_exn Example.api []))
  = [ tools_request Example.api ]
  /\ Requests.url (tools_request Example.api)
     = "https://app.codacy.com/api/v3/tools"
  /\ ~ every_operation_names_organization Example.service Example.str_of
         Example.str_exn Example.api.
Proof.
  split; [|split].
  - vm_compute. reflexivity.
  - reflexivity.
  - intros H. specialize (H (tools_request Example.api)).
    assert (Hin : In (tools_request Example.api)
                    (requests_of
                       (snd (CodacyAPI.get_available_tools Example.service
                               Example.str_of Example.str_exn Example.api []))))
      by (vm_compute; left; reflexivity).
    apply H in Hin. vm_compute in Hin. discriminate.
Qed.

Lemma failures_exit_with_status_1_witness :
  let exit_of srv :=
    fst (Main.main srv Example.str_of Example.str_exn Example.api 5 "demo"
           false []) in
  exit_of Example.unreachable = Some 1%Z
  /\ exit_of Example.no_id = Some 1%Z
  /\ exit_of Example.no_catalogue = Some 1%Z
  /\ exit_of Example.no_promotion = Some 1%Z
  /\ exit_of Example.no_default = Some 1%Z
  /\ exit_of Example.service = Some 0%Z.
Proof.
  intros exit_of. unfold exit_of.
  split; [|split; [|split; [|split; [|split]]]].
  - destruct (failures_exit_with_status_1 Example.unreachable Example.str_of
                Example.str_exn Example.api 5 "demo" false [])
      as [_ [_ [H _]]].
    rewrite (H (ConnectionError "no route")
               (snd (CodacyAPI.create_coding_standard Example.unreachable
                       Example.str_of Example.str_exn Example.api "demo"
                       [ creating_line "demo" ]))
               eq_refl).
    reflexivity.
  - destruct (failures_exit_with_status_1 Example.no_id Example.str_of
                Example.str_exn Example.api 5 "demo" false [])
      as [_ [_ [_ [H _]]]].
    rewrite (H (JObj [ ("data", JObj []) ])
               (snd (CodacyAPI.create_coding_standard Example.no_id
                       Example.str_of Example.str_exn Example.api "demo"
                       [ creating_line "demo" ]))
               eq_refl).
    + reflexivity.
    + exists [ ("data", JObj []) ]. split; [reflexivity|].
      right. exists []. split; reflexivity.
  - destruct (failures_exit_with_status_1 Example.no_catalogue Example.str_of
                Example.str_exn Example.api 5 "demo" false [])
      as [_ [_ [_ [_ [H _]]]]].
    rewrite (H (JStr "std-1") (ConnectionError "no route")
               (snd (Main.new_standard_id Example.no_catalogue Example.str_of
                       Example.str_exn Example.api "demo" false
                       [ creating_line "demo" ]))
               (snd (CodacyAPI.get_available_tools Example.no_catalogue
                       Example.str_of Example.str_exn Example.api
                       (snd (Main.new_standard_id Example.no_catalogue
                               Example.str_of Example.str_exn Example.api "demo"
                               false [ creating_line "demo" ])
                        ++ [ EvLog INFO "Fetching available tools..." ])))
               eq_refl eq_refl).
    reflexivity.
  - destruct (failures_exit_with_status_1 Example.no_promotion Example.str_of
                Example.str_exn Example.api 5 "demo" false [])
      as [_ [_ [_ [_ [_ [H _]]]]]].
    set (t1 := snd (Main.new_standard_id Example.no_promotion Example.str_of
                      Example.str_exn Example.api "demo" false
                      [ creating_line "demo" ])).
    set (t2 := snd (CodacyAPI.get_available_tools Example.no_promotion
                      Example.str_of Example.str_exn Example.api
                      (t1 ++ [ EvLog INFO "Fetching available tools..." ]))).
    set (t3 := snd (Main.for_tool_in Example.no_promotion Example.str_of
                      Example.str_exn Example.api 5 (JStr "std-1") false
                      [ Example.tool "u1" "ToolOne" ] None t2)).
    set (t4 := snd (CodacyAPI.promote_draft Example.no_promotion Example.str_of
                      Example.str_exn Example.api (JStr "std-1")
                      (t3 ++ [ EvLog INFO "Promoting coding standard..." ]))).
    rewrite (H (JStr "std-1") (JArr [ Example.tool "u1" "ToolOne" ])
               [ Example.tool "u1" "ToolOne" ] (ConnectionError "no route")
               t1 t2 t3 t4);
      reflexivity.
  - destruct (failures_exit_with_status_1 Example.no_default Example.str_of
                Example.str_exn Example.api 5 "demo" false [])
      as [_ [_ [_ [_ [_ [_ H]]]]]].
    set (t1 := snd (Main.new_standard_id Example.no_default Example.str_of
                      Example.str_exn Example.api "demo" false
                      [ creating_line "demo" ])).
    set (t2 := snd (CodacyAPI.get_available_tools Example.no_default
                      Example.str_of Example.str_exn Example.api
                      (t1 ++ [ EvLog INFO "Fetching available tools..." ]))).
    set (t3 := snd (Main.for_tool_in Example.no_default Example.str_of
                      Example.str_exn Example.api 5 (JStr "std-1") false
                      [ Example.tool "u1" "ToolOne" ] None t2)).
    set (t4 := snd (CodacyAPI.promote_draft Example.no_default Example.str_of
                      Example.str_exn Example.api (JStr "std-1")
                      (t3 ++ [ EvLog INFO "Promoting coding standard..." ]))).
    set (t5 := snd (CodacyAPI.set_default Example.no_default Example.str_of
                      Example.str_exn Example.api (JStr "std-1")
                      (t4 ++ [ EvLog INFO "Setting as default coding standard..." ]))).
    rewrite (H (JStr "std-1") (JArr [ Example.tool "u1" "ToolOne" ])
               [ Example.tool "u1" "ToolOne" ] (JObj [])
               (ConnectionError "no route") t1 t2 t3 t4 t5);
      reflexivity.
  - destruct (failures_exit_with_status_1 Example.service Example.str_of
                Example.str_exn Example.api 5 "demo" false [])
      as [_ [H _]].
    rewrite (H (snd (Main.workflow Example.service Example.str_of
                       Example.str_exn Example.api 5 "demo" false [])));
      reflexivity.
Defined.

(** * Further properties of the code *)

(** ** Configuration ([src/config/settings.py]) *)

(** X1.  [Settings()] raises for the first of [CODACY_API_TOKEN],
    [CODACY_ORG_NAME], [CODACY_PROVIDER], in this order, that is missing
    or set to the empty string, with a [ValueError] that names it; when
    the three are set to non-empty values it returns them as they
    are. *)
Theorem settings_require_three_variables :
  forall (environ : Settings.Environ),
    match find (not_set environ) required_variables with
    | Some key => Settings.__init__ environ = Err (not_set_error key)
    | None =>
        exists s,
          Settings.__init__ environ = Ok s
          /\ environ "CODACY_API_TOKEN" = Some (Settings.api_token s)
          /\ environ "CODACY_ORG_NAME" = Some (Settings.org_name s)
          /\ environ "CODACY_PROVIDER" = Some (Settings.provider s)
    end.
Proof.
  intros environ.
  unfold required_variables, find, not_set, Settings.__init__,
    Settings._get_required_env, not_set_error.
  destruct (environ "CODACY_API_TOKEN") as [token|]; [|reflexivity].
  destruct (String.eqb token ""); [reflexivity|].
  destruct (environ "CODACY_ORG_NAME") as [org|]; [|reflexivity].
  destruct (String.eqb org ""); [reflexivity|].
  destruct (environ "CODACY_PROVIDER") as [prov|]; [|reflexivity].
  destruct (String.eqb prov ""); [reflexivity|].
  eexists. split; [reflexivity|]. simpl. auto.
Qed.

(** X2.  When [Settings()] succeeds, [api_url] and [log_level] are the
    values of [CODACY_API_URL] and [LOG_LEVEL] whenever these are set,
    also when they are set to the empty string, and the defaults
    [https://app.codacy.com] and [INFO] only when they are missing. *)
Theorem settings_optional_variables :
  forall (environ : Settings.Environ) (s : Settings.t),
    Settings.__init__ environ = Ok s ->
    (forall url, environ "CODACY_API_URL" = Some url -> Settings.api_url s = url)
    /\ (environ "CODACY_API_URL" = None ->
        Settings.api_url s = "https://app.codacy.com")
    /\ (forall level, environ "LOG_LEVEL" = Some level -> Settings.log_level s = level)
    /\ (environ "LOG_LEVEL" = None -> Settings.log_level s = "INFO").
Proof.
  intros environ s H. unfold Settings.__init__ in H.
  destruct (Settings._get_required_env environ "CODACY_API_TOKEN"); [|discriminate].
  destruct (Settings._get_required_env environ "CODACY_ORG_NAME"); [|discriminate].
  destruct (Settings._get_required_env environ "CODACY_PROVIDER"); [|discriminate].
  inversion H; subst; clear H. unfold Settings._get_optional_env. simpl.
  repeat split.
  - intros url ->. reflexivity.
  - intros ->. reflexivity.
  - intros level ->. reflexivity.
  - intros ->. reflexivity.
Qed.

Lemma settings_optional_variables_witness :
  let environ :=
    environ_of [ ("CODACY_API_TOKEN", "t"); ("CODACY_ORG_NAME", "acme");
                 ("CODACY_PROVIDER", "gh"); ("CODACY_API_URL", "") ] in
  exists s,
    Settings.__init__ environ = Ok s
    /\ Settings.api_url s = ""
    /\ Settings.log_level s = "INFO".
Proof.
  intros environ.
  exists (Settings.mk "t" "acme" "gh" "" "INFO").
  destruct (settings_optional_variables environ
              (Settings.mk "t" "acme" "gh" "" "INFO") eq_refl)
    as [Hurl [_ [_ Hlevel]]].
  split; [reflexivity|]. split.
  - apply (Hurl ""). reflexivity.
  - apply Hlevel. reflexivity.
Defined.

(** ** Addresses ([CodacyAPI.__init__], [_make_request]) *)

Lemma rstrip_slash_app_slash (u : string) :
  PyStr.rstrip_slash (u ++ "/") = PyStr.rstrip_slash u.
Proof.
  induction u as [|c u IH]; [reflexivity|].
  change (String c u ++ "/")%string with (String c (u ++ "/")).
  simpl. rewrite IH. reflexivity.
Qed.

Lemma rstrip_slash_cases (c : ascii) (u : string) :
  (c = "/"%char /\ PyStr.rstrip_slash u = ""%string
   /\ PyStr.rstrip_slash (String c u) = ""%string)
  \/ ((c <> "/"%char \/ PyStr.rstrip_slash u <> ""%string)
      /\ PyStr.rstrip_slash (String c u) = String c (PyStr.rstrip_slash u)).
Proof.
  simpl. destruct (PyStr.rstrip_slash u) as [|c' r].
  - destruct (ascii_dec c "/") as [->|Hc]; [left; auto|].
    right. split; [left; exact Hc|].
    destruct c as [[] [] [] [] [] [] [] []]; try reflexivity.
    exfalso; apply Hc; reflexivity.
  - right. split; [right; discriminate|].
    destruct c as [[] [] [] [] [] [] [] []]; reflexivity.
Qed.

Lemma rstrip_slash_no_trailing_slash (u : string) :
  forall v, PyStr.rstrip_slash u <> (v ++ "/")%string.
Proof.
  induction u as [|c u IH]; intros v.
  - destruct v; discriminate.
  - destruct (rstrip_slash_cases c u) as [[_ [_ ->]]|[Hor ->]].
    + destruct v; discriminate.
    + destruct v as [|c' v].
      * intros H. inversion H as [[Hc Hr]]. destruct Hor as [Hne|Hne]; auto.
      * intros H. change (String c' v ++ "/")%string with (String c' (v ++ "/")) in H.
        inversion H as [[Hc Hr]]. exact (IH v Hr).
Qed.

Lemma lstrip_slash_no_leading_slash (e : string) :
  forall v, PyStr.lstrip_slash e <> String "/" v.
Proof.
  induction e as [|c e IH]; intros v; [discriminate|].
  destruct (ascii_dec c "/") as [->|Hc].
  - simpl. apply IH.
  - replace (PyStr.lstrip_slash (String c e)) with (String c e).
    + intros H. inversion H. contradiction.
    + destruct c as [[] [] [] [] [] [] [] []]; try reflexivity.
      exfalso; apply Hc; reflexivity.
Qed.

(** X3.  The address of a request is the base address and the endpoint
    joined by one slash: the trailing slashes of the configured API URL
    and the leading slashes of the endpoint are dropped, so adding some
    changes nothing of the request that is sent. *)
Theorem address_is_joined_by_one_slash :
  forall (srv : Server) (str_of : JSON -> string) (str_exn : Exn -> string)
         (token org prov url level method endpoint : string)
         (json : option JSON) (params : option (list (string * JSON)))
         (t : Trace),
    let api u := CodacyAPI.__init__ (Settings.mk token org prov u level) in
    sent_between t
      (snd (CodacyAPI._make_request srv str_of str_exn (api (url ++ "/")%string)
              method ("/" ++ endpoint) json params t))
    = [sent (api url) method endpoint json params]
    /\ Requests.url (sent (api url) method endpoint json params)
       = (PyStr.rstrip_slash url ++ "/" ++ PyStr.lstrip_slash endpoint)%string
    /\ (forall v, PyStr.rstrip_slash url <> (v ++ "/")%string)
    /\ (forall v, PyStr.lstrip_slash endpoint <> String "/" v).
Proof.
  intros srv str_of str_exn token org prov url level method endpoint json params
         t api.
  split; [|split; [reflexivity|split]].
  - rewrite make_request_sends. unfold sent, api, CodacyAPI.__init__. simpl.
    rewrite rstrip_slash_app_slash. reflexivity.
  - apply rstrip_slash_no_trailing_slash.
  - apply lstrip_slash_no_leading_slash.
Qed.

Lemma replace_absent (old new s : string) :
  PyStr.contains old s = false -> PyStr.replace_from old new 0 s = s.
Proof.
  induction s as [|c s IH]; intros H; [reflexivity|].
  cbn [PyStr.contains] in H. apply orb_false_elim in H as [Hp Hc].
  cbn [PyStr.replace_from]. rewrite Hp, (IH Hc). reflexivity.
Qed.

Lemma replace_skip (old new p s : string) :
  PyStr.replace_from old new (String.length p) (p ++ s)
  = PyStr.replace_from old new 0 s.
Proof.
  induction p as [|c p IH]; [destruct s; reflexivity|].
  change (String c p ++ s)%string with (String c (p ++ s)). simpl. exact IH.
Qed.

(** X4.  When the base address is [https://] followed by a host that
    holds no scheme itself, the [authority] header of the client is
    that host. *)
Theorem authority_is_the_host :
  forall (settings : Settings.t) (host : string),
    PyStr.rstrip_slash (Settings.api_url settings) = ("https://" ++ host)%string ->
    PyStr.contains "https://" host = false ->
    PyStr.contains "http://" host = false ->
    In ("authority", host) (CodacyAPI.headers (CodacyAPI.__init__ settings)).
Proof.
  intros settings host Hbase Hs Hp. unfold CodacyAPI.__init__. simpl. left.
  rewrite Hbase. f_equal. unfold PyStr.replace.
  replace (PyStr.replace_from "https://" "" 0 ("https://" ++ host))
    with (PyStr.replace_from "https://" "" 0 host).
  - rewrite (replace_absent "https://" "" host Hs).
    apply (replace_absent "http://" "" host Hp).
  - symmetry.
    change ("https://" ++ host)%string with (String "h" ("ttps://" ++ host)).
    cbn [PyStr.replace_from].
    replace (prefix "https://" (String "h" ("ttps://" ++ host))) with true
      by (symmetry; apply (prefix_app "https://" host)).
    change (String.length "https://" - 1) with (String.length "ttps://").
    rewrite replace_skip. reflexivity.
Qed.

Lemma authority_is_the_host_witness :
  In ("authority", "app.codacy.com") (CodacyAPI.headers Example.api).
Proof.
  apply (authority_is_the_host Example.settings "app.codacy.com"); reflexivity.
Defined.

(** ** The client ([src/api/codacy.py]) *)

Section ClientEdges.

Variable srv : Server.
Variable str_of : JSON -> string.
Variable str_exn : Exn -> string.
Variable api : CodacyAPI.t.

(** A listing call: one request, then [response.get('data', [])]. *)
Lemma listing_run (endpoint : string) (t : Trace) :
  let req := sent api "GET" endpoint None None in
  let reply := srv (requests_of t) req in
  (response <- CodacyAPI._make_request srv str_of str_exn api "GET" endpoint
                 None None ;;
   lift (Py.get response "data" (JArr []))) t
  = (match outcome_of reply with
     | Ret (JObj fields) =>
         Ret (match Py.lookup "data" fields with
              | Some d => d
              | None => JArr []
              end)
     | Ret _ => Raise AttributeError
     | Raise e => Raise e
     | OutOfFuel => OutOfFuel
     end,
     t ++ exchange str_of str_exn req reply).
Proof.
  cbv zeta. unfold bind. rewrite make_request_run. cbv zeta.
  destruct (outcome_of _) as [v|e|]; try reflexivity.
  destruct v as [| | | | |fields]; try reflexivity.
  unfold Py.get. destruct (Py.lookup "data" fields); reflexivity.
Qed.

(** A call that sleeps after [_make_request]. *)
Lemma throttled_run (endpoint : string) (data : JSON) (t : Trace) :
  let req := sent api "PATCH" endpoint (Some data) None in
  let reply := srv (requests_of t) req in
  (response <- CodacyAPI._make_request srv str_of str_exn api "PATCH" endpoint
                 (Some data) None ;;
   sleep 2 ;;
   ret response) t
  = (outcome_of reply,
     t ++ exchange str_of str_exn req reply ++ pause_after (outcome_of reply)).
Proof.
  cbv zeta. unfold bind at 1. rewrite make_request_run. cbv zeta.
  destruct (outcome_of _) as [v|e|]; simpl pause_after;
    rewrite ?app_nil_r; try reflexivity.
  run_monad. rewrite <- app_assoc. reflexivity.
Qed.

End ClientEdges.

(** X5.  [get_coding_standards] and [get_available_tools] send one GET
    request each.  When the decoded body is a dict they return its
    [data], or an empty list when it has none; so does an empty body.
    A body that decodes to something else than a dict raises
    [AttributeError], and a request that fails raises its error. *)
Theorem listings_return_data :
  forall (srv : Server) (str_of : JSON -> string) (str_exn : Exn -> string)
         (api : CodacyAPI.t) (t : Trace),
    let data_of o :=
      match o with
      | Ret (JObj fields) =>
          Ret (match Py.lookup "data" fields with
               | Some d => d
               | None => JArr []
               end)
      | Ret _ => Raise AttributeError
      | Raise e => Raise e
      | OutOfFuel => OutOfFuel
      end in
    let standards := srv (requests_of t) (standards_request api) in
    let tools := srv (requests_of t) (tools_request api) in
    CodacyAPI.get_coding_standards srv str_of str_exn api t
    = (data_of (outcome_of standards),
       t ++ exchange str_of str_exn (standards_request api) standards)
    /\ CodacyAPI.get_available_tools srv str_of str_exn api t
       = (data_of (outcome_of tools),
          t ++ exchange str_of str_exn (tools_request api) tools)
    /\ data_of (outcome_of (Requests.Responded (mkResponse 200 NoBody)))
       = Ret (JArr [])
    /\ data_of (outcome_of
                  (Requests.Responded (mkResponse 200 (JsonBody (JArr [])))))
       = Raise AttributeError.
Proof.
  intros srv str_of str_exn api t data_of standards tools.
  split; [|split; [|split]].
  - apply (listing_run srv str_of str_exn api (CodacyAPI.standards_endpoint api) t).
  - apply (listing_run srv str_of str_exn api "api/v3/tools" t).
  - reflexivity.
  - reflexivity.
Qed.

(** X6.  When the service answers with an error status (400 to 599) and
    a body that is empty or is not JSON, [_make_request] logs the
    failure of the request and then raises the error of the decoding of
    the body: the HTTP error and its status do not reach the caller. *)
Theorem undecodable_error_body_masks_http_error :
  forall (srv : Server) (str_of : JSON -> string) (str_exn : Exn -> string)
         (api : CodacyAPI.t) (method endpoint : string) (json : option JSON)
         (params : option (list (string * JSON))) (t : Trace) (r : Response),
    srv (requests_of t) (sent api method endpoint json params)
    = Requests.Responded r ->
    Requests.error_status r = true ->
    (forall v, body r <> JsonBody v) ->
    CodacyAPI._make_request srv str_of str_exn api method endpoint json params t
    = (Raise JSONDecodeError,
       t ++ quiet_exchange (sent api method endpoint json params)
         ++ [ EvLog ERROR ("API request failed: " ++ str_exn (HTTPError r)) ]).
Proof.
  intros srv str_of str_exn api method endpoint json params t r Hreply Hs Hbody.
  rewrite make_request_run. cbv zeta. rewrite Hreply.
  unfold exchange, outcome_of, error_lines. rewrite Hs.
  destruct (body r) as [|v|text] eqn:Eb;
    [reflexivity | exfalso; exact (Hbody v eq_refl) | reflexivity].
Qed.

Lemma undecodable_error_body_masks_http_error_witness :
  let bad_gateway : Server :=
    fun _ _ => Requests.Responded (mkResponse 502 (BadBody "<html>Bad Gateway</html>")) in
  fst (CodacyAPI.get_available_tools bad_gateway Example.str_of Example.str_exn
         Example.api [])
  = Raise JSONDecodeError.
Proof.
  intros bad_gateway. unfold CodacyAPI.get_available_tools.
  rewrite (bind_Raise _ _ _ _ _
             (undecodable_error_body_masks_http_error bad_gateway Example.str_of
                Example.str_exn Example.api "GET" "api/v3/tools" None None []
                (mkResponse 502 (BadBody "<html>Bad Gateway</html>"))
                eq_refl eq_refl
                (fun v H => ltac:(discriminate H)))).
  reflexivity.
Defined.

(** X7.  Only the statuses 400 to 599 are failures: a response with any
    other status, also one outside 200 to 299, whose body decodes is
    returned to the caller, and no error is logged. *)
Theorem other_statuses_are_successes :
  forall (srv : Server) (str_of : JSON -> string) (str_exn : Exn -> string)
         (api : CodacyAPI.t) (method endpoint : string) (json : option JSON)
         (params : option (list (string * JSON))) (t : Trace) (r : Response)
         (v : JSON),
    srv (requests_of t) (sent api method endpoint json params)
    = Requests.Responded r ->
    (status_code r < 400 \/ 600 <= status_code r)%Z ->
    body r = JsonBody v ->
    CodacyAPI._make_request srv str_of str_exn api method endpoint json params t
    = (Ret v, t ++ quiet_exchange (sent api method endpoint json params)).
Proof.
  intros srv str_of str_exn api method endpoint json params t r v Hreply Hs Hbody.
  rewrite make_request_run. cbv zeta. rewrite Hreply.
  assert (He : Requests.error_status r = false).
  { unfold Requests.error_status. apply andb_false_iff.
    destruct Hs as [Hs|Hs]; [left; apply Z.leb_gt | right; apply Z.ltb_ge]; lia. }
  unfold exchange, outcome_of, error_lines. rewrite He, Hbody.
  rewrite app_nil_r. reflexivity.
Qed.

Lemma other_statuses_are_successes_witness :
  let not_modified : Server :=
    fun _ _ => Requests.Responded (mkResponse 304 (JsonBody (JObj []))) in
  fst (CodacyAPI._make_request not_modified Example.str_of Example.str_exn
         Example.api "GET" "api/v3/tools" None None [])
  = Ret (JObj []).
Proof.
  intros not_modified.
  rewrite (other_statuses_are_successes not_modified Example.str_of
             Example.str_exn Example.api "GET" "api/v3/tools" None None []
             (mkResponse 304 (JsonBody (JObj []))) (JObj []) eq_refl);
    [reflexivity | left; reflexivity | reflexivity].
Defined.

(** X8.  [enable_tool] and [update_patterns] send one PATCH request and
    return or raise what [_make_request] makes of the reply; they sleep
    2 seconds after a call that succeeded and do not sleep after a call
    that failed. *)
Theorem mutating_calls_pause_after_success :
  forall (srv : Server) (str_of : JSON -> string) (str_exn : Exn -> string)
         (api : CodacyAPI.t) (sid tool : JSON) (batch : list JSON) (t : Trace),
    let enable := enable_request str_of api sid tool in
    let update := update_request str_of api sid tool batch in
    let enabled := srv (requests_of t) enable in
    let updated := srv (requests_of t) update in
    CodacyAPI.enable_tool srv str_of str_exn api sid tool t
    = (outcome_of enabled,
       t ++ exchange str_of str_exn enable enabled
         ++ pause_after (outcome_of enabled))
    /\ CodacyAPI.update_patterns srv str_of str_exn api sid tool batch t
       = (outcome_of updated,
          t ++ exchange str_of str_exn update updated
            ++ pause_after (outcome_of updated)).
Proof.
  intros srv str_of str_exn api sid tool batch t enable update enabled updated.
  split.
  - apply (throttled_run srv str_of str_exn api
             (CodacyAPI.tool_endpoint str_of api sid tool)
             (JObj [ ("enabled", JBool true); ("patterns", JArr []) ]) t).
  - apply (throttled_run srv str_of str_exn api
             (CodacyAPI.tool_endpoint str_of api sid tool)
             (JObj [ ("enabled", JBool true); ("patterns", JArr batch) ]) t).
Qed.

(** ** Pages that fail ([get_patterns]) *)

Section PageEdges.

Variable srv : Server.
Variable str_of : JSON -> string.
Variable str_exn : Exn -> string.
Variable api : CodacyAPI.t.
Variables sid tool : JSON.
Variable limit : Z.

Local Abbreviation loop := (CodacyAPI.get_patterns_loop srv str_of str_exn api).
Local Abbreviation req_for := (patterns_request str_of api sid tool limit).

(** A turn of the loop whose request fails. *)
Lemma loop_turn_fails (fuel : nat) (acc : list JSON) (cursor : JSON) (t : Trace)
    (e : Exn) :
  outcome_of (srv (requests_of t) (req_for cursor)) = Raise e ->
  loop (S fuel) sid tool limit acc cursor t
  = (Raise e,
     t ++ exchange str_of str_exn (req_for cursor)
            (srv (requests_of t) (req_for cursor))).
Proof.
  intros Hreply. simpl CodacyAPI.get_patterns_loop.
  unfold bind at 1. rewrite make_request_run. cbv zeta.
  change (sent api "GET" _ None _) with (req_for cursor).
  rewrite Hreply. reflexivity.
Qed.

(** A turn of the loop whose request succeeds: what follows depends on
    the decoded body alone. *)
Lemma loop_turn_body (fuel : nat) (acc : list JSON) (cursor v : JSON) (t : Trace) :
  outcome_of (srv (requests_of t) (req_for cursor)) = Ret v ->
  loop (S fuel) sid tool limit acc cursor t
  = (page <- lift (Py.get v "data" (JArr [])) ;;
     items <- lift (Py.iter page) ;;
     pagination <- lift (Py.get v "pagination" (JObj [])) ;;
     has_next_page <- lift (Py.contains "cursor" pagination) ;;
     if has_next_page
     then
       cursor' <- lift (Py.getitem pagination "cursor") ;;
       loop fuel sid tool limit (acc ++ items) cursor'
     else ret (acc ++ items))
      (t ++ quiet_exchange (req_for cursor)).
Proof.
  intros Hreply. simpl CodacyAPI.get_patterns_loop.
  unfold bind at 1. rewrite make_request_run. cbv zeta.
  change (sent api "GET" _ None _) with (req_for cursor).
  rewrite Hreply. unfold exchange.
  rewrite (error_lines_Ret _ _ _ _ Hreply).
  reflexivity.
Qed.

End PageEdges.

(** X9.  When the request for a page fails after pages that were
    fetched, [get_patterns] raises the error of that request: the
    patterns of the pages fetched before are not returned. *)
Theorem failed_page_discards_fetched_patterns :
  forall (srv : Server) (str_of : JSON -> string) (str_exn : Exn -> string)
         (api : CodacyAPI.t) (sid tool : JSON) (limit : Z)
         (pages : list JSON) (e : Exn) (t : Trace) (fuel : nat),
    Forall (fun p => is_page p = true) pages ->
    Forall (fun p => has_cursor p = true) pages ->
    answers_in_turn srv (length (requests_of t)) pages ->
    (forall hist req,
        length hist = length (requests_of t) + length pages ->
        outcome_of (srv hist req) = Raise e) ->
    length pages < fuel ->
    exists t',
      CodacyAPI.get_patterns srv str_of str_exn api fuel sid tool limit t
      = (Raise e, t')
      /\ length (sent_between t t') = length pages + 1.
Proof.
  intros srv str_of str_exn api sid tool limit pages e t fuel
         Hpages Hcur Hsrv Hfail Hfuel.
  unfold CodacyAPI.get_patterns.
  replace fuel with (length pages + S (fuel - S (length pages))) by lia.
  rewrite (loop_through srv str_of str_exn api sid tool limit pages
             [] (JStr "") t _ Hpages Hcur Hsrv).
  set (t1 := t ++ concat (map (page_events str_of api sid tool limit)
                            (cursors_before (JStr "") pages))).
  assert (Hlen : length (requests_of t1)
                 = length (requests_of t) + length pages).
  { unfold t1. rewrite requests_of_app, length_app, requests_of_pages,
      length_map, length_cursors_before. reflexivity. }
  rewrite (loop_turn_fails srv str_of str_exn api sid tool limit _ _ _ t1 e)
    by (apply Hfail; exact Hlen).
  eexists. split; [reflexivity|].
  unfold t1. rewrite <- app_assoc, sent_between_app.
  rewrite requests_of_app, requests_of_pages, exchange_requests.
  rewrite length_app, length_map, length_cursors_before. reflexivity.
Qed.

Lemma failed_page_discards_fetched_patterns_witness :
  let srv :=
    Example.scripted [ Example.ok Example.page1 ]
      (Requests.Unreachable "connection reset") in
  fst (CodacyAPI.get_patterns srv Example.str_of Example.str_exn Example.api 5
         (JStr "std-1") (JStr "u1") 100 [])
  = Raise (ConnectionError "connection reset").
Proof.
  intros srv.
  destruct (failed_page_discards_fetched_patterns srv Example.str_of
              Example.str_exn Example.api (JStr "std-1") (JStr "u1") 100
              [ Example.page1 ] (ConnectionError "connection reset") [] 5)
    as [t' [Hrun _]].
  - repeat constructor.
  - repeat constructor.
  - apply scripted_answers. reflexivity.
  - intros hist req Hlen. unfold srv, Example.scripted. rewrite Hlen. reflexivity.
  - simpl; lia.
  - rewrite Hrun. reflexivity.
Defined.

(** X10.  A response that is not shaped like a page makes
    [get_patterns] raise after one request: [AttributeError] when the
    decoded body is not a dict, [TypeError] when its [data] is [null], a
    boolean or a number, and [TypeError] when its [pagination] is
    [null], a boolean or a number. *)
Theorem misshapen_page_raises :
  forall (srv : Server) (str_of : JSON -> string) (str_exn : Exn -> string)
         (api : CodacyAPI.t) (sid tool : JSON) (limit : Z) (fuel : nat)
         (v : JSON) (t : Trace),
    let first := patterns_request str_of api sid tool limit (JStr "") in
    let run :=
      CodacyAPI.get_patterns srv str_of str_exn api (S fuel) sid tool limit t in
    outcome_of (srv (requests_of t) first) = Ret v ->
    (is_dict v = false ->
     run = (Raise AttributeError, t ++ quiet_exchange first))
    /\ (forall fields d,
          v = JObj fields ->
          Py.lookup "data" fields = Some d ->
          Py.iter d = Err TypeError ->
          run = (Raise TypeError, t ++ quiet_exchange first))
    /\ (forall fields block,
          v = JObj fields ->
          (Py.lookup "data" fields = None
           \/ exists items, Py.lookup "data" fields = Some (JArr items)) ->
          Py.lookup "pagination" fields = Some block ->
          Py.contains "cursor" block = Err TypeError ->
          run = (Raise TypeError, t ++ quiet_exchange first)).
Proof.
  intros srv str_of str_exn api sid tool limit fuel v t first run Hreply.
  subst run. unfold CodacyAPI.get_patterns.
  rewrite (loop_turn_body srv str_of str_exn api sid tool limit fuel [] (JStr "")
             v t Hreply).
  fold first. split; [|split].
  - intros Hv. destruct v; try discriminate; reflexivity.
  - intros fields d -> Hd Hiter. unfold Py.get. rewrite Hd.
    rewrite bind_lift_Ok. rewrite Hiter. reflexivity.
  - intros fields block -> Hdata Hblock Hcontains.
    unfold Py.get.
    destruct Hdata as [Hdata|[items Hdata]]; rewrite Hdata, Hblock;
      rewrite !bind_lift_Ok; simpl Py.iter; rewrite !bind_lift_Ok, Hcontains;
      reflexivity.
Qed.

Lemma misshapen_page_raises_witness :
  let srv : Server :=
    fun _ _ => Example.ok (JObj [ ("data", JArr []); ("pagination", JNull) ]) in
  fst (CodacyAPI.get_patterns srv Example.str_of Example.str_exn Example.api 3
         (JStr "std-1") (JStr "u1") 100 [])
  = Raise TypeError.
Proof.
  intros srv.
  destruct (misshapen_page_raises srv Example.str_of Example.str_exn Example.api
              (JStr "std-1") (JStr "u1") 100 2
              (JObj [ ("data", JArr []); ("pagination", JNull) ]) [] eq_refl)
    as [_ [_ H]].
  rewrite (H [ ("data", JArr []); ("pagination", JNull) ] JNull eq_refl
             (or_intror (ex_intro _ [] eq_refl)) eq_refl eq_refl).
  reflexivity.
Defined.

(** ** Patterns and batches ([process_patterns]) *)

Section PatternEdges.

Variable str_of : JSON -> string.

Local Abbreviation for_pattern_in := (Main.for_pattern_in str_of).

(** Outside a dry run the pattern loop leaves the trace alone. *)
Lemma for_pattern_in_silent (patterns : list JSON) :
  forall (acc : list JSON) (t t' : Trace) (o : Outcome (list JSON)),
    for_pattern_in patterns false acc t = (o, t') -> t' = t.
Proof.
  induction patterns as [|p patterns IH]; intros acc t t' o H.
  - inversion H; reflexivity.
  - rewrite pattern_turn in H.
    destruct (examine p) as [[[pattern_id severity]|]|e].
    + eapply IH; exact H.
    + eapply IH; exact H.
    + inversion H; reflexivity.
Qed.

(** The loop over a list is the loop over its beginning, then the loop
    over its end. *)
Lemma for_pattern_in_app (before rest : list JSON) (dry_run : bool) :
  forall (acc acc' : list JSON) (t t' : Trace),
    for_pattern_in before dry_run acc t = (Ret acc', t') ->
    for_pattern_in (before ++ rest) dry_run acc t
    = for_pattern_in rest dry_run acc' t'.
Proof.
  induction before as [|p before IH]; intros acc acc' t t' H.
  - inversion H; reflexivity.
  - simpl app. rewrite pattern_turn in *.
    destruct (examine p) as [[[pattern_id severity]|]|e]; [| |discriminate];
      apply IH; exact H.
Qed.

End PatternEdges.

(** X11.  When the pattern loop selects nothing, [process_patterns]
    sends no update: outside a dry run it leaves the trace as
    [get_patterns] left it. *)
Theorem nothing_selected_sends_nothing :
  forall (srv : Server) (str_of : JSON -> string) (str_exn : Exn -> string)
         (api : CodacyAPI.t) (fuel : nat) (sid tool : JSON)
         (patterns out : list JSON) (t t1 t1' : Trace),
    CodacyAPI.get_patterns srv str_of str_exn api fuel sid tool 100 t
    = (Ret patterns, t1) ->
    Main.for_pattern_in str_of patterns false [] t1 = (Ret out, t1') ->
    filter selected patterns = [] ->
    Main.process_patterns srv str_of str_exn api fuel sid tool false t
    = (Ret tt, t1).
Proof.
  intros srv str_of str_exn api fuel sid tool patterns out t t1 t1'
         Hget Hsel Hnone.
  pose proof (for_pattern_in_silent str_of _ _ _ _ _ Hsel) as ->.
  pose proof (for_pattern_in_filter str_of _ _ _ _ _ _ Hsel) as Hout.
  rewrite Hnone in Hout. simpl in Hout. subst out.
  unfold Main.process_patterns.
  rewrite (bind_Ret _ _ _ _ _ Hget), (bind_Ret _ _ _ _ _ Hsel). reflexivity.
Qed.

Lemma nothing_selected_sends_nothing_witness :
  let srv : Server :=
    fun _ _ =>
      Example.ok (Example.page [ Example.pattern "p1" "major";
                                 Example.pattern "p2" "critical" ] None) in
  mutations
    (snd (Main.process_patterns srv Example.str_of Example.str_exn Example.api 3
            (JStr "std-1") (JStr "u1") false []))
  = [].
Proof.
  intros srv.
  rewrite (nothing_selected_sends_nothing srv Example.str_of Example.str_exn
             Example.api 3 (JStr "std-1") (JStr "u1")
             [ Example.pattern "p1" "major"; Example.pattern "p2" "critical" ] []
             []
             (snd (CodacyAPI.get_patterns srv Example.str_of Example.str_exn
                     Example.api 3 (JStr "std-1") (JStr "u1") 100 []))
             (snd (CodacyAPI.get_patterns srv Example.str_of Example.str_exn
                     Example.api 3 (JStr "std-1") (JStr "u1") 100 [])));
    reflexivity.
Defined.

(** X12.  A pattern whose [severityLevel] is there and is not a string
    makes [process_patterns] raise [AttributeError], wherever it stands
    in the list: outside a dry run no update is sent, also for the
    patterns selected before it. *)
Theorem ill_typed_severity_aborts_the_tool :
  forall (srv : Server) (str_of : JSON -> string) (str_exn : Exn -> string)
         (api : CodacyAPI.t) (fuel : nat) (sid tool : JSON)
         (before after acc : list JSON) (fields pattern_def : list (string * JSON))
         (level : JSON) (t t1 t1' : Trace),
    CodacyAPI.get_patterns srv str_of str_exn api fuel sid tool 100 t
    = (Ret (before ++ JObj fields :: after), t1) ->
    Main.for_pattern_in str_of before false [] t1 = (Ret acc, t1') ->
    Py.lookup "patternDefinition" fields = Some (JObj pattern_def) ->
    Py.lookup "severityLevel" pattern_def = Some level ->
    (forall s, level <> JStr s) ->
    Main.process_patterns srv str_of str_exn api fuel sid tool false t
    = (Raise AttributeError, t1).
Proof.
  intros srv str_of str_exn api fuel sid tool before after acc fields pattern_def
         level t t1 t1' Hget Hbefore Hdef Hlevel Hnot.
  pose proof (for_pattern_in_silent str_of _ _ _ _ _ Hbefore) as ->.
  unfold Main.process_patterns. rewrite (bind_Ret _ _ _ _ _ Hget).
  apply bind_Raise.
  rewrite (for_pattern_in_app str_of before _ false _ _ _ _ Hbefore).
  rewrite pattern_turn. unfold examine, Py.get. rewrite Hdef, Hlevel.
  destruct (Py.lookup "id" pattern_def);
    destruct level as [| | |s| |]; try reflexivity;
    exfalso; exact (Hnot s eq_refl).
Qed.

Lemma ill_typed_severity_aborts_the_tool_witness :
  let bad :=
    JObj [ ("patternDefinition",
            JObj [ ("id", JStr "p2"); ("severityLevel", JNull) ]) ] in
  let srv : Server :=
    fun _ _ => Example.ok (JObj [ ("data", JArr [ Example.pattern "p1" "minor"; bad ]) ]) in
  let run :=
    Main.process_patterns srv Example.str_of Example.str_exn Example.api 3
      (JStr "std-1") (JStr "u1") false [] in
  fst run = Raise AttributeError /\ mutations (snd run) = [].
Proof.
  intros bad srv run. unfold run.
  rewrite (ill_typed_severity_aborts_the_tool srv Example.str_of Example.str_exn
             Example.api 3 (JStr "std-1") (JStr "u1")
             [ Example.pattern "p1" "minor" ] [] [ Main.disabled (JStr "p1") ]
             [ ("patternDefinition",
                JObj [ ("id", JStr "p2"); ("severityLevel", JNull) ]) ]
             [ ("id", JStr "p2"); ("severityLevel", JNull) ] JNull []
             (snd (CodacyAPI.get_patterns srv Example.str_of Example.str_exn
                     Example.api 3 (JStr "std-1") (JStr "u1") 100 []))
             (snd (CodacyAPI.get_patterns srv Example.str_of Example.str_exn
                     Example.api 3 (JStr "std-1") (JStr "u1") 100 []))).
  - split; reflexivity.
  - reflexivity.
  - reflexivity.
  - reflexivity.
  - reflexivity.
  - intros s H. discriminate H.
Defined.

(** X13.  The update loop stops at the first batch the service refuses:
    it raises the error of that call, and the batches that follow are
    never sent. *)
Theorem refused_batch_stops_the_updates :
  forall (srv : Server) (str_of : JSON -> string) (str_exn : Exn -> string)
         (api : CodacyAPI.t) (sid tool : JSON) (patterns_to_update : list JSON)
         (sent_first : list nat) (i : nat) (never_sent : list nat) (e : Exn)
         (t : Trace),
    let batch_at j := Py.slice patterns_to_update j (j + 500) in
    (forall j, In j sent_first ->
       accepts srv (update_request str_of api sid tool (batch_at j))) ->
    (forall hist,
        outcome_of (srv hist (update_request str_of api sid tool (batch_at i)))
        = Raise e) ->
    exists evs,
      Main.for_batch_in srv str_of str_exn api sid tool patterns_to_update
        (sent_first ++ i :: never_sent) t
      = (Raise e, t ++ evs)
      /\ requests_of evs
         = map (fun j => update_request str_of api sid tool (batch_at j))
             (sent_first ++ [i]).
Proof.
  intros srv str_of str_exn api sid tool ptu sent_first i never_sent e t batch_at.
  revert t. induction sent_first as [|j sent_first IH]; intros t Hok Hfail.
  - simpl app. simpl Main.for_batch_in.
    unfold bind at 1. unfold CodacyAPI.update_patterns.
    rewrite throttled_run. cbv zeta.
    change (sent api "PATCH" _ _ None)
      with (update_request str_of api sid tool (batch_at i)).
    rewrite Hfail. simpl pause_after. rewrite app_nil_r.
    eexists. split; [reflexivity|]. apply exchange_requests.
  - simpl app. simpl Main.for_batch_in.
    destruct (Hok j (or_introl eq_refl) (requests_of t)) as [v Hv].
    rewrite (bind_Ret _ _ _ _ _
               (update_patterns_run srv str_of str_exn api sid tool _ v t Hv)).
    rewrite bind_log.
    match goal with
    | |- context [Main.for_batch_in _ _ _ _ _ _ _ _ ?t1] =>
        destruct (IH t1) as [evs [Hrun Hreq]]
    end.
    + intros j' Hj'. apply Hok. right. exact Hj'.
    + exact Hfail.
    + rewrite Hrun. rewrite <- !app_assoc.
      eexists. split; [reflexivity|].
      rewrite !requests_of_app, Hreq. reflexivity.
Qed.

Lemma refused_batch_stops_the_updates_witness :
  exists evs,
    Main.for_batch_in Example.refuses_second Example.str_of Example.str_exn
      Example.api (JStr "std-1") (JStr "u1") Example.three_runs
      (Py.range 0 (length Example.three_runs) 500) []
    = (Raise (ConnectionError "payload refused"), evs)
    /\ length (requests_of evs) = 2.
Proof.
  destruct (refused_batch_stops_the_updates Example.refuses_second Example.str_of
              Example.str_exn Example.api (JStr "std-1") (JStr "u1")
              Example.three_runs [0] 500 [1000]
              (ConnectionError "payload refused") [])
    as [evs [Hrun Hreq]].
  - intros j [<-|[]] hist. exists (JObj []). vm_compute. reflexivity.
  - intros hist. vm_compute. reflexivity.
  - exists evs. split.
    + replace (Py.range 0 (length Example.three_runs) 500) with [0; 500; 1000]
        by (vm_compute; reflexivity).
      exact Hrun.
    + rewrite Hreq. reflexivity.
Defined.

(** ** Tools that cannot be processed ([create_standard]) *)

(** X14.  A tool whose [uuid] or [name] is missing, [null] or empty is
    skipped: the loop logs one warning, sends nothing for it and goes on
    with the next tool. *)
Theorem incomplete_tool_is_skipped :
  forall (srv : Server) (str_of : JSON -> string) (str_exn : Exn -> string)
         (api : CodacyAPI.t) (fuel : nat) (sid : JSON) (dry_run : bool)
         (tool uuid name : JSON) (rest : list JSON) (prev : option JSON)
         (t : Trace),
    Py.get tool "uuid" JNull = Ok uuid ->
    Py.get tool "name" JNull = Ok name ->
    Py.truthy uuid = false \/ Py.truthy name = false ->
    Main.for_tool_in srv str_of str_exn api fuel sid dry_run (tool :: rest) prev t
    = Main.for_tool_in srv str_of str_exn api fuel sid dry_run rest (Some name)
        (t ++ [ EvLog WARNING ("Skipping tool with incomplete data: "
                               ++ CodacyAPI.fmt str_of tool) ]).
Proof.
  intros srv str_of str_exn api fuel sid dry_run tool uuid name rest prev t
         Huuid Hname Hfalsy.
  rewrite (tool_turn _ _ _ _ _ _ _ _ uuid name _ _ _ Huuid Hname).
  unfold Main.process_tool.
  replace (negb (Py.truthy uuid) || negb (Py.truthy name)) with true.
  - reflexivity.
  - destruct Hfalsy as [-> | ->]; [reflexivity|].
    destruct (Py.truthy uuid); reflexivity.
Qed.

Lemma incomplete_tool_is_skipped_witness :
  Main.for_tool_in Example.service Example.str_of Example.str_exn Example.api 3
    (JStr "std-1") false [ JObj [ ("uuid", JStr "u1") ] ] None []
  = (Ret tt, [ EvLog WARNING "Skipping tool with incomplete data: <value>" ]).
Proof.
  rewrite (incomplete_tool_is_skipped Example.service Example.str_of
             Example.str_exn Example.api 3 (JStr "std-1") false
             (JObj [ ("uuid", JStr "u1") ]) (JStr "u1") JNull [] None []);
    [reflexivity | reflexivity | reflexivity | right; reflexivity].
Defined.

(** X15.  A catalogue entry that is not a dict has no [get]: when it is
    the first tool, the handler of the loop reads [tool_name] before any
    tool has set it, the error leaves the loop and the run ends with
    status 1; after a tool that set [tool_name], the loop logs the
    failure under the name of that earlier tool and goes on. *)
Theorem entry_that_is_no_dict :
  forall (srv : Server) (str_of : JSON -> string) (str_exn : Exn -> string)
         (api : CodacyAPI.t) (fuel : nat) (dry_run : bool)
         (tool : JSON) (rest : list JSON),
    is_dict tool = false ->
    (forall sid t,
        Main.for_tool_in srv str_of str_exn api fuel sid dry_run (tool :: rest)
          None t
        = (Raise (UnboundLocalError "tool_name"), t))
    /\ (forall sid earlier t,
          Main.for_tool_in srv str_of str_exn api fuel sid dry_run (tool :: rest)
            (Some earlier) t
          = Main.for_tool_in srv str_of str_exn api fuel sid dry_run rest
              (Some earlier)
              (t ++ [ tool_error_line str_of str_exn earlier AttributeError ]))
    /\ (forall name sid t t1 t2,
          Main.new_standard_id srv str_of str_exn api name dry_run
            (t ++ [ creating_line name ]) = (Ret sid, t1) ->
          CodacyAPI.get_available_tools srv str_of str_exn api
            (t1 ++ [ EvLog INFO "Fetching available tools..." ])
          = (Ret (JArr (tool :: rest)), t2) ->
          Main.main srv str_of str_exn api fuel name dry_run t
          = (Some 1%Z,
             t2 ++ [ failure_line str_exn (UnboundLocalError "tool_name") ])).
Proof.
  intros srv str_of str_exn api fuel dry_run tool rest Htool.
  assert (Hget : forall k, Py.get tool k JNull = Err AttributeError)
    by (intros k; destruct tool; try reflexivity; discriminate).
  assert (Hfirst : forall sid t,
             Main.for_tool_in srv str_of str_exn api fuel sid dry_run
               (tool :: rest) None t
             = (Raise (UnboundLocalError "tool_name"), t)).
  { intros sid t. simpl Main.for_tool_in. rewrite !Hget. reflexivity. }
  split; [exact Hfirst|]. split.
  - intros sid earlier t. simpl Main.for_tool_in. rewrite !Hget. reflexivity.
  - intros name sid t t1 t2 Hsid Htools.
    rewrite (main_of_workflow srv str_of str_exn api fuel name dry_run t t2
               (Raise (UnboundLocalError "tool_name"))); [reflexivity|].
    unfold Main.workflow. rewrite bind_log.
    rewrite (bind_Ret _ _ _ _ _ Hsid), bind_log.
    rewrite (bind_Ret _ _ _ _ _ Htools).
    cbv beta iota delta [Py.truthy negb Py.iter]. rewrite bind_lift_Ok.
    apply bind_Raise. apply Hfirst.
Qed.

Lemma entry_that_is_no_dict_witness :
  let srv : Server := fun _ _ => Example.ok (Example.catalogue [ JNull ]) in
  fst (Main.main srv Example.str_of Example.str_exn Example.api 3 "demo" true [])
  = Some 1%Z.
Proof.
  intros srv.
  destruct (entry_that_is_no_dict srv Example.str_of Example.str_exn Example.api
              3 true JNull [] eq_refl) as [_ [_ H]].
  rewrite (H "demo" (JStr "dry-run-id") []
             (snd (Main.new_standard_id srv Example.str_of Example.str_exn
                     Example.api "demo" true [ creating_line "demo" ]))
             (snd (CodacyAPI.get_available_tools srv Example.str_of
                     Example.str_exn Example.api
                     (snd (Main.new_standard_id srv Example.str_of
                             Example.str_exn Example.api "demo" true
                             [ creating_line "demo" ])
                      ++ [ EvLog INFO "Fetching available tools..." ]))));
    reflexivity.
Defined.

(** ** The id of the new standard, and the end of a run *)

(** X16.  [create_standard] takes the id of the new standard from
    [data.id] of the response: an id that is there but falsy ([0],
    [''], [false], [null]) is refused with the same [ValueError] as a
    missing one, a [data] that is not a dict raises [AttributeError],
    and any other id is logged and used as it is. *)
Theorem id_of_the_new_standard :
  forall (srv : Server) (str_of : JSON -> string) (str_exn : Exn -> string)
         (api : CodacyAPI.t) (name : string) (fields : list (string * JSON))
         (t t1 : Trace),
    CodacyAPI.create_coding_standard srv str_of str_exn api name t
    = (Ret (JObj fields), t1) ->
    let new_id := Main.new_standard_id srv str_of str_exn api name false t in
    (forall data id,
        Py.lookup "data" fields = Some (JObj data) ->
        Py.lookup "id" data = Some id ->
        Py.truthy id = false ->
        new_id
        = (Raise (ValueError "Failed to get coding standard ID from response"),
           t1))
    /\ (forall data id,
          Py.lookup "data" fields = Some (JObj data) ->
          Py.lookup "id" data = Some id ->
          Py.truthy id = true ->
          new_id
          = (Ret id,
             t1 ++ [ EvLog INFO ("Created coding standard with ID: "
                                 ++ CodacyAPI.fmt str_of id) ]))
    /\ (forall d,
          Py.lookup "data" fields = Some d ->
          is_dict d = false ->
          new_id = (Raise AttributeError, t1)).
Proof.
  intros srv str_of str_exn api name fields t t1 Hcreate new_id. subst new_id.
  unfold Main.new_standard_id. rewrite (bind_Ret _ _ _ _ _ Hcreate).
  assert (Hget : forall (l : list (string * JSON)) k v default,
             Py.lookup k l = Some v -> Py.get (JObj l) k default = Ok v)
    by (intros l k v default H; unfold Py.get; rewrite H; reflexivity).
  split; [|split].
  - intros data id Hdata Hid Hfalsy.
    rewrite (Hget _ _ _ _ Hdata), bind_lift_Ok.
    rewrite (Hget _ _ _ _ Hid), bind_lift_Ok, Hfalsy. reflexivity.
  - intros data id Hdata Hid Htruthy.
    rewrite (Hget _ _ _ _ Hdata), bind_lift_Ok.
    rewrite (Hget _ _ _ _ Hid), bind_lift_Ok, Htruthy. reflexivity.
  - intros d Hdata Hd. rewrite (Hget _ _ _ _ Hdata), bind_lift_Ok.
    destruct d; try reflexivity; discriminate.
Qed.

Lemma id_of_the_new_standard_witness :
  let srv : Server :=
    fun _ _ => Example.ok (JObj [ ("data", JObj [ ("id", JInt 0) ]) ]) in
  fst (Main.new_standard_id srv Example.str_of Example.str_exn Example.api
         "demo" false [])
  = Raise (ValueError "Failed to get coding standard ID from response").
Proof.
  intros srv.
  destruct (id_of_the_new_standard srv Example.str_of Example.str_exn Example.api
              "demo" [ ("data", JObj [ ("id", JInt 0) ]) ] []
              (snd (CodacyAPI.create_coding_standard srv Example.str_of
                      Example.str_exn Example.api "demo" []))
              eq_refl) as [H _].
  rewrite (H [ ("id", JInt 0) ] (JInt 0) eq_refl eq_refl eq_refl).
  reflexivity.
Defined.

(** X17.  A real run whose tool loop has returned promotes the standard
    and then makes it the default, both with the id the creation
    returned; when the service accepts both, these are the last two
    requests of the run, the success line is logged and the status is
    0. *)
Theorem successful_run_promotes_then_sets_default :
  forall (srv : Server) (str_of : JSON -> string) (str_exn : Exn -> string)
         (api : CodacyAPI.t) (fuel : nat) (name : string)
         (sid tools promoted made_default : JSON) (items : list JSON)
         (t t1 t2 t3 : Trace),
    Main.new_standard_id srv str_of str_exn api name false
      (t ++ [ creating_line name ]) = (Ret sid, t1) ->
    CodacyAPI.get_available_tools srv str_of str_exn api
      (t1 ++ [ EvLog INFO "Fetching available tools..." ]) = (Ret tools, t2) ->
    Py.truthy tools = true ->
    Py.iter tools = Ok items ->
    Main.for_tool_in srv str_of str_exn api fuel sid false items None t2
    = (Ret tt, t3) ->
    outcome_of (srv (requests_of t3) (promote_request str_of api sid))
    = Ret promoted ->
    outcome_of (srv (requests_of t3 ++ [ promote_request str_of api sid ])
                  (set_default_request str_of api sid))
    = Ret made_default ->
    Main.main srv str_of str_exn api fuel name false t
    = (Some 0%Z,
       t3 ++ [ EvLog INFO "Promoting coding standard..." ]
          ++ quiet_exchange (promote_request str_of api sid)
          ++ [ EvLog INFO "Setting as default coding standard..." ]
          ++ quiet_exchange (set_default_request str_of api sid)
          ++ [ EvLog INFO "Successfully created and configured coding standard" ]).
Proof.
  intros srv str_of str_exn api fuel name sid tools promoted made_default items
         t t1 t2 t3 Hsid Htools Htruthy Hiter Hloop Hpromote Hdefault.
  rewrite (main_of_workflow srv str_of str_exn api fuel name false t
             (t3 ++ [ EvLog INFO "Promoting coding standard..." ]
                 ++ quiet_exchange (promote_request str_of api sid)
                 ++ [ EvLog INFO "Setting as default coding standard..." ]
                 ++ quiet_exchange (set_default_request str_of api sid)
                 ++ [ EvLog INFO
                        "Successfully created and configured coding standard" ])
             (Ret tt)); [reflexivity|].
  rewrite (workflow_after_tools _ _ _ _ _ _ _ _ _ _ _ _ _ _
             Hsid Htools Htruthy Hiter Hloop).
  unfold Main.publish. cbv beta iota delta [negb].
  unfold bind at 1. rewrite bind_log.
  unfold CodacyAPI.promote_draft. unfold bind at 1.
  rewrite make_request_run. cbv zeta.
  change (sent api "POST" _ None None) with (promote_request str_of api sid).
  rewrite requests_of_app. simpl (requests_of [_]). rewrite app_nil_r.
  rewrite Hpromote. unfold exchange at 1.
  rewrite (error_lines_Ret _ _ _ _ Hpromote).
  rewrite bind_log.
  unfold CodacyAPI.set_default. unfold bind at 1.
  rewrite make_request_run. cbv zeta.
  change (sent api "POST" _ (Some _) None)
    with (set_default_request str_of api sid).
  replace (requests_of
             (((t3 ++ [EvLog INFO "Promoting coding standard..."])
               ++ [EvLog DEBUG
                     ("Making "
                      ++ Requests.method (promote_request str_of api sid)
                      ++ " request to "
                      ++ Requests.url (promote_request str_of api sid));
                   EvRequest (promote_request str_of api sid)] ++ [])
              ++ [EvLog INFO "Setting as default coding standard..."]))
    with (requests_of t3 ++ [ promote_request str_of api sid ])
    by (rewrite !requests_of_app; simpl; rewrite !app_nil_r; reflexivity).
  rewrite Hdefault. unfold exchange.
  rewrite (error_lines_Ret _ _ _ _ Hdefault).
  run_monad. unfold quiet_exchange. simpl. rewrite <- !app_assoc. reflexivity.
Qed.

Lemma successful_run_promotes_then_sets_default_witness :
  let run :=
    Main.main Example.service Example.str_of Example.str_exn Example.api 3 "demo"
      false [] in
  fst run = Some 0%Z
  /\ skipn 5 (requests_of (snd run))
     = [ promote_request Example.str_of Example.api (JStr "std-1");
         set_default_request Example.str_of Example.api (JStr "std-1") ].
Proof.
  intros run. unfold run.
  set (t1 := snd (Main.new_standard_id Example.service Example.str_of
                    Example.str_exn Example.api "demo" false
                    [ creating_line "demo" ])).
  set (t2 := snd (CodacyAPI.get_available_tools Example.service Example.str_of
                    Example.str_exn Example.api
                    (t1 ++ [ EvLog INFO "Fetching available tools..." ]))).
  set (t3 := snd (Main.for_tool_in Example.service Example.str_of
                    Example.str_exn Example.api 3 (JStr "std-1") false
                    [ Example.tool "u1" "ToolOne" ] None t2)).
  rewrite (successful_run_promotes_then_sets_default Example.service
             Example.str_of Example.str_exn Example.api 3 "demo" (JStr "std-1")
             (JArr [ Example.tool "u1" "ToolOne" ]) (JObj []) (JObj [])
             [ Example.tool "u1" "ToolOne" ] [] t1 t2 t3);
    try reflexivity.
  split; [reflexivity|]. vm_compute. reflexivity.
Defined.

(** ** The requests of a run *)

Lemma emits_bind_post (P : list Event -> Prop) (Q : Exn -> Prop)
    {A B : Type} (post : A -> Prop) (m : M A) (k : A -> M B) :
  (forall evs1 evs2, P evs1 -> P evs2 -> P (evs1 ++ evs2)) ->
  emits P Q m ->
  (forall t a t', m t = (Ret a, t') -> post a) ->
  (forall a, post a -> emits P Q (k a)) ->
  emits P Q (bind m k).
Proof.
  intros P_app Hm Hpost Hk t o t' H. unfold bind in H.
  destruct (m t) as [[a|e|] t1] eqn:Em;
    destruct (Hm _ _ _ Em) as [[evs1 [-> HP1]] HQ1].
  - destruct (Hk a (Hpost _ _ _ Em) _ _ _ H) as [[evs2 [-> HP2]] HQ2].
    split; [|exact HQ2]. exists (evs1 ++ evs2). rewrite app_assoc. auto.
  - inversion H; subst. split; [exists evs1; auto|].
    intros e' He'. inversion He'; subst. auto.
  - inversion H; subst. split; [exists evs1; auto | discriminate].
Qed.

Lemma range_from_below (step : nat) :
  forall fuel start stop,
    Forall (fun i => i < stop) (Py.range_from fuel start stop step).
Proof.
  induction fuel as [|fuel IH]; intros start stop; simpl; [constructor|].
  destruct (Nat.ltb start stop) eqn:E; [|constructor].
  constructor; [apply Nat.ltb_lt; exact E | apply IH].
Qed.

Section Sends.

Variable srv : Server.
Variable str_of : JSON -> string.
Variable str_exn : Exn -> string.
Variable api : CodacyAPI.t.

(** The requests a computation sends all satisfy [R]. *)
Variable R : Requests.Request -> Prop.

Local Abbreviation sends :=
  (emits (fun evs => Forall R (requests_of evs)) (fun _ : Exn => True)).

Lemma sends_app (evs1 evs2 : list Event) :
  Forall R (requests_of evs1) -> Forall R (requests_of evs2) ->
  Forall R (requests_of (evs1 ++ evs2)).
Proof. intros H1 H2. rewrite requests_of_app. apply Forall_app; auto. Qed.

Ltac sends_bind x := apply emits_bind; [exact sends_app | | intros x].
Ltac sends_lift := apply emits_lift; [constructor | auto].
Ltac sends_ret := apply emits_ret; constructor.
Ltac sends_event := apply emits_emit; constructor.

Lemma sends_request (method endpoint : string) (json : option JSON)
    (params : option (list (string * JSON))) :
  R (sent api method endpoint json params) ->
  sends (CodacyAPI._make_request srv str_of str_exn api method endpoint json
           params).
Proof.
  intros HR. apply emits_make_request; [|auto].
  intros reply. rewrite exchange_requests. constructor; [exact HR | constructor].
Qed.

Lemma sends_get_patterns_loop (fuel : nat) (sid tool : JSON) :
  (forall cursor, R (patterns_request str_of api sid tool 100 cursor)) ->
  forall acc cursor,
    sends (CodacyAPI.get_patterns_loop srv str_of str_exn api fuel sid tool 100
             acc cursor).
Proof.
  intros HR. induction fuel as [|fuel IH]; intros acc cursor.
  - apply emits_out_of_fuel. constructor.
  - simpl CodacyAPI.get_patterns_loop.
    sends_bind response; [apply sends_request; apply (HR cursor)|].
    sends_bind page; [sends_lift|].
    sends_bind items; [sends_lift|].
    sends_bind pagination; [sends_lift|].
    sends_bind has_next_page; [sends_lift|].
    destruct has_next_page; [|sends_ret].
    sends_bind c; [sends_lift | apply IH].
Qed.

Lemma sends_for_pattern_in (patterns : list JSON) (dry_run : bool) :
  forall acc, sends (Main.for_pattern_in str_of patterns dry_run acc).
Proof.
  induction patterns as [|p patterns IH]; intros acc.
  - sends_ret.
  - simpl Main.for_pattern_in.
    sends_bind pattern_def; [sends_lift|].
    sends_bind pattern_id; [sends_lift|].
    sends_bind level; [sends_lift|].
    sends_bind severity; [sends_lift|].
    destruct (Main.is_minor severity); [|apply IH].
    sends_bind u; [|apply IH].
    destruct dry_run; [sends_event | sends_ret].
Qed.

Lemma sends_for_batch_in (sid tool : JSON) (ptu : list JSON) (starts : list nat) :
  (forall batch,
      0 < length batch <= 500 -> R (update_request str_of api sid tool batch)) ->
  Forall (fun i => i < length ptu) starts ->
  sends (Main.for_batch_in srv str_of str_exn api sid tool ptu starts).
Proof.
  intros HR. induction 1 as [|i starts Hi _ IH]; simpl.
  - sends_ret.
  - sends_bind r; [|sends_bind u; [sends_event | exact IH]].
    unfold CodacyAPI.update_patterns.
    sends_bind response; [|sends_bind u; [sends_event | sends_ret]].
    apply sends_request. apply HR. unfold Py.slice.
    rewrite length_firstn, length_skipn. lia.
Qed.

Lemma sends_process_patterns (fuel : nat) (sid tool : JSON) (dry_run : bool) :
  (forall cursor, R (patterns_request str_of api sid tool 100 cursor)) ->
  (dry_run = false ->
   forall batch,
     0 < length batch <= 500 -> R (update_request str_of api sid tool batch)) ->
  sends (Main.process_patterns srv str_of str_exn api fuel sid tool dry_run).
Proof.
  intros Hpages Hupdate. unfold Main.process_patterns.
  sends_bind patterns; [apply sends_get_patterns_loop; exact Hpages|].
  sends_bind ptu; [apply sends_for_pattern_in|].
  destruct dry_run; [rewrite andb_false_r; sends_ret|].
  destruct (_ && _); [|sends_ret].
  apply sends_for_batch_in; [exact (Hupdate eq_refl)|].
  apply range_from_below.
Qed.

Section Tools.

Variable sid : JSON.
Variable dry_run : bool.
Hypothesis R_pages :
  forall tool cursor, R (patterns_request str_of api sid tool 100 cursor).
Hypothesis R_enable :
  dry_run = false -> forall tool, R (enable_request str_of api sid tool).
Hypothesis R_update :
  dry_run = false ->
  forall tool batch,
    0 < length batch <= 500 -> R (update_request str_of api sid tool batch).

Lemma sends_process_tool (fuel : nat) (tool uuid name : JSON) :
  sends (Main.process_tool srv str_of str_exn api fuel sid dry_run tool uuid name).
Proof.
  assert (Hpatterns :
            sends (Main.process_patterns srv str_of str_exn api fuel sid uuid
                     dry_run)).
  { apply sends_process_patterns; [apply R_pages|].
    intros Hd batch. apply (R_update Hd). }
  unfold Main.process_tool.
  destruct (_ || _); [sends_event|].
  sends_bind u; [sends_event|].
  destruct dry_run eqn:Ed; simpl negb; cbv iota.
  - sends_bind u'; [sends_event | exact Hpatterns].
  - sends_bind r.
    + unfold CodacyAPI.enable_tool.
      sends_bind response; [|sends_bind u'; [sends_event | sends_ret]].
      apply sends_request. apply (R_enable eq_refl).
    + sends_bind u'; [sends_event | exact Hpatterns].
Qed.

Lemma sends_tool_failed (tool_name : option JSON) (e : Exn) :
  sends (Main.tool_failed str_of str_exn tool_name e).
Proof.
  destruct tool_name as [name|]; simpl.
  - sends_event.
  - apply emits_raise; [constructor | exact I].
Qed.

Lemma sends_for_tool_in (fuel : nat) (tools : list JSON) :
  forall tool_name,
    sends (Main.for_tool_in srv str_of str_exn api fuel sid dry_run tools
             tool_name).
Proof.
  induction tools as [|tool tools IH]; intros tool_name.
  - sends_ret.
  - simpl Main.for_tool_in.
    destruct (Py.get tool "uuid" JNull) as [uuid|e];
      [destruct (Py.get tool "name" JNull) as [name|e]|].
    + sends_bind u; [|apply IH].
      apply (emits_try_except _ (fun _ => True));
        [constructor | exact sends_app | apply sends_process_tool
        | intros e _ _; apply sends_tool_failed | auto].
    + sends_bind u; [apply sends_tool_failed | apply IH].
    + sends_bind u; [apply sends_tool_failed | apply IH].
Qed.

End Tools.

(** The standard a run works on: the placeholder in a dry run. *)
Lemma new_standard_id_dry (name : string) (t t' : Trace) (sid : JSON) :
  Main.new_standard_id srv str_of str_exn api name true t = (Ret sid, t') ->
  sid = JStr "dry-run-id".
Proof. intros H. inversion H. reflexivity. Qed.

Lemma sends_create_standard (fuel : nat) (name : string) (dry_run : bool) :
  R (tools_request api) ->
  (dry_run = false -> R (create_request api name)) ->
  (forall sid tool cursor,
      (dry_run = true -> sid = JStr "dry-run-id") ->
      R (patterns_request str_of api sid tool 100 cursor)) ->
  (dry_run = false -> forall sid tool, R (enable_request str_of api sid tool)) ->
  (dry_run = false ->
   forall sid tool batch,
     0 < length batch <= 500 -> R (update_request str_of api sid tool batch)) ->
  (dry_run = false -> forall sid, R (promote_request str_of api sid)) ->
  (dry_run = false -> forall sid, R (set_default_request str_of api sid)) ->
  sends (Main.create_standard srv str_of str_exn api fuel name dry_run).
Proof.
  intros Htools Hcreate Hpages Henable Hupdate Hpromote Hdefault.
  unfold Main.create_standard.
  apply (emits_try_except _ (fun _ => True));
    [constructor | exact sends_app | |
     intros e _ _; sends_bind u; [sends_event | apply emits_raise; [constructor | exact I]]
     | auto].
  unfold Main.workflow.
  sends_bind u; [sends_event|].
  apply (emits_bind_post _ _ (fun sid => dry_run = true -> sid = JStr "dry-run-id"));
    [exact sends_app | | |].
  - unfold Main.new_standard_id. destruct dry_run.
    + sends_bind u'; [sends_event | sends_ret].
    + sends_bind response; [apply sends_request; apply (Hcreate eq_refl)|].
      sends_bind data; [sends_lift|].
      sends_bind standard_id; [sends_lift|].
      destruct (negb (Py.truthy standard_id));
        [apply emits_raise; [constructor | exact I]|].
      sends_bind u'; [sends_event | sends_ret].
  - intros t a t' Hrun Hd. subst dry_run.
    exact (new_standard_id_dry name t t' a Hrun).
  - intros sid Hsid.
    sends_bind u1; [sends_event|].
    sends_bind tools.
    { unfold CodacyAPI.get_available_tools.
      sends_bind response; [apply sends_request; exact Htools | sends_lift]. }
    destruct (negb (Py.truthy tools)); [sends_event|].
    sends_bind items; [sends_lift|].
    sends_bind u2.
    { apply sends_for_tool_in.
      - intros tool cursor. apply Hpages. exact Hsid.
      - intros Hd tool. apply (Henable Hd).
      - intros Hd tool batch. apply (Hupdate Hd). }
    unfold Main.publish.
    sends_bind u3; [|sends_event].
    destruct dry_run; simpl negb; cbv iota; [sends_ret|].
    sends_bind u4; [sends_event|].
    sends_bind r1; [apply sends_request; apply (Hpromote eq_refl)|].
    sends_bind u5; [sends_event|].
    sends_bind r2; [apply sends_request; apply (Hdefault eq_refl)|].
    sends_ret.
Qed.

End Sends.

Lemma string_app_nil_r (s : string) : (s ++ "")%string = s.
Proof.
  induction s as [|a s IH]; [reflexivity|].
  change (String a s ++ "")%string with (String a (s ++ "")).
  rewrite IH. reflexivity.
Qed.

(** X18.  Whatever the service answers, every request of a run of
    [create_standard] is one of seven: the creation of the standard, the
    tool catalogue, the enabling of a tool, a page of patterns with
    limit 100, an update with at least 1 and at most 500 patterns, the
    promotion, the default.  Each carries the headers of the client and
    no raw [data], and its address starts with the base address and
    [/api/v3/]. *)
Theorem every_request_of_a_run :
  forall (srv : Server) (str_of : JSON -> string) (str_exn : Exn -> string)
         (api : CodacyAPI.t) (fuel : nat) (name : string) (dry_run : bool)
         (t : Trace),
    let sent_requests :=
      sent_between t
        (snd (Main.create_standard srv str_of str_exn api fuel name dry_run t)) in
    Forall (workflow_request str_of api name) sent_requests
    /\ Forall (fun r =>
                 Requests.headers r = CodacyAPI.headers api
                 /\ Requests.data r = None
                 /\ prefix (CodacyAPI.base_url api ++ "/api/v3/") (Requests.url r)
                    = true)
         sent_requests.
Proof.
  intros srv str_of str_exn api fuel name dry_run t sent_requests.
  assert (Hall : Forall (workflow_request str_of api name) sent_requests).
  { subst sent_requests.
    destruct (Main.create_standard srv str_of str_exn api fuel name dry_run t)
      as [o t'] eqn:E.
    destruct (sends_create_standard srv str_of str_exn api
                (workflow_request str_of api name) fuel name dry_run
                (sends_tools _ _ _)
                (fun _ => sends_create _ _ _)
                (fun sid tool cursor _ => sends_patterns _ _ _ sid tool cursor)
                (fun _ sid tool => sends_enable _ _ _ sid tool)
                (fun _ sid tool batch H => sends_update _ _ _ sid tool batch H)
                (fun _ sid => sends_promote _ _ _ sid)
                (fun _ sid => sends_default _ _ _ sid)
                _ _ _ E) as [[evs [-> Hevs]] _].
    simpl snd. rewrite sent_between_app. exact Hevs. }
  split; [exact Hall|].
  eapply Forall_impl; [|exact Hall].
  intros r Hr. split; [|split].
  - destruct Hr; reflexivity.
  - destruct Hr; reflexivity.
  - assert (Hstd : forall rest,
               prefix (CodacyAPI.base_url api ++ "/api/v3/")
                 (CodacyAPI.base_url api ++ "/"
                  ++ PyStr.lstrip_slash (CodacyAPI.standards_endpoint api ++ rest))
               = true).
    { intros rest. rewrite standards_under_organization.
      change ("/api/v3/organizations/" ++ CodacyAPI.provider api ++ "/"
              ++ CodacyAPI.org_name api ++ "/coding-standards" ++ rest)%string
        with ("/api/v3/" ++ ("organizations/" ++ CodacyAPI.provider api ++ "/"
              ++ CodacyAPI.org_name api ++ "/coding-standards" ++ rest))%string.
      rewrite <- string_app_assoc. apply prefix_app. }
    destruct Hr as [| |sid tool|sid tool cursor|sid tool batch Hb|sid|sid].
    + generalize (Hstd ""%string). rewrite string_app_nil_r.
      intros H. exact H.
    + change (Requests.url (tools_request api))
        with (CodacyAPI.base_url api ++ ("/api/v3/" ++ "tools"))%string.
      rewrite <- string_app_assoc. apply prefix_app.
    + exact (Hstd ("/" ++ CodacyAPI.fmt str_of sid ++ "/tools/"
                   ++ CodacyAPI.fmt str_of tool)%string).
    + replace (Requests.url (patterns_request str_of api sid tool 100 cursor))
        with (CodacyAPI.base_url api ++ "/"
              ++ PyStr.lstrip_slash
                   (CodacyAPI.standards_endpoint api
                    ++ "/" ++ CodacyAPI.fmt str_of sid ++ "/tools/"
                    ++ CodacyAPI.fmt str_of tool ++ "/patterns"))%string.
      * apply Hstd.
      * unfold patterns_request, sent, CodacyAPI.tool_endpoint.
        cbv beta iota delta [Requests.url].
        rewrite !string_app_assoc. reflexivity.
    + exact (Hstd ("/" ++ CodacyAPI.fmt str_of sid ++ "/tools/"
                   ++ CodacyAPI.fmt str_of tool)%string).
    + exact (Hstd ("/" ++ CodacyAPI.fmt str_of sid ++ "/promote")%string).
    + exact (Hstd ("/" ++ CodacyAPI.fmt str_of sid ++ "/setDefault")%string).
Qed.

(** X19.  A dry run asks the service for the tool catalogue and, for
    the patterns of the tools, for pages of the standard [dry-run-id],
    the placeholder it uses instead of the id of a created standard: it
    sends no other request. *)
Theorem dry_run_reads_the_placeholder_standard :
  forall (srv : Server) (str_of : JSON -> string) (str_exn : Exn -> string)
         (api : CodacyAPI.t) (fuel : nat) (name : string) (t : Trace),
    Forall (dry_run_request str_of api)
      (sent_between t
         (snd (Main.create_standard srv str_of str_exn api fuel name true t))).
Proof.
  intros srv str_of str_exn api fuel name t.
  destruct (Main.create_standard srv str_of str_exn api fuel name true t)
    as [o t'] eqn:E.
  assert (Hsends :
            emits (fun evs => Forall (dry_run_request str_of api) (requests_of evs))
              (fun _ => True)
              (Main.create_standard srv str_of str_exn api fuel name true)).
  { apply sends_create_standard.
    - left. reflexivity.
    - discriminate.
    - intros sid tool cursor Hsid. rewrite (Hsid eq_refl).
      right. exists tool, cursor. reflexivity.
    - discriminate.
    - discriminate.
    - discriminate.
    - discriminate. }
  destruct (Hsends _ _ _ E) as [[evs [-> Hevs]] _].
  simpl snd. rewrite sent_between_app. exact Hevs.
Qed.
